(** * PredicateColumnType: the storage-layer predicate column

    A shallow embedding of [be/src/vec/columns/predicate_column.h]:
    the raw value container [PredicateColumnType<T>], its insertion
    entry points, the selective materialization [filter_by_selector]
    and the guarded generic operations.

    Conventions of the embedding.
    - The container [data] is a [PaddedPODArray<T>]: the bytes between
      its start and end pointers, kept as one flat [list byte]; row [n]
      is the [sizeof T] bytes at offset [n * sizeof T].
    - [const char*] arguments are addresses (a [Z]) into a byte memory.
    - Integers are [Z], little-endian in memory (x86-64), with the
      wrap-around of the C++ type written out where a value is formed.
    - Sizes and loop counters ([size_t], [int]) are [nat]; a batch is
      assumed to stay far below the range of [int].
    - An operation yields an [outcome]: it completes, it aborts through
      [LOG(FATAL)] or a failed [DCHECK], or its behaviour is undefined
      (a read outside the container or an array, a mismatching cast).
    - Types declared in other headers ([StringValue], [decimal12_t],
      [uint24_t], [Status], the destination columns,
      [VecDateTimeValue], [DecimalV2Value]) are modelled from the
      specification, each marked where it is introduced. *)

From Stdlib Require Import String ZArith List Bool Lia QArith.
From Stdlib Require Strings.Byte.
Import ListNotations.

Local Open Scope Z_scope.

(** ** Bytes and little-endian integers *)

Definition byte : Type := Byte.byte.

Definition byte_to_Z (b : byte) : Z := Z.of_N (Byte.to_N b).

Definition byte_of_Z (z : Z) : byte :=
  match Byte.of_N (Z.to_N (z mod 256)) with
  | Some b => b
  | None => Byte.x00
  end.

(** The unsigned integer whose little-endian bytes are [bs]. *)
Fixpoint le_decode (bs : list byte) : Z :=
  match bs with
  | [] => 0
  | b :: rest => byte_to_Z b + 256 * le_decode rest
  end.

(** The [n] low bytes of [z], least significant first (two's complement
    for a negative [z]). *)
Fixpoint le_encode (n : nat) (z : Z) : list byte :=
  match n with
  | O => []
  | S k => byte_of_Z z :: le_encode k (z / 256)
  end.

Definition wrap (bits : Z) (z : Z) : Z := z mod 2 ^ bits.

(** Reading a [bits]-wide pattern as a signed integer. *)
Definition to_signed (bits : Z) (z : Z) : Z :=
  let u := wrap bits z in
  if u <? 2 ^ (bits - 1) then u else u - 2 ^ bits.

(** ** Memory behind [char*] arguments *)

Definition Memory := Z -> byte.

(** The [n] bytes at address [p]. *)
Definition read_bytes (mem : Memory) (p : Z) (n : nat) : list byte :=
  map (fun i => mem (p + Z.of_nat i)) (seq 0 n).

(** A memory holding [buf] from address [base] on, zero elsewhere. *)
Definition mem_of_buffer (base : Z) (buf : list byte) : Memory :=
  fun a => if a <? base then Byte.x00
           else nth (Z.to_nat (a - base)) buf Byte.x00.

(** ** Outcomes *)

Inductive outcome (A : Type) : Type :=
| Done (a : A)            (* the call completes *)
| Fatal (msg : string)    (* LOG(FATAL) or a failed DCHECK: the process aborts *)
| Undefined.              (* outside defined behaviour *)

Arguments Done {A} a.
Arguments Fatal {A} msg.
Arguments Undefined {A}.

Definition bind {A B} (m : outcome A) (k : A -> outcome B) : outcome B :=
  match m with
  | Done a => k a
  | Fatal msg => Fatal msg
  | Undefined => Undefined
  end.

Notation "x <- m ;; k" := (bind m (fun x => k))
  (at level 61, m at next level, right associativity).

(** Modelled from the spec: [Status] (common/status.h) is not under
    src/; the materialization returns either success or the typed,
    recoverable error "not supported", which carries a message. *)
Inductive Status : Type :=
| OK
| NotSupported (msg : string).

(** ** The element types [T] *)

Inductive PType : Type :=
| T_StringValue          (* string descriptor: pointer and length *)
| T_decimal12_t          (* 12-byte packed decimal *)
| T_Int8
| T_Int16
| T_Int32
| T_Int64
| T_Float32
| T_Float64
| T_uint64_t
| T_uint24_t             (* uint24_t: three bytes *)
| T_Int128
| T_bool
| T_UInt8
| T_UInt16
| T_UInt32
| T_other (size : positive).   (* any further trivially copyable T *)

Definition PType_eqb (a b : PType) : bool :=
  match a, b with
  | T_StringValue, T_StringValue | T_decimal12_t, T_decimal12_t
  | T_Int8, T_Int8 | T_Int16, T_Int16 | T_Int32, T_Int32 | T_Int64, T_Int64
  | T_Float32, T_Float32 | T_Float64, T_Float64
  | T_uint64_t, T_uint64_t | T_uint24_t, T_uint24_t
  | T_Int128, T_Int128 | T_bool, T_bool
  | T_UInt8, T_UInt8 | T_UInt16, T_UInt16 | T_UInt32, T_UInt32 => true
  | T_other p, T_other q => Pos.eqb p q
  | _, _ => false
  end.

(** [sizeof(T)]. Modelled from the spec for the types whose headers
    are not under src/: a string descriptor is a pointer and a length
    (eight bytes each on x86-64), a packed decimal has 12 bytes, a
    packed date 3. *)
Definition sizeof (T : PType) : nat :=
  match T with
  | T_StringValue => 16
  | T_decimal12_t => 12
  | T_Int8 => 1
  | T_Int16 => 2
  | T_Int32 => 4
  | T_Int64 => 8
  | T_Float32 => 4
  | T_Float64 => 8
  | T_uint64_t => 8
  | T_uint24_t => 3
  | T_Int128 => 16
  | T_bool => 1
  | T_UInt8 => 1
  | T_UInt16 => 2
  | T_UInt32 => 4
  | T_other p => Pos.to_nat p
  end.

(** The value of a [T] object with bytes [bs]: signed for the signed
    integer types, the bit pattern for every other type (floats are
    only copied, never computed with). *)
Definition load (T : PType) (bs : list byte) : Z :=
  match T with
  | T_Int8 => to_signed 8 (le_decode bs)
  | T_Int16 => to_signed 16 (le_decode bs)
  | T_Int32 => to_signed 32 (le_decode bs)
  | T_Int64 => to_signed 64 (le_decode bs)
  | T_Int128 => to_signed 128 (le_decode bs)
  | _ => le_decode bs
  end.

(** ** 16-bit selection indices *)

(** A [uint16_t] is two bytes in memory, low byte first. *)
Record uint16_t : Type := mk_uint16 { u16_lo : byte; u16_hi : byte }.

(** The value of the index. *)
Definition u16 (idx : uint16_t) : Z := le_decode [u16_lo idx; u16_hi idx].

(** The conversion of an integer to [uint16_t]. *)
Definition to_uint16 (z : Z) : uint16_t :=
  mk_uint16 (byte_of_Z z) (byte_of_Z (z / 256)).

(** ** The container *)

Definition Container := list byte.

(** [data.size()] *)
Definition size (T : PType) (data : Container) : nat :=
  (length data / sizeof T)%nat.

(** [byte_size()] *)
Definition byte_size (T : PType) (data : Container) : nat :=
  (size T data * sizeof T)%nat.

(** The bytes of row [n]. *)
Definition row (T : PType) (data : Container) (n : nat) : list byte :=
  firstn (sizeof T) (skipn (n * sizeof T) data).

(** [data[idx]]: no bounds check in the source. *)
Definition elem_at (T : PType) (data : Container) (idx : uint16_t)
  : outcome (list byte) :=
  if (Z.to_nat (u16 idx) <? size T data)%nat
  then Done (row T data (Z.to_nat (u16 idx)))
  else Undefined.

(** [allocated_bytes()] *)
Definition allocated_bytes (T : PType) (data : Container) : nat :=
  byte_size T data.

(** [size_of_value_if_fixed()] *)
Definition size_of_value_if_fixed (T : PType) : nat := sizeof T.

(** [clear()] *)
Definition clear (data : Container) : Container := [].

(** [reserve(n)] changes the capacity only, which is not kept here. *)
Definition reserve (n : nat) (data : Container) : Container := data.

(** [data.push_back_without_reserve(x)] for an object with bytes [obj]. *)
Definition push_back_without_reserve (obj : list byte) (data : Container)
  : Container := data ++ obj.

(** ** Object representations *)

(** Modelled from the spec: [StringValue] (runtime/string_value.h) is
    not under src/. The spec describes a string descriptor, a pointer
    and a length into a buffer the descriptor does not own; the source
    builds it as [StringValue(ptr, len)] and reads [sv.ptr], [sv.len].
    The object is taken as an eight-byte pointer followed by an
    eight-byte length. *)
Record StringValue : Type := mk_StringValue { sv_ptr : Z; sv_len : Z }.

Definition StringValue_bytes (sv : StringValue) : list byte :=
  le_encode 8 (sv_ptr sv) ++ le_encode 8 (sv_len sv).

(** [reinterpret_cast<StringValue&>(data[n])] *)
Definition as_StringValue (obj : list byte) : StringValue :=
  mk_StringValue (le_decode (firstn 8 obj)) (le_decode (firstn 8 (skipn 8 obj))).

(** Modelled from the spec: [decimal12_t] (olap/decimal12.h) is not
    under src/. The spec gives a 12-byte packed decimal, an 8-byte
    integer part followed by a 4-byte fraction; the source fills the
    fields [integer] and [fraction] from an [int64_t] and an
    [int32_t]. *)
Record decimal12_t : Type := mk_decimal12 { integer : Z; fraction : Z }.

Definition decimal12_bytes (d : decimal12_t) : list byte :=
  le_encode 8 (integer d) ++ le_encode 4 (fraction d).

(** [reinterpret_cast<const decimal12_t&>(data[n])] *)
Definition as_decimal12 (obj : list byte) : decimal12_t :=
  mk_decimal12 (to_signed 64 (le_decode (firstn 8 obj)))
               (to_signed 32 (le_decode (firstn 4 (skipn 8 obj)))).

(** ** Insertion path *)

Section Insertion.

Variable mem : Memory.

Definition insert_string_value (data_ptr : Z) (length : Z) (data : Container)
  : Container :=
  let sv := mk_StringValue data_ptr length in
  push_back_without_reserve (StringValue_bytes sv) data.

Definition insert_decimal_value (data_ptr : Z) (length : Z) (data : Container)
  : Container :=
  let dc12_value :=
    mk_decimal12
      (to_signed 64 (le_decode (read_bytes mem data_ptr 8)))
      (to_signed 32 (le_decode (read_bytes mem (data_ptr + 8) 4))) in
  push_back_without_reserve (decimal12_bytes dc12_value) data.

(** used for int128: [memcpy(&val, data_ptr, sizeof(val))] *)
Definition insert_in_copy_way (T : PType) (data_ptr : Z) (length : Z)
    (data : Container) : Container :=
  let val := read_bytes mem data_ptr (sizeof T) in
  push_back_without_reserve val data.

(** [data.push_back_without_reserve( *(T* )data_ptr)] *)
Definition insert_default_type (T : PType) (data_ptr : Z) (length : Z)
    (data : Container) : Container :=
  let val := read_bytes mem data_ptr (sizeof T) in
  push_back_without_reserve val data.

Definition insert_data (T : PType) (data_ptr : Z) (length : Z)
    (data : Container) : Container :=
  match T with
  | T_StringValue => insert_string_value data_ptr length data
  | T_decimal12_t => insert_decimal_value data_ptr length data
  | T_Int128 => insert_in_copy_way T data_ptr length data
  | _ => insert_default_type T data_ptr length data
  end.

(** [res_val_ptr[i] = input_val_ptr[i]] for [i] from [0] to [num - 1],
    written past the end pointer, which then moves by [num]. *)
Definition insert_many_default_type (T : PType) (data_ptr : Z) (num : nat)
    (data : Container) : Container :=
  fold_left
    (fun res i =>
       res ++ read_bytes mem (data_ptr + Z.of_nat (i * sizeof T)) (sizeof T))
    (seq 0 num) data.

(** [memcpy(res_ptr, data_ptr, num * sizeof(T))] *)
Definition insert_many_in_copy_way (T : PType) (data_ptr : Z) (num : nat)
    (data : Container) : Container :=
  data ++ read_bytes mem data_ptr (num * sizeof T).

Definition insert_many_fix_len_data (T : PType) (data_ptr : Z) (num : nat)
    (data : Container) : Container :=
  match T with
  | T_decimal12_t => insert_many_in_copy_way T data_ptr num data
  | T_Int128 => insert_many_in_copy_way T data_ptr num data
  | T_StringValue => data      (* unreachable in the source: no statement *)
  | _ => insert_many_default_type T data_ptr num data
  end.

End Insertion.

(** [a[i]] on a C array: undefined outside the array. *)
Definition array_at (a : list Z) (i : Z) : outcome Z :=
  if i <? 0 then Undefined
  else match nth_error a (Z.to_nat i) with
       | Some v => Done v
       | None => Undefined
       end.

(** The loop of [insert_many_dict_data]: [num] rounds, [start_index]
    moving with the counter. *)
Fixpoint insert_many_dict_loop (data_array : list Z) (start_index : nat)
    (start_offset_array len_array : list Z) (dict_data : Z) (num : nat)
    (data : Container) : outcome Container :=
  match num with
  | O => Done data
  | S num' =>
      codeword <- array_at data_array (Z.of_nat start_index) ;;
      start_offset <- array_at start_offset_array codeword ;;
      str_len <- array_at len_array codeword ;;
      insert_many_dict_loop data_array (S start_index) start_offset_array
        len_array dict_data num'
        (insert_string_value (dict_data + start_offset) str_len data)
  end.

Definition insert_many_dict_data (T : PType) (data_array : list Z)
    (start_index : nat) (start_offset_array len_array : list Z)
    (dict_data : Z) (num : nat) (data : Container) : outcome Container :=
  match T with
  | T_StringValue =>
      insert_many_dict_loop data_array start_index start_offset_array
        len_array dict_data num data
  | _ => Done data
  end.

Fixpoint insert_many_binary_loop (data_array : Z)
    (len_array start_offset_array : list Z) (i num : nat) (data : Container)
    : outcome Container :=
  match num with
  | O => Done data
  | S num' =>
      len <- array_at len_array (Z.of_nat i) ;;
      start_offset <- array_at start_offset_array (Z.of_nat i) ;;
      insert_many_binary_loop data_array len_array start_offset_array (S i) num'
        (insert_string_value (data_array + start_offset) len data)
  end.

Definition insert_many_binary_data (T : PType) (data_array : Z)
    (len_array start_offset_array : list Z) (num : nat) (data : Container)
    : outcome Container :=
  match T with
  | T_StringValue =>
      insert_many_binary_loop data_array len_array start_offset_array 0 num data
  | _ => Done data
  end.

(** ** Collaborators of the materialization *)

(** Modelled from the spec: [VecDateTimeValue]
    (vec/runtime/vdatetime_value.h) is not under src/. The spec speaks
    of a domain date codec and a domain datetime codec that turn the
    packed integers into date-time values kept in an integer-backed
    column, and of an encode-decode round trip, but gives no bit
    layout. The class is therefore an interface: the materialization
    only builds such values and stores their eight bytes, and every
    property below holds for every codec. *)
Class DateTimeCodec : Type := {
  VecDateTimeValue : Type;
  (** [VecDateTimeValue date; date.from_olap_date(v)] *)
  from_olap_date : Z -> VecDateTimeValue;
  (** the inverse direction of the codec, [to_olap_date()] *)
  to_olap_date : VecDateTimeValue -> Z;
  (** [VecDateTimeValue date(value)] for a packed datetime integer *)
  from_datetime_value : Z -> VecDateTimeValue;
  (** the eight bytes of the object read as an [Int64] *)
  to_int64 : VecDateTimeValue -> Z
}.

Definition ONE_BILLION : Z := 1000000000.

(** Modelled from the spec: [DecimalV2Value] (runtime/decimalv2_value.h)
    is not under src/. The spec gives a fixed-point decimal built from
    an integer part and a fraction field in which 450000000 stands for
    .45, that is nine fractional digits; the value is held as the
    128-bit integer that counts units of 10^-9. *)
Definition DecimalV2Value (int_value frac_value : Z) : Z :=
  int_value * ONE_BILLION + frac_value.

(** The number a [DecimalV2Value] stands for. *)
Definition decimal_to_Q (v : Z) : Q := Qmake v 1000000000.

(** Modelled from the spec: the destination columns (column_vector.h,
    column_string.h, column_decimal.h) are not under src/. The spec
    names a numeric column, a string column, a 128-bit decimal column
    and an integer-backed date-time column, each appended to row by
    row. They are kept by their rows: [ColumnVector<Y>] holds one [Y]
    per row, [ColumnString] the bytes of one string per row,
    [ColumnDecimal<Decimal128>] one 128-bit integer per row. *)
Inductive IColumn : Type :=
| ColumnVector (Y : PType) (res_data : list Z)
| ColumnString (rows : list (list byte))
| ColumnDecimal (vals : list Z).

(** [reinterpret_cast<ColumnVector<Y>*>(col_ptr)]: using the result on
    a column of another type is undefined. *)
Definition cast_ColumnVector (Y : PType) (col_ptr : IColumn)
  : outcome (list Z) :=
  match col_ptr with
  | ColumnVector Y' res_data =>
      if PType_eqb Y Y' then Done res_data else Undefined
  | _ => Undefined
  end.

Definition cast_ColumnString (col_ptr : IColumn) : outcome (list (list byte)) :=
  match col_ptr with
  | ColumnString rows => Done rows
  | _ => Undefined
  end.

Definition cast_ColumnDecimal (col_ptr : IColumn) : outcome (list Z) :=
  match col_ptr with
  | ColumnDecimal vals => Done vals
  | _ => Undefined
  end.

(** [obj[k]] read through an [unsigned char*] into the object. *)
Definition object_byte (obj : list byte) (k : nat) : outcome Z :=
  match nth_error obj k with
  | Some b => Done (byte_to_Z b)
  | None => Undefined
  end.

Definition is_empty {A} (l : list A) : bool :=
  match l with [] => true | _ => false end.

(** ** Selective materialization *)

Section Materialization.

Context {codec : DateTimeCodec}.
Variable mem : Memory.
Variable T : PType.
Variable data : Container.

Definition get_date_at (idx : uint16_t) : outcome Z :=
  val <- elem_at T data idx ;;
  b2 <- object_byte val 2 ;;
  b1 <- object_byte val 1 ;;
  b0 <- object_byte val 0 ;;
  let value := b2 in
  let value := wrap 64 (Z.shiftl value 8) in
  let value := Z.lor value b1 in
  let value := wrap 64 (Z.shiftl value 8) in
  let value := Z.lor value b0 in
  Done value.

Fixpoint insert_date_to_res_column (sel : list uint16_t) (res_ptr : list Z)
  : outcome (list Z) :=
  match sel with
  | [] => Done res_ptr
  | sel_i :: sel' =>
      v <- get_date_at sel_i ;;
      let date := from_olap_date v in
      insert_date_to_res_column sel' (res_ptr ++ [to_int64 date])
  end.

Fixpoint insert_datetime_to_res_column (sel : list uint16_t)
    (res_ptr : list Z) : outcome (list Z) :=
  match sel with
  | [] => Done res_ptr
  | sel_i :: sel' =>
      val <- elem_at T data sel_i ;;
      let value := wrap 64 (le_decode val) in
      let date := from_datetime_value value in
      insert_datetime_to_res_column sel' (res_ptr ++ [to_int64 date])
  end.

(** [ColumnString::insert_data(sv.ptr, sv.len)] copies the bytes. *)
Fixpoint insert_string_to_res_column (sel : list uint16_t)
    (res_ptr : list (list byte)) : outcome (list (list byte)) :=
  match sel with
  | [] => Done res_ptr
  | n :: sel' =>
      obj <- elem_at T data n ;;
      let sv := as_StringValue obj in
      insert_string_to_res_column sel'
        (res_ptr ++ [read_bytes mem (sv_ptr sv) (Z.to_nat (sv_len sv))])
  end.

Fixpoint insert_decimal_to_res_column (sel : list uint16_t)
    (res_ptr : list Z) : outcome (list Z) :=
  match sel with
  | [] => Done res_ptr
  | n :: sel' =>
      obj <- elem_at T data n ;;
      let dv := as_decimal12 obj in
      let dv_data := DecimalV2Value (integer dv) (fraction dv) in
      insert_decimal_to_res_column sel' (res_ptr ++ [dv_data])
  end.

(** The loop [y[i] = T(data[sel[i]])]. *)
Fixpoint default_value_loop (sel : list uint16_t) (y : list Z)
  : outcome (list Z) :=
  match sel with
  | [] => Done y
  | sel_i :: sel' =>
      val <- elem_at T data sel_i ;;
      default_value_loop sel' (y ++ [load T val])
  end.

(** [DCHECK(res_data.empty())] is taken as checked. After
    [reserve(sel_size)] the loop writes from the end pointer on, and
    the end pointer moves by [sel_size]. *)
Definition insert_default_value_res_column (sel : list uint16_t)
    (res_data : list Z) : outcome (list Z) :=
  if negb (is_empty res_data) then Fatal "Check failed: res_data.empty()"
  else
    y <- default_value_loop sel [] ;;
    Done (res_data ++ y).

(** [res_ptr->insert_data(ch_val, 0)], a virtual call: on the byte
    column [ColumnVector<UInt8>] it appends the byte at [ch_val]. Any
    other destination is a caller error and is left undefined. *)
Fixpoint insert_byte_to_res_column (sel : list uint16_t) (res_ptr : IColumn)
  : outcome IColumn :=
  match sel with
  | [] => Done res_ptr
  | n :: sel' =>
      obj <- elem_at T data n ;;
      ch_val <- object_byte obj 0 ;;
      match res_ptr with
      | ColumnVector T_UInt8 res_data =>
          insert_byte_to_res_column sel'
            (ColumnVector T_UInt8 (res_data ++ [ch_val]))
      | _ => Undefined
      end
  end.

(** The dispatch on [T]: a chain of [if constexpr] tests, closed by a
    plain [if] on [std::is_same_v<T, bool>], a constant of the
    instantiation, so every [T] takes exactly one branch. The call
    returns its [Status] together with the destination as it leaves
    it. *)
Definition filter_by_selector (sel : list uint16_t) (col_ptr : IColumn)
  : outcome (Status * IColumn) :=
  match T with
  | T_StringValue =>
      res <- cast_ColumnString col_ptr ;;
      res' <- insert_string_to_res_column sel res ;;
      Done (OK, ColumnString res')
  | T_decimal12_t =>
      res <- cast_ColumnDecimal col_ptr ;;
      res' <- insert_decimal_to_res_column sel res ;;
      Done (OK, ColumnDecimal res')
  | T_Int8 | T_Int16 | T_Int32 | T_Int64 | T_Float32 | T_Float64 =>
      res <- cast_ColumnVector T col_ptr ;;
      res' <- insert_default_value_res_column sel res ;;
      Done (OK, ColumnVector T res')
  | T_uint64_t =>
      res <- cast_ColumnVector T_Int64 col_ptr ;;
      res' <- insert_datetime_to_res_column sel res ;;
      Done (OK, ColumnVector T_Int64 res')
  | T_uint24_t =>
      res <- cast_ColumnVector T_Int64 col_ptr ;;
      res' <- insert_date_to_res_column sel res ;;
      Done (OK, ColumnVector T_Int64 res')
  | T_Int128 =>
      res <- cast_ColumnVector T col_ptr ;;
      res' <- insert_default_value_res_column sel res ;;
      Done (OK, ColumnVector T res')
  | T_bool =>
      res' <- insert_byte_to_res_column sel col_ptr ;;
      Done (OK, res')
  | _ =>
      Done (NotSupported "not supported output type in predicate_column",
            col_ptr)
  end.

End Materialization.

(** ** The guarded generic operations *)

Module Guard.

(** Argument types of the generic column interface, as far as a call
    needs them; no guarded operation reads its arguments. *)
Inductive Field : Type :=
| Null
| IntField (v : Z)
| StringField (s : list byte).

(** One call of a guarded member function, with its arguments. *)
Inductive GuardedCall : Type :=
| get_data_at (n : nat)
| insert_from (src : IColumn) (n : nat)
| insert_range_from (src : IColumn) (start length : nat)
| insert_indices_from (src : IColumn) (indices : list Z)
| pop_back (n : nat)
| update_hash_with_value (n : nat) (hash : Z)
| get_permutation (reverse : bool) (limit : nat) (nan_direction_hint : Z)
    (res : list nat)
| get_family_name
| clone_resized (size : nat)
| insert (x : Field)
| operator_index (n : nat)
| get (n : nat) (res : Field)
| get64 (n : nat)
| get_float64 (n : nat)
| get_uint (n : nat)
| get_bool (n : nat)
| get_int (n : nat)
| serialize_value_into_arena (n : nat) (arena : Z) (begin : Z)
| deserialize_and_insert_from_arena (pos : Z)
| compare_at (n m : nat) (rhs : IColumn) (nan_direction_hint : Z)
| get_extremes (min max : Field)
| get_raw_data
| structure_equals (rhs : IColumn)
| filter (filt : list bool) (result_size_hint : Z)
| permute (perm : list nat) (limit : nat)
| replicate (replicate_offsets : list nat)
| scatter (num_columns : nat) (selector : list nat)
| replace_column_data (src : IColumn) (row self_row : nat)
| replace_column_data_default (self_row : nat).

(** The name of the member function a call goes to. *)
Definition operation_name (c : GuardedCall) : string :=
  match c with
  | get_data_at _ => "get_data_at"
  | insert_from _ _ => "insert_from"
  | insert_range_from _ _ _ => "insert_range_from"
  | insert_indices_from _ _ => "insert_indices_from"
  | pop_back _ => "pop_back"
  | update_hash_with_value _ _ => "update_hash_with_value"
  | get_permutation _ _ _ _ => "get_permutation"
  | get_family_name => "get_family_name"
  | clone_resized _ => "clone_resized"
  | insert _ => "insert"
  | operator_index _ => "operator[]"
  | get _ _ => "get"
  | get64 _ => "get64"
  | get_float64 _ => "get_float64"
  | get_uint _ => "get_uint"
  | get_bool _ => "get_bool"
  | get_int _ => "get_int"
  | serialize_value_into_arena _ _ _ => "serialize_value_into_arena"
  | deserialize_and_insert_from_arena _ => "deserialize_and_insert_from_arena"
  | compare_at _ _ _ _ => "compare_at"
  | get_extremes _ _ => "get_extremes"
  | get_raw_data => "get_raw_data"
  | structure_equals _ => "structure_equals"
  | filter _ _ => "filter"
  | permute _ _ => "permute"
  | replicate _ => "replicate"
  | scatter _ _ => "scatter"
  | replace_column_data _ _ _ => "replace_column_data"
  | replace_column_data_default _ => "replace_column_data_default"
  end.

(** What a generic operation could hand back if it returned. *)
Inductive GuardedResult : Type :=
| R_void
| R_value (v : Z)
| R_field (f : Field)
| R_columns (cols : list IColumn).

(** The bodies of the guarded members: each is one [LOG(FATAL)]. *)
Definition call_guarded (T : PType) (data : Container) (c : GuardedCall)
  : outcome GuardedResult :=
  match c with
  | get_data_at _ =>
      Fatal "get_data_at not supported in PredicateColumnType"
  | insert_from _ _ =>
      Fatal "insert_from not supported in PredicateColumnType"
  | insert_range_from _ _ _ =>
      Fatal "insert_range_from not supported in PredicateColumnType"
  | insert_indices_from _ _ =>
      Fatal "insert_indices_from not supported in PredicateColumnType"
  | pop_back _ =>
      Fatal "pop_back not supported in PredicateColumnType"
  | update_hash_with_value _ _ =>
      Fatal "update_hash_with_value not supported in PredicateColumnType"
  | get_permutation _ _ _ _ =>
      Fatal "get_permutation not supported in PredicateColumnType"
  | get_family_name =>
      Fatal "get_family_name not supported in PredicateColumnType"
  | clone_resized _ =>
      Fatal "clone_resized not supported in PredicateColumnType"
  | insert _ =>
      Fatal "insert not supported in PredicateColumnType"
  | operator_index _ =>
      Fatal "operator[] not supported in PredicateColumnType"
  | get _ _ =>
      Fatal "get field not supported in PredicateColumnType"
  | get64 _ =>
      Fatal "get field not supported in PredicateColumnTyped"
  | get_float64 _ =>
      Fatal "get field not supported in PredicateColumnType"
  | get_uint _ =>
      Fatal "get field not supported in PredicateColumnType"
  | get_bool _ =>
      Fatal "get field not supported in PredicateColumnType"
  | get_int _ =>
      Fatal "get field not supported in PredicateColumnType"
  | serialize_value_into_arena _ _ _ =>
      Fatal "serialize_value_into_arena not supported in PredicateColumnType"
  | deserialize_and_insert_from_arena _ =>
      Fatal "deserialize_and_insert_from_arena not supported in PredicateColumnType"
  | compare_at _ _ _ _ =>
      Fatal "compare_at not supported in PredicateColumnType"
  | get_extremes _ _ =>
      Fatal "get_extremes not supported in PredicateColumnType"
  | get_raw_data =>
      Fatal "get_raw_data not supported in PredicateColumnType"
  | structure_equals _ =>
      Fatal "structure_equals not supported in PredicateColumnType"
  | filter _ _ =>
      Fatal "filter not supported in PredicateColumnType"
  | permute _ _ =>
      Fatal "permute not supported in PredicateColumnType"
  | replicate _ =>
      Fatal "replicate not supported in PredicateColumnType"
  | scatter _ _ =>
      Fatal "scatter not supported in PredicateColumnType"
  | replace_column_data _ _ _ =>
      Fatal "should not call replace_column_data in predicate column"
  | replace_column_data_default _ =>
      Fatal "should not call replace_column_data_default in predicate column"
  end.

(** [needle] occurs in [hay]. *)
Fixpoint contains (needle hay : string) : bool :=
  String.prefix needle hay ||
  match hay with
  | EmptyString => false
  | String _ rest => contains needle rest
  end.

(** The operation a failure reports. The getters of a row's field,
    [get], [get64], [get_float64], [get_uint], [get_bool] and
    [get_int], are one operation to the caller of the generic
    interface, the field get; every other member function is an
    operation of its own, under its own name. *)
Definition reported_operation (c : GuardedCall) : string :=
  match c with
  | get _ _ | get64 _ | get_float64 _ | get_uint _ | get_bool _
  | get_int _ => "get field"
  | _ => operation_name c
  end.

End Guard.

(** ** The decode rules, as the specification words them *)

(** A materialized row: a number (integer, bit pattern of a float,
    date-time as integer, decimal) or the bytes of a string. *)
Inductive Value : Type :=
| VInt (v : Z)
| VString (s : list byte).

Definition rows_of (col : IColumn) : list Value :=
  match col with
  | ColumnVector _ res_data => map VInt res_data
  | ColumnString rows => map VString rows
  | ColumnDecimal vals => map VInt vals
  end.

(** The representations the materialization dispatches on. *)
Definition supported (T : PType) : bool :=
  match T with
  | T_StringValue | T_decimal12_t
  | T_Int8 | T_Int16 | T_Int32 | T_Int64 | T_Float32 | T_Float64
  | T_uint64_t | T_uint24_t | T_Int128 | T_bool => true
  | _ => false
  end.

(** The representations copied by value into a pre-reserved column. *)
Definition fast_numeric (T : PType) : bool :=
  match T with
  | T_Int8 | T_Int16 | T_Int32 | T_Int64 | T_Float32 | T_Float64
  | T_Int128 => true
  | _ => false
  end.

(** The destination type the decode table pairs with [T], empty. *)
Definition fresh_destination (T : PType) : IColumn :=
  match T with
  | T_StringValue => ColumnString []
  | T_decimal12_t => ColumnDecimal []
  | T_uint64_t | T_uint24_t => ColumnVector T_Int64 []
  | T_bool => ColumnVector T_UInt8 []
  | _ => ColumnVector T []
  end.

(** [col] is a destination the table pairs with [T]; for the
    pre-reserved numeric copy it must also start empty. *)
Definition destination_ready (T : PType) (col : IColumn) : bool :=
  match T, col with
  | T_StringValue, ColumnString _ => true
  | T_decimal12_t, ColumnDecimal _ => true
  | (T_uint64_t | T_uint24_t), ColumnVector T_Int64 _ => true
  | T_bool, ColumnVector T_UInt8 _ => true
  | _, ColumnVector Y res_data =>
      fast_numeric T && PType_eqb T Y && is_empty res_data
  | _, _ => false
  end.

(** The decoded value of one raw row, rule by rule of the decode table:
    a packed date goes through the date codec, a packed datetime
    through the datetime codec, a string descriptor yields the bytes it
    refers to, a packed decimal the fixed-point value of its two
    fields, a boolean its byte, every other scalar itself. *)
Definition spec_decode {codec : DateTimeCodec} (mem : Memory) (T : PType)
    (raw : list byte) : Value :=
  match T with
  | T_uint24_t => VInt (to_int64 (from_olap_date (le_decode (firstn 3 raw))))
  | T_uint64_t => VInt (to_int64 (from_datetime_value (le_decode raw)))
  | T_StringValue =>
      let ptr := le_decode (firstn 8 raw) in
      let len := le_decode (firstn 8 (skipn 8 raw)) in
      VString (read_bytes mem ptr (Z.to_nat len))
  | T_decimal12_t =>
      let int_part := to_signed 64 (le_decode (firstn 8 raw)) in
      let frac_part := to_signed 32 (le_decode (firstn 4 (skipn 8 raw))) in
      VInt (DecimalV2Value int_part frac_part)
  | T_bool => VInt (le_decode (firstn 1 raw))
  | _ => VInt (load T raw)
  end.

(** The selection [0, 1, ..., n-1] written into 16-bit entries. It is
    the full range of [n] rows for [n] up to 65536; a longer one cannot
    be written, the entries start again at 0. *)
Definition full_range (n : nat) : list uint16_t :=
  map (fun i => to_uint16 (Z.of_nat i)) (seq 0 n).

(** The [n] raw values of type [T] lying at address [p]. *)
Definition values_at (mem : Memory) (T : PType) (p : Z) (n : nat)
  : list (list byte) :=
  map (fun i => read_bytes mem (p + Z.of_nat (i * sizeof T)) (sizeof T))
      (seq 0 n).

(** ** A codec to run the development on

    Calendar fields packed as [year * 512 + month * 32 + day] on disk;
    a datetime integer read as the decimal digits [YYYYMMDDhhmmss]. *)
Module SampleCodec.

Record DateTime : Type := mk_DateTime {
  year : Z; month : Z; day : Z; hour : Z; minute : Z; second : Z
}.

Definition decode_date (v : Z) : DateTime :=
  mk_DateTime (v / 512) (v / 32 mod 16) (v mod 32) 0 0 0.

Definition encode_date (d : DateTime) : Z :=
  year d * 512 + month d * 32 + day d.

(** A calendar date: no time of day, fields in their ranges. *)
Definition calendar_date (d : DateTime) : Prop :=
  0 <= year d <= 9999 /\ 1 <= month d <= 12 /\ 1 <= day d <= 31
  /\ hour d = 0 /\ minute d = 0 /\ second d = 0.

Definition decode_datetime (v : Z) : DateTime :=
  mk_DateTime (v / 10000000000) (v / 100000000 mod 100) (v / 1000000 mod 100)
              (v / 10000 mod 100) (v / 100 mod 100) (v mod 100).

Definition pack (d : DateTime) : Z :=
  ((((year d * 16 + month d) * 32 + day d) * 32 + hour d) * 64 + minute d)
    * 64 + second d.

Definition codec : DateTimeCodec :=
  Build_DateTimeCodec DateTime decode_date encode_date decode_datetime pack.

End SampleCodec.

(** ** Selections *)

(** The row a selection entry points at. *)
Definition row_index (idx : uint16_t) : nat := Z.to_nat (u16 idx).

(** The entry is a valid row index of the container. *)
Definition in_range (T : PType) (data : Container) (idx : uint16_t) : Prop :=
  (row_index idx < size T data)%nat.

(** ** Integer ranges *)

Definition int64_range (z : Z) : Prop := - 2 ^ 63 <= z < 2 ^ 63.

Definition int32_range (z : Z) : Prop := - 2 ^ 31 <= z < 2 ^ 31.

(** ** Dictionary rows *)

(** The descriptor the dictionary tables give for logical row [r]:
    the code of the row picks an offset and a length. *)
Definition dict_entry (data_array start_offset_array len_array : list Z)
    (dict_data : Z) (r : nat) : StringValue :=
  let codeword := nth r data_array 0 in
  mk_StringValue (dict_data + nth (Z.to_nat codeword) start_offset_array 0)
                 (nth (Z.to_nat codeword) len_array 0).

(** Row [r] lies in the code array and its code lies in both tables. *)
Definition code_in_tables (data_array start_offset_array len_array : list Z)
    (r : nat) : Prop :=
  (r < length data_array)%nat
  /\ 0 <= nth r data_array 0
  /\ (Z.to_nat (nth r data_array 0%Z) < length start_offset_array)%nat
  /\ (Z.to_nat (nth r data_array 0%Z) < length len_array)%nat.

(** The descriptor fits the 64-bit pointer and length fields. *)
Definition fits_StringValue (sv : StringValue) : Prop :=
  0 <= sv_ptr sv < 2 ^ 64 /\ 0 <= sv_len sv < 2 ^ 64.

(** The outcomes that count as a defined failure: an abort with a
    message, or an error [Status] handed back to the caller. *)
Definition defined_failure (o : outcome (Status * IColumn)) : Prop :=
  (exists msg, o = Fatal msg) \/ (exists msg col, o = Done (NotSupported msg, col)).

(** ** Sample data *)

Module Sample.

(** Three [Int32] rows: 1, 2, -1. *)
Definition int32_rows : Container :=
  map byte_of_Z [1; 0; 0; 0;  2; 0; 0; 0;  255; 255; 255; 255].

(** A non-monotonic selection. *)
Definition sel_2_0_1 : list uint16_t := map to_uint16 [2; 0; 1].

Definition zero_memory : Memory := fun _ => Byte.x00.

(** A selection whose second entry is the container's size. *)
Definition sel_0_3 : list uint16_t := map to_uint16 [0; 3].

(** Two [Int8] containers of 65537 rows that differ in the last row. *)
Definition long_rows (last : byte) : Container :=
  repeat Byte.x00 (Z.to_nat 65536) ++ [last].

(** A memory of zero bytes, except for a one at address 65536. *)
Definition marked_memory : Memory :=
  fun a => if a =? 65536 then Byte.x01 else Byte.x00.

(** A dictionary buffer: "apple" at offset 0, "pear" at 5, "fig" at 9. *)
Definition dictionary : list byte := list_byte_of_string "applepearfig".

Definition dictionary_memory : Memory := mem_of_buffer 4096 dictionary.

(** 15 July 2021. *)
Definition a_date : SampleCodec.DateTime :=
  SampleCodec.mk_DateTime 2021 7 15 0 0 0.

(** The three bytes of the packed date, at address 0. *)
Definition date_memory : Memory :=
  mem_of_buffer 0 (le_encode 3 (SampleCodec.encode_date a_date)).

(** The twelve bytes of integer part 123, fraction 450000000. *)
Definition decimal_memory : Memory :=
  mem_of_buffer 0 (le_encode 8 123 ++ le_encode 4 450000000).

(** The packed datetime 2021-07-15 12:30:00 at address 0. *)
Definition datetime_memory : Memory :=
  mem_of_buffer 0 (le_encode 8 20210715123000).

(** A byte that is neither 0 nor 1, at address 0. *)
Definition odd_bool_memory : Memory := mem_of_buffer 0 [Byte.x02].

(** Two packed dates: 15 and 16 July 2021. *)
Definition two_dates : Container :=
  [Byte.xef; Byte.xca; Byte.x0f; Byte.xf0; Byte.xca; Byte.x0f].

(** Three descriptors into the dictionary buffer: "fig", "pear", "apple". *)
Definition descriptors : Container :=
  StringValue_bytes (mk_StringValue 4105 3)
  ++ StringValue_bytes (mk_StringValue 4101 4)
  ++ StringValue_bytes (mk_StringValue 4096 5).

(** The dictionary memory with one more byte set behind the buffer. *)
Definition dictionary_memory_changed_behind : Memory :=
  mem_of_buffer 4096 (dictionary ++ [Byte.x01]).

End Sample.

(** ** Further vocabulary for the insertion path *)

(** The container holds whole rows only. *)
Definition whole_rows (T : PType) (data : Container) : Prop :=
  length data = (size T data * sizeof T)%nat.

(** The descriptor the length and offset arrays give for row [i] of a
    binary block at [data_array]. *)
Definition binary_entry (data_array : Z) (len_array start_offset_array : list Z)
    (i : nat) : StringValue :=
  mk_StringValue (data_array + nth i start_offset_array 0) (nth i len_array 0).

(** The signed integer types among the natively copied ones. *)
Definition signed_integer (T : PType) : bool :=
  match T with
  | T_Int8 | T_Int16 | T_Int32 | T_Int64 | T_Int128 => true
  | _ => false
  end.

(** The values a signed integer of the width of [T] can hold. *)
Definition signed_range (T : PType) (v : Z) : Prop :=
  - 2 ^ (8 * Z.of_nat (sizeof T) - 1) <= v < 2 ^ (8 * Z.of_nat (sizeof T) - 1).

(** The guarded operations that log the message of [get]. *)
Definition logs_get_field (c : Guard.GuardedCall) : bool :=
  match c with
  | Guard.get _ _ | Guard.get_float64 _ | Guard.get_uint _
  | Guard.get_bool _ | Guard.get_int _ => true
  | _ => false
  end.

(** * Properties *)

(** ** Bytes and little-endian integers *)

Lemma byte_to_Z_range (b : byte) : 0 <= byte_to_Z b < 256.
Proof.
  unfold byte_to_Z. pose proof (Byte.to_N_bounded b). lia.
Qed.

Lemma byte_of_to_Z (b : byte) : byte_of_Z (byte_to_Z b) = b.
Proof.
  unfold byte_of_Z. rewrite Z.mod_small by apply byte_to_Z_range.
  unfold byte_to_Z. rewrite N2Z.id, Byte.of_to_N. reflexivity.
Qed.

Lemma byte_to_of_Z (z : Z) : byte_to_Z (byte_of_Z z) = z mod 256.
Proof.
  unfold byte_of_Z, byte_to_Z.
  pose proof (Z.mod_pos_bound z 256 eq_refl) as Hr.
  destruct (Byte.of_N (Z.to_N (z mod 256))) as [b|] eqn:E.
  - apply Byte.to_of_N in E. rewrite E. lia.
  - apply Byte.of_N_None_iff in E. lia.
Qed.

Lemma le_decode_range (bs : list byte) :
  0 <= le_decode bs < 256 ^ Z.of_nat (length bs).
Proof.
  induction bs as [|b bs IH]; cbn [le_decode length].
  - cbn. lia.
  - pose proof (byte_to_Z_range b).
    rewrite Nat2Z.inj_succ, Z.pow_succ_r by lia. lia.
Qed.

Lemma length_le_encode (n : nat) (z : Z) : length (le_encode n z) = n.
Proof.
  revert z; induction n as [|n IH]; intro z; cbn; [|rewrite IH]; reflexivity.
Qed.

Lemma le_decode_encode (n : nat) (z : Z) :
  le_decode (le_encode n z) = z mod 256 ^ Z.of_nat n.
Proof.
  revert z; induction n as [|n IH]; intro z.
  - cbn. rewrite Z.mod_1_r. reflexivity.
  - cbn [le_encode le_decode]. rewrite byte_to_of_Z, IH.
    rewrite Nat2Z.inj_succ, Z.pow_succ_r by lia.
    rewrite Z.rem_mul_r by lia. reflexivity.
Qed.

Lemma le_encode_decode (bs : list byte) :
  le_encode (length bs) (le_decode bs) = bs.
Proof.
  induction bs as [|b bs IH]; cbn [length le_encode le_decode]; [reflexivity|].
  pose proof (byte_to_Z_range b) as Hb.
  assert (Hq : (byte_to_Z b + 256 * le_decode bs) / 256 = le_decode bs).
  { rewrite Z.mul_comm, Z.div_add by lia. rewrite Z.div_small by lia. lia. }
  assert (Hm : byte_of_Z (byte_to_Z b + 256 * le_decode bs) = b).
  { rewrite <- (byte_of_to_Z b) at 2. unfold byte_of_Z.
    rewrite Z.mul_comm, Z.mod_add by lia. reflexivity. }
  rewrite Hq, Hm, IH. reflexivity.
Qed.

Lemma le_encode_decode_length (n : nat) (bs : list byte) :
  length bs = n -> le_encode n (le_decode bs) = bs.
Proof. intros <-. apply le_encode_decode. Qed.

Lemma le_decode_encode_small (n : nat) (z : Z) :
  0 <= z < 256 ^ Z.of_nat n -> le_decode (le_encode n z) = z.
Proof.
  intro H. rewrite le_decode_encode. apply Z.mod_small. exact H.
Qed.

Lemma to_signed_wrap (bits z : Z) :
  0 < bits -> - 2 ^ (bits - 1) <= z < 2 ^ (bits - 1) ->
  to_signed bits (wrap bits z) = z.
Proof.
  intros Hb Hz. unfold to_signed, wrap.
  assert (H2 : 2 ^ bits = 2 * 2 ^ (bits - 1)).
  { replace bits with (Z.succ (bits - 1)) at 1 by lia.
    rewrite Z.pow_succ_r by lia. reflexivity. }
  rewrite Z.mod_mod by lia.
  destruct (Z_lt_ge_dec z 0) as [Hneg|Hpos].
  - assert (E : z mod 2 ^ bits = z + 2 ^ bits).
    { symmetry. apply (Z.mod_unique _ _ (-1)); lia. }
    rewrite E. destruct (Z.ltb_spec (z + 2 ^ bits) (2 ^ (bits - 1))); lia.
  - rewrite Z.mod_small by lia.
    destruct (Z.ltb_spec z (2 ^ (bits - 1))); lia.
Qed.

(** ** Memory reads *)

Lemma length_read_bytes (mem : Memory) (p : Z) (n : nat) :
  length (read_bytes mem p n) = n.
Proof.
  unfold read_bytes. rewrite length_map, length_seq. reflexivity.
Qed.

Lemma seq_from (a n : nat) :
  seq a n = map (fun i => (a + i)%nat) (seq 0 n).
Proof.
  revert a; induction n as [|n IH]; intro a; cbn [seq map].
  - reflexivity.
  - f_equal; [lia|]. rewrite (IH (S a)), <- (seq_shift n 0), map_map.
    apply map_ext. intro i. lia.
Qed.

Lemma read_bytes_app (mem : Memory) (p : Z) (a b : nat) :
  read_bytes mem p (a + b) =
  read_bytes mem p a ++ read_bytes mem (p + Z.of_nat a) b.
Proof.
  unfold read_bytes. rewrite seq_app, map_app. f_equal.
  cbn [Nat.add]. rewrite (seq_from a b), map_map.
  apply map_ext. intro i. f_equal. lia.
Qed.

(** ** Rows of the container *)

Lemma sizeof_pos (T : PType) : (0 < sizeof T)%nat.
Proof. destruct T; cbn; lia. Qed.

Lemma size_app_whole (T : PType) (data : Container) (more : list byte) (n : nat) :
  length more = (n * sizeof T)%nat ->
  size T (data ++ more) = (size T data + n)%nat.
Proof.
  intro H. unfold size. rewrite length_app, H.
  rewrite Nat.div_add by (pose proof (sizeof_pos T); lia). reflexivity.
Qed.

Lemma size_whole (T : PType) (data : Container) (n : nat) :
  length data = (n * sizeof T)%nat -> size T data = n.
Proof.
  intro H. unfold size. rewrite H.
  rewrite Nat.div_mul by (pose proof (sizeof_pos T); lia). reflexivity.
Qed.

Lemma length_row (T : PType) (data : Container) (n : nat) :
  (n < size T data)%nat -> length (row T data n) = sizeof T.
Proof.
  unfold size, row. intro H. pose proof (sizeof_pos T) as Hs.
  rewrite length_firstn, length_skipn.
  assert (Hm : (sizeof T * (length data / sizeof T) <= length data)%nat)
    by (apply Nat.Div0.mul_div_le).
  nia.
Qed.

(** A row that lies wholly in [data] is not changed by appending. *)
Lemma row_app_l (T : PType) (data more : Container) (n : nat) :
  (n < size T data)%nat -> row T (data ++ more) n = row T data n.
Proof.
  unfold size, row. intro H. pose proof (sizeof_pos T) as Hs.
  assert (Hm : (sizeof T * (length data / sizeof T) <= length data)%nat)
    by (apply Nat.Div0.mul_div_le).
  rewrite skipn_app, firstn_app, length_skipn.
  replace (sizeof T - (length data - n * sizeof T))%nat with O by nia.
  replace (n * sizeof T - length data)%nat with O by nia.
  cbn [firstn skipn]. rewrite app_nil_r. reflexivity.
Qed.

(** Past [m] whole rows, the rows are those of what was appended. *)
Lemma row_app_r (T : PType) (data more : Container) (m k : nat) :
  length data = (m * sizeof T)%nat ->
  row T (data ++ more) (m + k) = row T more k.
Proof.
  unfold row. intro H.
  rewrite skipn_app, H.
  replace ((m + k) * sizeof T - m * sizeof T)%nat with (k * sizeof T)%nat by nia.
  rewrite skipn_all2 by (rewrite H; nia). reflexivity.
Qed.

Lemma row_read_bytes (mem : Memory) (T : PType) (p : Z) (n k : nat) :
  (k < n)%nat ->
  row T (read_bytes mem p (n * sizeof T)) k =
  read_bytes mem (p + Z.of_nat (k * sizeof T)) (sizeof T).
Proof.
  intro H. unfold row.
  replace (n * sizeof T)%nat
    with (k * sizeof T + (sizeof T + (n - k - 1) * sizeof T))%nat by nia.
  rewrite !read_bytes_app.
  rewrite skipn_app, length_read_bytes, Nat.sub_diag.
  rewrite skipn_all2 by (rewrite length_read_bytes; lia).
  cbn [skipn app].
  rewrite firstn_app, length_read_bytes, Nat.sub_diag.
  rewrite firstn_all2 by (rewrite length_read_bytes; lia).
  cbn [firstn]. rewrite app_nil_r. reflexivity.
Qed.

(** ** Batch append: assignment loop against byte copy *)

Lemma insert_many_default_type_closed (mem : Memory) (T : PType)
    (data_ptr : Z) (num : nat) (data : Container) :
  insert_many_default_type mem T data_ptr num data =
  data ++ read_bytes mem data_ptr (num * sizeof T).
Proof.
  unfold insert_many_default_type.
  induction num as [|num IH].
  - cbn. rewrite app_nil_r. reflexivity.
  - rewrite seq_S, fold_left_app, IH. cbn [fold_left Nat.add].
    rewrite <- app_assoc. f_equal.
    replace (S num * sizeof T)%nat with (num * sizeof T + sizeof T)%nat by lia.
    rewrite read_bytes_app. reflexivity.
Qed.

(** C5: the element-wise assignment loop [insert_many_default_type] and
    the byte copy [insert_many_in_copy_way] leave the same bytes in the
    container and the same size, for every element type, container,
    input block and element count; that size is the old one plus
    [num]. *)
Theorem insert_many_default_type_same_as_copy_way (mem : Memory) (T : PType)
    (data_ptr : Z) (num : nat) (data : Container) :
  insert_many_default_type mem T data_ptr num data =
    insert_many_in_copy_way mem T data_ptr num data
  /\ size T (insert_many_default_type mem T data_ptr num data) =
     size T (insert_many_in_copy_way mem T data_ptr num data)
  /\ size T (insert_many_in_copy_way mem T data_ptr num data) =
     (size T data + num)%nat
  /\ length (insert_many_default_type mem T data_ptr num data) =
     (length data + num * sizeof T)%nat.
Proof.
  rewrite insert_many_default_type_closed.
  unfold insert_many_in_copy_way.
  repeat split.
  - apply size_app_whole. apply length_read_bytes.
  - rewrite length_app, length_read_bytes. reflexivity.
Qed.

(** ** Unpacking a date *)

Lemma lor_shiftl_byte (a b : Z) :
  0 <= a -> 0 <= b < 256 -> Z.lor (Z.shiftl a 8) b = 256 * a + b.
Proof.
  intros Ha Hb.
  assert (Hland : Z.land (Z.shiftl a 8) b = 0).
  { apply Z.bits_inj'. intros n Hn.
    rewrite Z.land_spec, Z.bits_0.
    destruct (Z_lt_ge_dec n 8) as [Hlt|Hge].
    - rewrite Z.shiftl_spec_low by lia. reflexivity.
    - destruct (Z.eq_dec b 0) as [->|Hnz].
      + rewrite Z.bits_0. apply andb_false_r.
      + rewrite (Z.bits_above_log2 b n); [apply andb_false_r | lia |].
        apply Z.log2_lt_pow2; [lia|].
        assert (2 ^ 8 <= 2 ^ n) by (apply Z.pow_le_mono_r; lia).
        change (2 ^ 8) with 256 in *. lia. }
  rewrite <- Z.lxor_lor by exact Hland.
  rewrite <- Z.add_nocarry_lxor by exact Hland.
  rewrite Z.shiftl_mul_pow2 by lia. change (2 ^ 8) with 256. lia.
Qed.

Lemma unpack_three_bytes (b0 b1 b2 : byte) :
  Z.lor (wrap 64 (Z.shiftl
           (Z.lor (wrap 64 (Z.shiftl (byte_to_Z b2) 8)) (byte_to_Z b1)) 8))
        (byte_to_Z b0)
  = le_decode [b0; b1; b2].
Proof.
  pose proof (byte_to_Z_range b0) as H0.
  pose proof (byte_to_Z_range b1) as H1.
  pose proof (byte_to_Z_range b2) as H2.
  cbn [le_decode]. unfold wrap.
  assert (E2 : Z.shiftl (byte_to_Z b2) 8 = 256 * byte_to_Z b2).
  { rewrite Z.shiftl_mul_pow2 by lia. change (2 ^ 8) with 256. lia. }
  rewrite E2, (Z.mod_small (256 * byte_to_Z b2)) by (change (2 ^ 64) with 18446744073709551616; lia).
  assert (E1 : Z.lor (256 * byte_to_Z b2) (byte_to_Z b1)
               = 256 * byte_to_Z b2 + byte_to_Z b1).
  { rewrite <- E2 at 1. apply lor_shiftl_byte; lia. }
  rewrite E1.
  assert (E0 : Z.shiftl (256 * byte_to_Z b2 + byte_to_Z b1) 8
               = 256 * (256 * byte_to_Z b2 + byte_to_Z b1)).
  { rewrite Z.shiftl_mul_pow2 by lia. change (2 ^ 8) with 256. lia. }
  rewrite (Z.mod_small (Z.shiftl _ 8))
    by (rewrite E0; change (2 ^ 64) with 18446744073709551616; lia).
  rewrite lor_shiftl_byte by lia. lia.
Qed.

(** ** The selection loops on valid indices *)

Section SelectedRows.

Context {codec : DateTimeCodec}.
Variable mem : Memory.
Variable T : PType.
Variable data : Container.

Lemma elem_at_in_range (idx : uint16_t) :
  in_range T data idx ->
  elem_at T data idx = Done (row T data (row_index idx)).
Proof.
  unfold in_range, elem_at, row_index. intro H.
  apply Nat.ltb_lt in H. rewrite H. reflexivity.
Qed.

Lemma elem_at_out_of_range (idx : uint16_t) :
  ~ in_range T data idx -> elem_at T data idx = Undefined.
Proof.
  unfold in_range, elem_at, row_index. intro H.
  apply Nat.ltb_nlt in H. rewrite H. reflexivity.
Qed.

Lemma in_range_dec (idx : uint16_t) :
  {in_range T data idx} + {~ in_range T data idx}.
Proof. unfold in_range. apply lt_dec. Qed.

Lemma insert_string_to_res_column_rows (sel : list uint16_t)
    (res : list (list byte)) :
  Forall (in_range T data) sel ->
  insert_string_to_res_column mem T data sel res =
  Done (res ++ map (fun idx =>
                      let sv := as_StringValue (row T data (row_index idx)) in
                      read_bytes mem (sv_ptr sv) (Z.to_nat (sv_len sv))) sel).
Proof.
  intro H. revert res.
  induction H as [|idx sel Hidx _ IH]; intro res; cbn [insert_string_to_res_column map].
  - rewrite app_nil_r. reflexivity.
  - rewrite (elem_at_in_range idx Hidx). cbn [bind].
    rewrite IH, <- app_assoc. reflexivity.
Qed.

Lemma insert_decimal_to_res_column_rows (sel : list uint16_t) (res : list Z) :
  Forall (in_range T data) sel ->
  insert_decimal_to_res_column T data sel res =
  Done (res ++ map (fun idx =>
                      let dv := as_decimal12 (row T data (row_index idx)) in
                      DecimalV2Value (integer dv) (fraction dv)) sel).
Proof.
  intro H. revert res.
  induction H as [|idx sel Hidx _ IH]; intro res; cbn [insert_decimal_to_res_column map].
  - rewrite app_nil_r. reflexivity.
  - rewrite (elem_at_in_range idx Hidx). cbn [bind].
    rewrite IH, <- app_assoc. reflexivity.
Qed.

Lemma insert_datetime_to_res_column_rows (sel : list uint16_t) (res : list Z) :
  Forall (in_range T data) sel ->
  insert_datetime_to_res_column T data sel res =
  Done (res ++ map (fun idx =>
                      to_int64 (from_datetime_value
                        (wrap 64 (le_decode (row T data (row_index idx)))))) sel).
Proof.
  intro H. revert res.
  induction H as [|idx sel Hidx _ IH]; intro res; cbn [insert_datetime_to_res_column map].
  - rewrite app_nil_r. reflexivity.
  - rewrite (elem_at_in_range idx Hidx). cbn [bind].
    rewrite IH, <- app_assoc. reflexivity.
Qed.

Lemma default_value_loop_rows (sel : list uint16_t) (y : list Z) :
  Forall (in_range T data) sel ->
  default_value_loop T data sel y =
  Done (y ++ map (fun idx => load T (row T data (row_index idx))) sel).
Proof.
  intro H. revert y.
  induction H as [|idx sel Hidx _ IH]; intro y; cbn [default_value_loop map].
  - rewrite app_nil_r. reflexivity.
  - rewrite (elem_at_in_range idx Hidx). cbn [bind].
    rewrite IH, <- app_assoc. reflexivity.
Qed.

Lemma insert_default_value_res_column_rows (sel : list uint16_t) :
  Forall (in_range T data) sel ->
  insert_default_value_res_column T data sel [] =
  Done (map (fun idx => load T (row T data (row_index idx))) sel).
Proof.
  intro H. unfold insert_default_value_res_column. cbn [is_empty negb].
  rewrite (default_value_loop_rows sel [] H). reflexivity.
Qed.

End SelectedRows.

Section SelectedRowsByType.

Context {codec : DateTimeCodec}.
Variable data : Container.

Lemma get_date_at_unpacks (idx : uint16_t) :
  in_range T_uint24_t data idx ->
  get_date_at T_uint24_t data idx =
  Done (le_decode (firstn 3 (row T_uint24_t data (row_index idx)))).
Proof.
  intro H. unfold get_date_at.
  rewrite (elem_at_in_range _ _ idx H). cbn [bind].
  pose proof (length_row T_uint24_t data (row_index idx) H) as Hlen.
  destruct (row T_uint24_t data (row_index idx)) as [|b0 [|b1 [|b2 [|b3 r]]]];
    try discriminate Hlen.
  cbn [object_byte nth_error bind firstn].
  rewrite unpack_three_bytes. reflexivity.
Qed.

Lemma insert_date_to_res_column_rows (sel : list uint16_t) (res : list Z) :
  Forall (in_range T_uint24_t data) sel ->
  insert_date_to_res_column T_uint24_t data sel res =
  Done (res ++ map (fun idx =>
                      to_int64 (from_olap_date
                        (le_decode (firstn 3 (row T_uint24_t data (row_index idx))))))
                   sel).
Proof.
  intro H. revert res.
  induction H as [|idx sel Hidx _ IH]; intro res; cbn [insert_date_to_res_column map].
  - rewrite app_nil_r. reflexivity.
  - rewrite (get_date_at_unpacks idx Hidx). cbn [bind].
    rewrite IH, <- app_assoc. reflexivity.
Qed.

Lemma insert_byte_to_res_column_rows (sel : list uint16_t) (res : list Z) :
  Forall (in_range T_bool data) sel ->
  insert_byte_to_res_column T_bool data sel (ColumnVector T_UInt8 res) =
  Done (ColumnVector T_UInt8
          (res ++ map (fun idx =>
                         le_decode (firstn 1 (row T_bool data (row_index idx))))
                      sel)).
Proof.
  intro H. revert res.
  induction H as [|idx sel Hidx _ IH]; intro res; cbn [insert_byte_to_res_column map].
  - rewrite app_nil_r. reflexivity.
  - rewrite (elem_at_in_range _ _ idx Hidx). cbn [bind].
    pose proof (length_row T_bool data (row_index idx) Hidx) as Hlen.
    destruct (row T_bool data (row_index idx)) as [|b0 [|b1 r]];
      try discriminate Hlen.
    cbn [object_byte nth_error bind firstn le_decode].
    rewrite IH, <- app_assoc. cbn [app].
    rewrite Z.mul_0_r, Z.add_0_r. reflexivity.
Qed.

End SelectedRowsByType.

(** ** Selective materialization of valid selections *)

Lemma wrap_64_row (data : Container) (n : nat) :
  (n < size T_uint64_t data)%nat ->
  wrap 64 (le_decode (row T_uint64_t data n)) = le_decode (row T_uint64_t data n).
Proof.
  intro H. unfold wrap. apply Z.mod_small.
  pose proof (le_decode_range (row T_uint64_t data n)) as Hr.
  rewrite (length_row _ _ _ H) in Hr. exact Hr.
Qed.

Lemma destination_ready_fast (T : PType) (col : IColumn) :
  fast_numeric T = true -> destination_ready T col = true ->
  col = ColumnVector T [].
Proof.
  intros Hf Hr.
  destruct T; try discriminate Hf;
    (destruct col as [Y [|z rd]|rows|vals]; cbn in Hr;
     [destruct Y; try discriminate Hr; reflexivity
     |destruct Y; discriminate Hr
     |discriminate Hr
     |discriminate Hr]).
Qed.

Lemma PType_eqb_refl (T : PType) : PType_eqb T T = true.
Proof. destruct T; cbn; try reflexivity. apply Pos.eqb_refl. Qed.

Section FilterBySelector.

Context {codec : DateTimeCodec}.
Variable mem : Memory.

Lemma filter_by_selector_rows (T : PType) (data : Container)
    (sel : list uint16_t) (col : IColumn) :
  supported T = true ->
  destination_ready T col = true ->
  Forall (in_range T data) sel ->
  exists col',
    filter_by_selector mem T data sel col = Done (OK, col')
    /\ rows_of col' =
       rows_of col ++
       map (fun idx => spec_decode mem T (row T data (row_index idx))) sel.
Proof.
  intros Hsup Hready Hsel.
  destruct (fast_numeric T) eqn:Hfast.
  - (* the pre-reserved numeric copy *)
    rewrite (destination_ready_fast T col Hfast Hready).
    exists (ColumnVector T
              (map (fun idx => load T (row T data (row_index idx))) sel)).
    split.
    + destruct T; try discriminate Hfast;
        unfold filter_by_selector; cbn [cast_ColumnVector PType_eqb bind];
        rewrite (insert_default_value_res_column_rows _ data sel Hsel);
        reflexivity.
    + cbn [rows_of map app]. rewrite map_map.
      apply map_ext. intro idx.
      destruct T; try discriminate Hfast; reflexivity.
  - destruct T; try discriminate Hsup; try discriminate Hfast.
    + (* StringValue *)
      destruct col as [Y rd|rows|vals]; cbn in Hready; try discriminate Hready.
      unfold filter_by_selector. cbn [cast_ColumnString bind].
      rewrite (insert_string_to_res_column_rows mem _ data sel rows Hsel).
      eexists; split; [reflexivity|].
      cbn [rows_of bind]. rewrite map_app, map_map. reflexivity.
    + (* decimal12_t *)
      destruct col as [Y rd|rows|vals]; cbn in Hready; try discriminate Hready.
      unfold filter_by_selector. cbn [cast_ColumnDecimal bind].
      rewrite (insert_decimal_to_res_column_rows _ data sel vals Hsel).
      eexists; split; [reflexivity|].
      cbn [rows_of bind]. rewrite map_app, map_map. reflexivity.
    + (* uint64_t: packed datetime *)
      destruct col as [Y rd|rows|vals]; cbn in Hready; try discriminate Hready.
      destruct Y; try discriminate Hready.
      unfold filter_by_selector. cbn [cast_ColumnVector PType_eqb bind].
      rewrite (insert_datetime_to_res_column_rows _ data sel rd Hsel).
      eexists; split; [reflexivity|].
      cbn [rows_of bind]. rewrite map_app, map_map. f_equal.
      apply map_ext_in. intros idx Hin.
      rewrite Forall_forall in Hsel. specialize (Hsel idx Hin).
      unfold spec_decode. rewrite wrap_64_row by exact Hsel. reflexivity.
    + (* uint24_t: packed date *)
      destruct col as [Y rd|rows|vals]; cbn in Hready; try discriminate Hready.
      destruct Y; try discriminate Hready.
      unfold filter_by_selector. cbn [cast_ColumnVector PType_eqb bind].
      rewrite (insert_date_to_res_column_rows data sel rd Hsel).
      eexists; split; [reflexivity|].
      cbn [rows_of bind]. rewrite map_app, map_map. reflexivity.
    + (* bool *)
      destruct col as [Y rd|rows|vals]; cbn in Hready; try discriminate Hready.
      destruct Y; try discriminate Hready.
      unfold filter_by_selector.
      rewrite (insert_byte_to_res_column_rows data sel rd Hsel).
      eexists; split; [reflexivity|].
      cbn [rows_of bind]. rewrite map_app, map_map. reflexivity.
Qed.

End FilterBySelector.

Section ValidSelection.

Context {codec : DateTimeCodec}.
Variable mem : Memory.

(** C1: on a supported element type, with a destination of the paired
    type (empty for the pre-reserved numeric copy) and a selection of
    valid row indices in any order, [filter_by_selector] succeeds and
    appends exactly [length sel] rows; the [k]-th appended row is the
    decoded value of container row [sel[k]]; the rows already in the
    destination stay; an empty selection appends nothing. *)
Theorem filter_by_selector_appends_selected_rows (T : PType)
    (data : Container) (sel : list uint16_t) (col : IColumn) :
  supported T = true ->
  destination_ready T col = true ->
  Forall (in_range T data) sel ->
  exists col',
    filter_by_selector mem T data sel col = Done (OK, col')
    /\ length (rows_of col') = (length (rows_of col) + length sel)%nat
    /\ firstn (length (rows_of col)) (rows_of col') = rows_of col
    /\ (forall k idx,
          nth_error sel k = Some idx ->
          nth_error (rows_of col') (length (rows_of col) + k) =
          Some (spec_decode mem T (row T data (row_index idx))))
    /\ (rows_of col = [] ->
        forall k idx,
          nth_error sel k = Some idx ->
          nth_error (rows_of col') k =
          Some (spec_decode mem T (row T data (row_index idx))))
    /\ (sel = [] -> rows_of col' = rows_of col).
Proof.
  intros Hsup Hready Hsel.
  destruct (filter_by_selector_rows mem T data sel col Hsup Hready Hsel)
    as (col' & Hrun & Hrows).
  exists col'. rewrite Hrows. repeat split.
  - exact Hrun.
  - rewrite length_app, length_map. reflexivity.
  - rewrite firstn_app, Nat.sub_diag, firstn_all. cbn [firstn].
    apply app_nil_r.
  - intros k idx Hk.
    rewrite nth_error_app2 by lia.
    replace (length (rows_of col) + k - length (rows_of col))%nat with k by lia.
    rewrite nth_error_map, Hk. reflexivity.
  - intros Hfresh k idx Hk. rewrite Hfresh. cbn [app].
    rewrite nth_error_map, Hk. reflexivity.
  - intros ->. cbn [map]. apply app_nil_r.
Qed.

End ValidSelection.

Lemma filter_by_selector_appends_selected_rows_witness :
  supported T_Int32 = true
  /\ destination_ready T_Int32 (ColumnVector T_Int32 []) = true
  /\ Forall (in_range T_Int32 Sample.int32_rows) Sample.sel_2_0_1
  /\ exists col',
      filter_by_selector (codec := SampleCodec.codec) Sample.zero_memory T_Int32
        Sample.int32_rows Sample.sel_2_0_1 (ColumnVector T_Int32 [])
      = Done (OK, col')
      /\ length (rows_of col') = (0 + 3)%nat
      /\ firstn 0 (rows_of col') = []
      /\ (forall k idx,
            nth_error Sample.sel_2_0_1 k = Some idx ->
            nth_error (rows_of col') (0 + k) =
            Some (spec_decode (codec := SampleCodec.codec) Sample.zero_memory
                    T_Int32 (row T_Int32 Sample.int32_rows (row_index idx))))
      /\ (@nil Value = [] ->
          forall k idx,
            nth_error Sample.sel_2_0_1 k = Some idx ->
            nth_error (rows_of col') k =
            Some (spec_decode (codec := SampleCodec.codec) Sample.zero_memory
                    T_Int32 (row T_Int32 Sample.int32_rows (row_index idx))))
      /\ (Sample.sel_2_0_1 = [] -> rows_of col' = []).
Proof.
  assert (Hsel : Forall (in_range T_Int32 Sample.int32_rows) Sample.sel_2_0_1)
    by (repeat constructor; unfold in_range; vm_compute; lia).
  split; [reflexivity|]. split; [reflexivity|]. split; [exact Hsel|].
  exact (filter_by_selector_appends_selected_rows (codec := SampleCodec.codec)
           Sample.zero_memory T_Int32 Sample.int32_rows Sample.sel_2_0_1
           (ColumnVector T_Int32 []) eq_refl eq_refl Hsel).
Defined.


(** ** Selections that leave the container *)

Section OutOfRange.

Context {codec : DateTimeCodec}.
Variable mem : Memory.
Variable T : PType.
Variable data : Container.

(** One round of a selection loop: the head is either read or the
    loop has left the container. *)
Ltac selection_round idx IH :=
  destruct (in_range_dec T data idx) as [Hin|Hout];
  [ rewrite (elem_at_in_range T data idx Hin); cbn [bind]; apply IH
  | rewrite (elem_at_out_of_range T data idx Hout); reflexivity ].

Lemma insert_string_to_res_column_out_of_range (sel : list uint16_t)
    (res : list (list byte)) :
  Exists (fun idx => ~ in_range T data idx) sel ->
  insert_string_to_res_column mem T data sel res = Undefined.
Proof.
  intro H. revert res.
  induction H as [idx sel Hbad | idx sel _ IH]; intro res;
    cbn [insert_string_to_res_column].
  - rewrite (elem_at_out_of_range T data idx Hbad). reflexivity.
  - selection_round idx IH.
Qed.

Lemma insert_decimal_to_res_column_out_of_range (sel : list uint16_t)
    (res : list Z) :
  Exists (fun idx => ~ in_range T data idx) sel ->
  insert_decimal_to_res_column T data sel res = Undefined.
Proof.
  intro H. revert res.
  induction H as [idx sel Hbad | idx sel _ IH]; intro res;
    cbn [insert_decimal_to_res_column].
  - rewrite (elem_at_out_of_range T data idx Hbad). reflexivity.
  - selection_round idx IH.
Qed.

Lemma insert_datetime_to_res_column_out_of_range (sel : list uint16_t)
    (res : list Z) :
  Exists (fun idx => ~ in_range T data idx) sel ->
  insert_datetime_to_res_column T data sel res = Undefined.
Proof.
  intro H. revert res.
  induction H as [idx sel Hbad | idx sel _ IH]; intro res;
    cbn [insert_datetime_to_res_column].
  - rewrite (elem_at_out_of_range T data idx Hbad). reflexivity.
  - selection_round idx IH.
Qed.

Lemma default_value_loop_out_of_range (sel : list uint16_t) (y : list Z) :
  Exists (fun idx => ~ in_range T data idx) sel ->
  default_value_loop T data sel y = Undefined.
Proof.
  intro H. revert y.
  induction H as [idx sel Hbad | idx sel _ IH]; intro y;
    cbn [default_value_loop].
  - rewrite (elem_at_out_of_range T data idx Hbad). reflexivity.
  - selection_round idx IH.
Qed.

End OutOfRange.

Section OutOfRangeByType.

Context {codec : DateTimeCodec}.
Variable data : Container.

Lemma insert_date_to_res_column_out_of_range (sel : list uint16_t)
    (res : list Z) :
  Exists (fun idx => ~ in_range T_uint24_t data idx) sel ->
  insert_date_to_res_column T_uint24_t data sel res = Undefined.
Proof.
  intro H. revert res.
  induction H as [idx sel Hbad | idx sel _ IH]; intro res;
    cbn [insert_date_to_res_column].
  - unfold get_date_at.
    rewrite (elem_at_out_of_range _ data idx Hbad). reflexivity.
  - destruct (in_range_dec T_uint24_t data idx) as [Hin|Hout].
    + rewrite (get_date_at_unpacks data idx Hin). cbn [bind]. apply IH.
    + unfold get_date_at.
      rewrite (elem_at_out_of_range _ data idx Hout). reflexivity.
Qed.

Lemma insert_byte_to_res_column_out_of_range (sel : list uint16_t)
    (res : list Z) :
  Exists (fun idx => ~ in_range T_bool data idx) sel ->
  insert_byte_to_res_column T_bool data sel (ColumnVector T_UInt8 res)
  = Undefined.
Proof.
  intro H. revert res.
  induction H as [idx sel Hbad | idx sel _ IH]; intro res;
    cbn [insert_byte_to_res_column].
  - rewrite (elem_at_out_of_range _ data idx Hbad). reflexivity.
  - destruct (in_range_dec T_bool data idx) as [Hin|Hout].
    + rewrite (elem_at_in_range _ data idx Hin). cbn [bind].
      pose proof (length_row T_bool data (row_index idx) Hin) as Hlen.
      destruct (row T_bool data (row_index idx)) as [|b0 [|b1 r]];
        try discriminate Hlen.
      cbn [object_byte nth_error bind]. apply IH.
    + rewrite (elem_at_out_of_range _ data idx Hout). reflexivity.
Qed.

End OutOfRangeByType.

Section UncheckedIndices.

Context {codec : DateTimeCodec}.
Variable mem : Memory.

(** C9, as the code has it: [filter_by_selector] does not validate the
    selection. On a supported element type and a destination of the
    paired type (empty for the pre-reserved numeric copy), a selection
    holding an index at or beyond [size()] reads outside the container:
    the outcome is undefined, neither an error [Status] nor an abort. *)
Theorem filter_by_selector_out_of_range_unchecked (T : PType)
    (data : Container) (sel : list uint16_t) (col : IColumn) :
  supported T = true ->
  destination_ready T col = true ->
  Exists (fun idx => ~ in_range T data idx) sel ->
  filter_by_selector mem T data sel col = Undefined
  /\ ~ defined_failure (filter_by_selector mem T data sel col).
Proof.
  intros Hsup Hready Hbad.
  assert (Hrun : filter_by_selector mem T data sel col = Undefined).
  { destruct (fast_numeric T) eqn:Hfast.
    - rewrite (destination_ready_fast T col Hfast Hready).
      destruct T; try discriminate Hfast;
        unfold filter_by_selector, insert_default_value_res_column;
        cbn [cast_ColumnVector PType_eqb bind is_empty negb];
        rewrite (default_value_loop_out_of_range _ data sel [] Hbad);
        reflexivity.
    - destruct T; try discriminate Hsup; try discriminate Hfast;
        destruct col as [Y rd|rows|vals]; cbn in Hready;
        try discriminate Hready;
        try (destruct Y; try discriminate Hready);
        unfold filter_by_selector;
        cbn [cast_ColumnString cast_ColumnDecimal cast_ColumnVector
             PType_eqb bind].
      + rewrite (insert_string_to_res_column_out_of_range mem _ data sel rows Hbad).
        reflexivity.
      + rewrite (insert_decimal_to_res_column_out_of_range _ data sel vals Hbad).
        reflexivity.
      + rewrite (insert_datetime_to_res_column_out_of_range _ data sel rd Hbad).
        reflexivity.
      + rewrite (insert_date_to_res_column_out_of_range data sel rd Hbad).
        reflexivity.
      + rewrite (insert_byte_to_res_column_out_of_range data sel rd Hbad).
        reflexivity. }
  split; [exact Hrun|].
  rewrite Hrun. intros [[msg H]|[msg [c H]]]; discriminate H.
Qed.

End UncheckedIndices.

(** C9, counterexample: three [Int32] rows and the selection [0, 3];
    index 3 is the container's size, and the call neither aborts nor
    returns an error. *)
Lemma filter_by_selector_out_of_range_counterexample :
  size T_Int32 Sample.int32_rows = 3%nat
  /\ Exists (fun idx => ~ in_range T_Int32 Sample.int32_rows idx) Sample.sel_0_3
  /\ filter_by_selector (codec := SampleCodec.codec) Sample.zero_memory
       T_Int32 Sample.int32_rows Sample.sel_0_3 (ColumnVector T_Int32 [])
     = Undefined
  /\ ~ defined_failure
        (filter_by_selector (codec := SampleCodec.codec) Sample.zero_memory
           T_Int32 Sample.int32_rows Sample.sel_0_3 (ColumnVector T_Int32 [])).
Proof.
  split; [reflexivity|]. split.
  - apply Exists_cons_tl, Exists_cons_hd. unfold in_range. vm_compute. lia.
  - assert (E : filter_by_selector (codec := SampleCodec.codec)
                  Sample.zero_memory T_Int32 Sample.int32_rows Sample.sel_0_3
                  (ColumnVector T_Int32 []) = Undefined) by (vm_compute; reflexivity).
    split; [exact E|].
    rewrite E. intros [[msg H]|[msg [c H]]]; discriminate H.
Qed.

Lemma filter_by_selector_out_of_range_unchecked_witness :
  supported T_Int32 = true
  /\ destination_ready T_Int32 (ColumnVector T_Int32 []) = true
  /\ Exists (fun idx => ~ in_range T_Int32 Sample.int32_rows idx) Sample.sel_0_3
  /\ filter_by_selector (codec := SampleCodec.codec) Sample.zero_memory
       T_Int32 Sample.int32_rows Sample.sel_0_3 (ColumnVector T_Int32 [])
     = Undefined
  /\ ~ defined_failure
        (filter_by_selector (codec := SampleCodec.codec) Sample.zero_memory
           T_Int32 Sample.int32_rows Sample.sel_0_3 (ColumnVector T_Int32 [])).
Proof.
  assert (Hbad : Exists (fun idx => ~ in_range T_Int32 Sample.int32_rows idx)
                   Sample.sel_0_3).
  { apply Exists_cons_tl, Exists_cons_hd. unfold in_range. vm_compute. lia. }
  split; [reflexivity|]. split; [reflexivity|]. split; [exact Hbad|].
  exact (filter_by_selector_out_of_range_unchecked (codec := SampleCodec.codec)
           Sample.zero_memory T_Int32 Sample.int32_rows Sample.sel_0_3
           (ColumnVector T_Int32 []) eq_refl eq_refl Hbad).
Defined.

(** ** The status of the dispatch *)

Section Dispatch.

Context {codec : DateTimeCodec}.
Variable mem : Memory.

Lemma filter_by_selector_supported_no_error (T : PType) (data : Container)
    (sel : list uint16_t) (col : IColumn) (msg : string) (col' : IColumn) :
  supported T = true ->
  filter_by_selector mem T data sel col <> Done (NotSupported msg, col').
Proof.
  intro Hsup.
  destruct T; try discriminate Hsup; unfold filter_by_selector;
    repeat match goal with
           | |- context [bind ?m _] => destruct m; cbn [bind]
           end;
    discriminate.
Qed.

(** C3: for an element type outside the dispatch, [filter_by_selector]
    returns the [NotSupported] status to its caller, a completed call
    and not an abort, and the destination is handed back unchanged;
    for a type inside the dispatch the call never returns an error
    status, and on a destination of the paired type with valid indices
    it returns [OK]. *)
Theorem filter_by_selector_status (T : PType) (data : Container)
    (sel : list uint16_t) (col : IColumn) :
  (supported T = false ->
   filter_by_selector mem T data sel col =
   Done (NotSupported "not supported output type in predicate_column", col))
  /\ (supported T = true ->
      (forall msg col',
          filter_by_selector mem T data sel col <> Done (NotSupported msg, col'))
      /\ (destination_ready T col = true ->
          Forall (in_range T data) sel ->
          exists col', filter_by_selector mem T data sel col = Done (OK, col'))).
Proof.
  split.
  - intro Hsup. destruct T; try discriminate Hsup; reflexivity.
  - intro Hsup. split.
    + intros msg col'. apply filter_by_selector_supported_no_error. exact Hsup.
    + intros Hready Hsel.
      destruct (filter_by_selector_rows mem T data sel col Hsup Hready Hsel)
        as (col' & Hrun & _).
      exists col'. exact Hrun.
Qed.

End Dispatch.

Lemma filter_by_selector_status_witness :
  (supported T_UInt8 = false
   /\ filter_by_selector (codec := SampleCodec.codec) Sample.zero_memory T_UInt8
        Sample.int32_rows Sample.sel_2_0_1 (ColumnVector T_UInt8 [7]) =
      Done (NotSupported "not supported output type in predicate_column",
            ColumnVector T_UInt8 [7]))
  /\ (supported T_Int32 = true
      /\ destination_ready T_Int32 (ColumnVector T_Int32 []) = true
      /\ Forall (in_range T_Int32 Sample.int32_rows) Sample.sel_2_0_1
      /\ exists col',
          filter_by_selector (codec := SampleCodec.codec) Sample.zero_memory
            T_Int32 Sample.int32_rows Sample.sel_2_0_1 (ColumnVector T_Int32 [])
          = Done (OK, col')).
Proof.
  split.
  - split; [reflexivity|].
    apply (filter_by_selector_status (codec := SampleCodec.codec)
             Sample.zero_memory T_UInt8 Sample.int32_rows Sample.sel_2_0_1
             (ColumnVector T_UInt8 [7])).
    reflexivity.
  - assert (Hsel : Forall (in_range T_Int32 Sample.int32_rows) Sample.sel_2_0_1)
      by (repeat constructor; unfold in_range; vm_compute; lia).
    split; [reflexivity|]. split; [reflexivity|]. split; [exact Hsel|].
    apply (filter_by_selector_status (codec := SampleCodec.codec)
             Sample.zero_memory T_Int32 Sample.int32_rows Sample.sel_2_0_1
             (ColumnVector T_Int32 [])); [reflexivity | reflexivity | exact Hsel].
Defined.

(** ** Sixteen-bit selection indices *)

Lemma u16_bounds (idx : uint16_t) : 0 <= u16 idx < 65536.
Proof.
  unfold u16. apply (le_decode_range [u16_lo idx; u16_hi idx]).
Qed.

Lemma u16_to_uint16 (z : Z) : u16 (to_uint16 z) = z mod 65536.
Proof.
  change (u16 (to_uint16 z)) with (le_decode (le_encode 2 z)).
  apply le_decode_encode.
Qed.

Lemma elem_at_same_prefix (T : PType) (data data' : Container) :
  length data = length data' ->
  firstn (Z.to_nat 65536 * sizeof T) data =
  firstn (Z.to_nat 65536 * sizeof T) data' ->
  forall idx, elem_at T data idx = elem_at T data' idx.
Proof.
  intros Hlen Hpre idx. unfold elem_at, size. rewrite Hlen.
  destruct (Z.to_nat (u16 idx) <? length data' / sizeof T)%nat; [|reflexivity].
  f_equal. unfold row.
  pose proof (u16_bounds idx) as Hb.
  assert (Hn : (Z.to_nat (u16 idx) < Z.to_nat 65536)%nat) by lia.
  set (n := Z.to_nat (u16 idx)) in *. set (N := Z.to_nat 65536) in *.
  rewrite !firstn_skipn_comm. f_equal.
  assert (Hmin : Nat.min (n * sizeof T + sizeof T) (N * sizeof T)
                 = (n * sizeof T + sizeof T)%nat) by nia.
  rewrite <- Hmin, <- !firstn_firstn, Hpre. reflexivity.
Qed.

Section SameRows.

Context {codec : DateTimeCodec}.
Variable mem : Memory.
Variable T : PType.
Variables data data' : Container.
Hypothesis same_rows : forall idx, elem_at T data idx = elem_at T data' idx.

Ltac same_round IH :=
  rewrite same_rows;
  match goal with
  | |- context [elem_at T data' ?i] => destruct (elem_at T data' i)
  end; cbn [bind]; auto.

Lemma insert_string_to_res_column_same (sel : list uint16_t)
    (res : list (list byte)) :
  insert_string_to_res_column mem T data sel res =
  insert_string_to_res_column mem T data' sel res.
Proof.
  revert res; induction sel as [|idx sel IH]; intro res;
    cbn [insert_string_to_res_column]; [reflexivity | same_round IH].
Qed.

Lemma insert_decimal_to_res_column_same (sel : list uint16_t) (res : list Z) :
  insert_decimal_to_res_column T data sel res =
  insert_decimal_to_res_column T data' sel res.
Proof.
  revert res; induction sel as [|idx sel IH]; intro res;
    cbn [insert_decimal_to_res_column]; [reflexivity | same_round IH].
Qed.

Lemma insert_datetime_to_res_column_same (sel : list uint16_t) (res : list Z) :
  insert_datetime_to_res_column T data sel res =
  insert_datetime_to_res_column T data' sel res.
Proof.
  revert res; induction sel as [|idx sel IH]; intro res;
    cbn [insert_datetime_to_res_column]; [reflexivity | same_round IH].
Qed.

Lemma insert_date_to_res_column_same (sel : list uint16_t) (res : list Z) :
  insert_date_to_res_column T data sel res =
  insert_date_to_res_column T data' sel res.
Proof.
  revert res; induction sel as [|idx sel IH]; intro res;
    cbn [insert_date_to_res_column]; [reflexivity|].
  unfold get_date_at. same_round IH.
  repeat match goal with
         | |- context [object_byte ?o ?k] => destruct (object_byte o k); cbn [bind]
         end; auto.
Qed.

Lemma default_value_loop_same (sel : list uint16_t) (y : list Z) :
  default_value_loop T data sel y = default_value_loop T data' sel y.
Proof.
  revert y; induction sel as [|idx sel IH]; intro y;
    cbn [default_value_loop]; [reflexivity | same_round IH].
Qed.

Lemma insert_byte_to_res_column_same (sel : list uint16_t) (res : IColumn) :
  insert_byte_to_res_column T data sel res =
  insert_byte_to_res_column T data' sel res.
Proof.
  revert res; induction sel as [|idx sel IH]; intro res;
    cbn [insert_byte_to_res_column]; [reflexivity|].
  same_round IH.
  match goal with
  | |- context [object_byte ?o ?k] => destruct (object_byte o k); cbn [bind]
  end; auto.
  destruct res as [Y rd| |]; auto. destruct Y; auto.
Qed.

End SameRows.

Lemma filter_by_selector_same {codec : DateTimeCodec} (mem : Memory)
    (T : PType) (data data' : Container) (sel : list uint16_t) (col : IColumn) :
  (forall idx, elem_at T data idx = elem_at T data' idx) ->
  filter_by_selector mem T data sel col = filter_by_selector mem T data' sel col.
Proof.
  intro Hsame.
  unfold filter_by_selector, insert_default_value_res_column.
  destruct T; try reflexivity;
    rewrite ?(insert_byte_to_res_column_same _ data data' Hsame);
    try reflexivity;
    try (match goal with
         | |- context [bind ?m _] => destruct m; cbn [bind]
         end; try reflexivity);
    rewrite ?(insert_string_to_res_column_same mem _ data data' Hsame),
            ?(insert_decimal_to_res_column_same _ data data' Hsame),
            ?(insert_datetime_to_res_column_same _ data data' Hsame),
            ?(insert_date_to_res_column_same _ data data' Hsame),
            ?(default_value_loop_same _ data data' Hsame),
            ?(insert_byte_to_res_column_same _ data data' Hsame);
    reflexivity.
Qed.

(** C10: a selection entry is a [uint16_t], so it is at most 65535; a
    larger index on the caller's side reaches the container reduced
    modulo 2^16; and the outcome of [filter_by_selector] does not
    depend on any row at position 65536 or beyond: two containers of
    the same length that agree on their first 65536 rows give the same
    outcome for every selection and destination. *)
Theorem selection_indices_are_16_bit :
  (forall idx : uint16_t, 0 <= u16 idx <= 65535)
  /\ (forall z : Z, u16 (to_uint16 z) = z mod 2 ^ 16)
  /\ (forall (codec : DateTimeCodec) (mem : Memory) (T : PType)
             (data data' : Container) (sel : list uint16_t) (col : IColumn),
         length data = length data' ->
         firstn (Z.to_nat 65536 * sizeof T) data =
         firstn (Z.to_nat 65536 * sizeof T) data' ->
         filter_by_selector mem T data sel col =
         filter_by_selector mem T data' sel col).
Proof.
  split; [|split].
  - intro idx. pose proof (u16_bounds idx). lia.
  - intro z. apply u16_to_uint16.
  - intros codec mem T data data' sel col Hlen Hpre.
    apply filter_by_selector_same.
    apply elem_at_same_prefix; assumption.
Qed.

Lemma selection_indices_are_16_bit_witness :
  length (Sample.long_rows Byte.x01) = length (Sample.long_rows Byte.x02)
  /\ firstn (Z.to_nat 65536 * sizeof T_Int8) (Sample.long_rows Byte.x01) =
     firstn (Z.to_nat 65536 * sizeof T_Int8) (Sample.long_rows Byte.x02)
  /\ u16 (to_uint16 65536) = 0
  /\ filter_by_selector (codec := SampleCodec.codec) Sample.zero_memory T_Int8
       (Sample.long_rows Byte.x01) [to_uint16 65536] (ColumnVector T_Int8 []) =
     filter_by_selector (codec := SampleCodec.codec) Sample.zero_memory T_Int8
       (Sample.long_rows Byte.x02) [to_uint16 65536] (ColumnVector T_Int8 []).
Proof.
  assert (Hlen : length (Sample.long_rows Byte.x01)
                 = length (Sample.long_rows Byte.x02)).
  { unfold Sample.long_rows. rewrite !length_app. reflexivity. }
  assert (Hpre : firstn (Z.to_nat 65536 * sizeof T_Int8) (Sample.long_rows Byte.x01)
                 = firstn (Z.to_nat 65536 * sizeof T_Int8) (Sample.long_rows Byte.x02)).
  { unfold Sample.long_rows. change (sizeof T_Int8) with 1%nat.
    rewrite Nat.mul_1_r, !firstn_app, !repeat_length, Nat.sub_diag.
    reflexivity. }
  split; [exact Hlen|]. split; [exact Hpre|]. split; [reflexivity|].
  exact (proj2 (proj2 selection_indices_are_16_bit) SampleCodec.codec
           Sample.zero_memory T_Int8 (Sample.long_rows Byte.x01)
           (Sample.long_rows Byte.x02) [to_uint16 65536]
           (ColumnVector T_Int8 []) Hlen Hpre).
Defined.

(** ** Batch insertion followed by a full-range selection *)

Lemma insert_many_fix_len_data_closed (mem : Memory) (T : PType) (p : Z)
    (n : nat) (data : Container) :
  T <> T_StringValue ->
  insert_many_fix_len_data mem T p n data =
  data ++ read_bytes mem p (n * sizeof T).
Proof.
  intro HT.
  destruct T; try congruence; unfold insert_many_fix_len_data;
    try apply insert_many_default_type_closed; reflexivity.
Qed.

Lemma fresh_destination_ready (T : PType) :
  supported T = true -> destination_ready T (fresh_destination T) = true.
Proof. destruct T; intro H; try discriminate H; reflexivity. Qed.

Lemma row_index_to_uint16 (i : nat) :
  (i < Z.to_nat 65536)%nat -> row_index (to_uint16 (Z.of_nat i)) = i.
Proof.
  intro H. unfold row_index. rewrite u16_to_uint16.
  rewrite Z.mod_small by lia. apply Nat2Z.id.
Qed.

Lemma row_index_to_uint16_le (i : nat) :
  (row_index (to_uint16 (Z.of_nat i)) <= i)%nat.
Proof.
  unfold row_index. rewrite u16_to_uint16.
  pose proof (Z.mod_le (Z.of_nat i) 65536). lia.
Qed.

Lemma full_range_in_range (T : PType) (data : Container) (n : nat) :
  (n <= size T data)%nat -> Forall (in_range T data) (full_range n).
Proof.
  intro H. apply Forall_forall. intros idx Hin.
  unfold full_range in Hin. apply in_map_iff in Hin.
  destruct Hin as (i & <- & Hi). apply in_seq in Hi.
  unfold in_range. pose proof (row_index_to_uint16_le i). lia.
Qed.

Lemma row_index_full_range (n : nat) :
  (n <= Z.to_nat 65536)%nat -> map row_index (full_range n) = seq 0 n.
Proof.
  intro H. unfold full_range. rewrite map_map.
  rewrite <- (map_id (seq 0 n)) at 2.
  apply map_ext_in. intros i Hi. apply in_seq in Hi.
  apply row_index_to_uint16. lia.
Qed.

Section RoundTrip.

Context {codec : DateTimeCodec}.
Variable mem : Memory.

(** C2: for every supported element type of the fixed-width batch path
    (every supported type but the string descriptor, whose branch of
    [insert_many_fix_len_data] is marked unreachable) and every number
    [n] of raw values at [p], inserting them with
    [insert_many_fix_len_data] into an empty container and calling
    [filter_by_selector] with the full-range selection, the entries
    whose indices are [0, 1, ..., n-1], into a fresh destination
    returns [OK], and the destination rows are the decoded values of
    the [n] source values, in order. *)
Theorem fix_len_round_trip (T : PType) (p : Z) (n : nat)
    (sel : list uint16_t) :
  supported T = true ->
  T <> T_StringValue ->
  map row_index sel = seq 0 n ->
  exists col',
    filter_by_selector mem T (insert_many_fix_len_data mem T p n [])
      sel (fresh_destination T) = Done (OK, col')
    /\ rows_of col' = map (spec_decode mem T) (values_at mem T p n).
Proof.
  intros Hsup Hstr Hfull.
  rewrite (insert_many_fix_len_data_closed mem T p n [] Hstr). cbn [app].
  set (data := read_bytes mem p (n * sizeof T)).
  assert (Hsize : size T data = n)
    by (apply size_whole; apply length_read_bytes).
  assert (Hsel : Forall (in_range T data) sel).
  { apply Forall_forall. intros idx Hin. unfold in_range.
    assert (Hi : In (row_index idx) (seq 0 n))
      by (rewrite <- Hfull; apply in_map; exact Hin).
    apply in_seq in Hi. lia. }
  destruct (filter_by_selector_rows mem T data sel
              (fresh_destination T) Hsup (fresh_destination_ready T Hsup) Hsel)
    as (col' & Hrun & Hrows).
  exists col'. split; [exact Hrun|].
  rewrite Hrows.
  replace (rows_of (fresh_destination T)) with (@nil Value)
    by (destruct T; reflexivity).
  cbn [app].
  rewrite <- (map_map row_index
                (fun i => spec_decode mem T (row T data i)) sel).
  rewrite Hfull. unfold values_at. rewrite map_map.
  apply map_ext_in. intros i Hi. apply in_seq in Hi.
  unfold data. rewrite row_read_bytes by lia. reflexivity.
Qed.

End RoundTrip.

Lemma fix_len_round_trip_witness :
  supported T_Int32 = true
  /\ T_Int32 <> T_StringValue
  /\ map row_index (full_range 3) = seq 0 3
  /\ exists col',
      filter_by_selector (codec := SampleCodec.codec)
        (mem_of_buffer 100 Sample.int32_rows) T_Int32
        (insert_many_fix_len_data (mem_of_buffer 100 Sample.int32_rows)
           T_Int32 100 3 [])
        (full_range 3) (fresh_destination T_Int32) = Done (OK, col')
      /\ rows_of col' =
         map (spec_decode (codec := SampleCodec.codec)
                (mem_of_buffer 100 Sample.int32_rows) T_Int32)
             (values_at (mem_of_buffer 100 Sample.int32_rows) T_Int32 100 3).
Proof.
  assert (Hstr : T_Int32 <> T_StringValue) by discriminate.
  assert (Hfull : map row_index (full_range 3) = seq 0 3) by reflexivity.
  split; [reflexivity|]. split; [exact Hstr|]. split; [exact Hfull|].
  exact (fix_len_round_trip (codec := SampleCodec.codec)
           (mem_of_buffer 100 Sample.int32_rows) T_Int32 100 3 (full_range 3)
           eq_refl Hstr Hfull).
Defined.

(** ** Dictionary-coded insertion *)

Lemma array_at_nth (a : list Z) (i : Z) :
  0 <= i -> (Z.to_nat i < length a)%nat ->
  array_at a i = Done (nth (Z.to_nat i) a 0).
Proof.
  intros Hi Hlen. unfold array_at.
  destruct (Z.ltb_spec i 0) as [Hneg|_]; [lia|].
  rewrite (nth_error_nth' a 0 Hlen). reflexivity.
Qed.

Lemma length_StringValue_bytes (sv : StringValue) :
  length (StringValue_bytes sv) = sizeof T_StringValue.
Proof.
  unfold StringValue_bytes. rewrite length_app, !length_le_encode. reflexivity.
Qed.

Lemma firstn_app_exact {A} (l1 l2 : list A) (n : nat) :
  length l1 = n -> firstn n (l1 ++ l2) = l1.
Proof.
  intros <-. rewrite firstn_app, Nat.sub_diag, firstn_all, firstn_O.
  apply app_nil_r.
Qed.

Lemma skipn_app_exact {A} (l1 l2 : list A) (n : nat) :
  length l1 = n -> skipn n (l1 ++ l2) = l2.
Proof.
  intros <-. rewrite skipn_app, Nat.sub_diag, skipn_all, skipn_O.
  reflexivity.
Qed.

Lemma as_StringValue_bytes (sv : StringValue) :
  fits_StringValue sv -> as_StringValue (StringValue_bytes sv) = sv.
Proof.
  intros [Hp Hl]. destruct sv as [ptr len]. cbn [sv_ptr sv_len] in *.
  unfold as_StringValue, StringValue_bytes. cbn [sv_ptr sv_len].
  rewrite firstn_app_exact, skipn_app_exact by apply length_le_encode.
  rewrite firstn_all2 by (rewrite length_le_encode; lia).
  rewrite !le_decode_encode_small by (change (256 ^ Z.of_nat 8) with (2 ^ 64); lia).
  reflexivity.
Qed.

(** Rows of a container made of whole objects. *)
Lemma row_concat (T : PType) (objs : list (list byte)) (i : nat) (obj : list byte) :
  Forall (fun o => length o = sizeof T) objs ->
  nth_error objs i = Some obj ->
  row T (concat objs) i = obj.
Proof.
  intro H. revert i.
  induction H as [|o objs Ho _ IH]; intros i Hi.
  - destruct i; discriminate Hi.
  - unfold row in *. cbn [concat]. destruct i as [|i]; cbn [nth_error] in Hi.
    + injection Hi as <-. cbn [Nat.mul skipn].
      rewrite firstn_app, Ho, Nat.sub_diag, firstn_all2 by lia.
      cbn [firstn]. apply app_nil_r.
    + rewrite skipn_app, Ho.
      replace (S i * sizeof T - sizeof T)%nat with (i * sizeof T)%nat by lia.
      rewrite skipn_all2 by (rewrite Ho; lia).
      cbn [app]. apply IH. exact Hi.
Qed.

Lemma length_concat_objects (T : PType) (objs : list (list byte)) :
  Forall (fun o => length o = sizeof T) objs ->
  length (concat objs) = (length objs * sizeof T)%nat.
Proof.
  induction 1 as [|o objs Ho _ IH]; cbn [concat length]; [reflexivity|].
  rewrite length_app, Ho, IH. lia.
Qed.

Lemma insert_many_dict_loop_closed (data_array : list Z) (start_index : nat)
    (start_offset_array len_array : list Z) (dict_data : Z) (num : nat)
    (data : Container) :
  (forall i, (i < num)%nat ->
             code_in_tables data_array start_offset_array len_array
               (start_index + i)) ->
  insert_many_dict_loop data_array start_index start_offset_array len_array
    dict_data num data =
  Done (data ++
        concat (map (fun i =>
                       StringValue_bytes
                         (dict_entry data_array start_offset_array len_array
                            dict_data (start_index + i)))
                    (seq 0 num))).
Proof.
  revert start_index data.
  induction num as [|num IH]; intros start_index data Hcodes.
  - cbn. rewrite app_nil_r. reflexivity.
  - cbn [insert_many_dict_loop].
    destruct (Hcodes 0%nat ltac:(lia)) as (Hrow & Hcode & Hoff & Hlen).
    rewrite Nat.add_0_r in Hrow, Hcode, Hoff, Hlen.
    rewrite (array_at_nth data_array (Z.of_nat start_index))
      by (rewrite ?Nat2Z.id; lia).
    rewrite Nat2Z.id. cbn [bind].
    rewrite (array_at_nth start_offset_array _ Hcode Hoff). cbn [bind].
    rewrite (array_at_nth len_array _ Hcode Hlen). cbn [bind].
    rewrite IH.
    + unfold insert_string_value, push_back_without_reserve.
      rewrite <- app_assoc. f_equal.
      cbn [seq map concat]. rewrite Nat.add_0_r.
      rewrite <- seq_shift, map_map.
      do 2 (apply (f_equal2 (@app byte)); [reflexivity|]).
      apply (f_equal (@concat byte)).
      apply map_ext. intro i.
      replace (S start_index + i)%nat with (start_index + S i)%nat by lia.
      reflexivity.
    + intros i Hi.
      replace (S start_index + i)%nat with (start_index + S i)%nat by lia.
      apply Hcodes. lia.
Qed.

Lemma insert_many_dict_data_rows (data_array : list Z) (start_index : nat)
    (start_offset_array len_array : list Z) (dict_data : Z) (num : nat)
    (data : Container) (m : nat) :
  (forall i, (i < num)%nat ->
             code_in_tables data_array start_offset_array len_array
               (start_index + i)) ->
  length data = (m * sizeof T_StringValue)%nat ->
  exists data',
    insert_many_dict_data T_StringValue data_array start_index
      start_offset_array len_array dict_data num data = Done data'
    /\ size T_StringValue data' = (m + num)%nat
    /\ forall i, (i < num)%nat ->
         row T_StringValue data' (m + i) =
         StringValue_bytes
           (dict_entry data_array start_offset_array len_array dict_data
              (start_index + i)).
Proof.
  intros Hcodes Hdata.
  unfold insert_many_dict_data.
  rewrite (insert_many_dict_loop_closed _ _ _ _ dict_data num data Hcodes).
  set (objs := map (fun i => StringValue_bytes
                      (dict_entry data_array start_offset_array len_array
                         dict_data (start_index + i))) (seq 0 num)).
  assert (Hobjs : Forall (fun o => length o = sizeof T_StringValue) objs).
  { apply Forall_forall. intros o Ho. unfold objs in Ho.
    apply in_map_iff in Ho. destruct Ho as (i & <- & _).
    apply length_StringValue_bytes. }
  assert (Hlen : length objs = num)
    by (unfold objs; rewrite length_map, length_seq; reflexivity).
  eexists. split; [reflexivity|]. split.
  - rewrite (size_app_whole T_StringValue data (concat objs) num)
      by (rewrite (length_concat_objects _ _ Hobjs), Hlen; reflexivity).
    rewrite (size_whole _ _ m Hdata). reflexivity.
  - intros i Hi. rewrite (row_app_r _ _ _ m i Hdata).
    apply (row_concat _ _ _ _ Hobjs).
    unfold objs. rewrite nth_error_map, nth_error_seq.
    apply Nat.ltb_lt in Hi. rewrite Hi. reflexivity.
Qed.

Section DictionaryRows.

Context {codec : DateTimeCodec}.

(** C6: for the string descriptor type, [insert_many_dict_data] appends
    exactly [num] descriptors to a container of [m] rows; appended
    descriptor [i] is the object [StringValue(dict_data +
    offsets[codes[start_index + i]], lengths[codes[start_index + i]])],
    and it reads back as that pointer and length. With codes [2,0,1],
    offsets [5,0,9] and lengths [4,5,3], materializing the three rows
    in order yields the bytes of the dictionary buffer at offset 9 of
    length 3, at offset 5 of length 4 and at offset 0 of length 5. *)
Theorem insert_many_dict_data_descriptors :
  (forall (data_array : list Z) (start_index : nat)
          (start_offset_array len_array : list Z) (dict_data : Z) (num : nat)
          (data : Container) (m : nat),
      (forall i, (i < num)%nat ->
                 code_in_tables data_array start_offset_array len_array
                   (start_index + i)) ->
      length data = (m * sizeof T_StringValue)%nat ->
      exists data',
        insert_many_dict_data T_StringValue data_array start_index
          start_offset_array len_array dict_data num data = Done data'
        /\ size T_StringValue data' = (size T_StringValue data + num)%nat
        /\ firstn (length data) data' = data
        /\ forall i, (i < num)%nat ->
             let entry := dict_entry data_array start_offset_array len_array
                            dict_data (start_index + i) in
             row T_StringValue data' (size T_StringValue data + i) =
               StringValue_bytes entry
             /\ (fits_StringValue entry ->
                 as_StringValue
                   (row T_StringValue data' (size T_StringValue data + i))
                 = entry))
  /\ (forall (mem : Memory) (dict_data : Z),
         0 <= dict_data -> dict_data + 9 < 2 ^ 64 ->
         exists data',
           insert_many_dict_data T_StringValue [2; 0; 1] 0 [5; 0; 9] [4; 5; 3]
             dict_data 3 [] = Done data'
           /\ filter_by_selector mem T_StringValue data' (full_range 3)
                (ColumnString []) =
              Done (OK, ColumnString [read_bytes mem (dict_data + 9) 3;
                                      read_bytes mem (dict_data + 5) 4;
                                      read_bytes mem (dict_data + 0) 5])).
Proof.
  split.
  - intros data_array start_index start_offset_array len_array dict_data num
           data m Hcodes Hdata.
    destruct (insert_many_dict_data_rows data_array start_index
                start_offset_array len_array dict_data num data m Hcodes Hdata)
      as (data' & Hrun & Hsize & Hrows).
    rewrite (size_whole _ _ m Hdata).
    exists data'. split; [exact Hrun|]. split; [exact Hsize|]. split.
    + unfold insert_many_dict_data in Hrun.
      rewrite (insert_many_dict_loop_closed _ _ _ _ dict_data num data Hcodes)
        in Hrun.
      injection Hrun as <-. apply firstn_app_exact. reflexivity.
    + intros i Hi entry. split.
      * apply Hrows. exact Hi.
      * intro Hfits. rewrite (Hrows i Hi). apply as_StringValue_bytes.
        exact Hfits.
  - intros mem dict_data Hlo Hhi.
    assert (Hcodes : forall i, (i < 3)%nat ->
                       code_in_tables [2; 0; 1] [5; 0; 9] [4; 5; 3] (0 + i)).
    { intros i Hi. unfold code_in_tables.
      destruct i as [|[|[|i]]]; cbn; try lia. }
    destruct (insert_many_dict_data_rows [2; 0; 1] 0 [5; 0; 9] [4; 5; 3]
                dict_data 3 [] 0 Hcodes eq_refl)
      as (data' & Hrun & Hsize & Hrows).
    exists data'. split; [exact Hrun|].
    unfold filter_by_selector. cbn [cast_ColumnString bind].
    rewrite (insert_string_to_res_column_rows mem T_StringValue data'
               (full_range 3) [])
      by (apply full_range_in_range; lia).
    cbn [bind app]. do 3 f_equal.
    change (full_range 3) with [to_uint16 0; to_uint16 1; to_uint16 2].
    cbn [map].
    change (row_index (to_uint16 0)) with (0 + 0)%nat.
    change (row_index (to_uint16 1)) with (0 + 1)%nat.
    change (row_index (to_uint16 2)) with (0 + 2)%nat.
    rewrite !Hrows by lia.
    change (dict_entry [2; 0; 1] [5; 0; 9] [4; 5; 3] dict_data (0 + 0))
      with (mk_StringValue (dict_data + 9) 3).
    change (dict_entry [2; 0; 1] [5; 0; 9] [4; 5; 3] dict_data (0 + 1))
      with (mk_StringValue (dict_data + 5) 4).
    change (dict_entry [2; 0; 1] [5; 0; 9] [4; 5; 3] dict_data (0 + 2))
      with (mk_StringValue (dict_data + 0) 5).
    change (2 ^ 64) with 18446744073709551616 in Hhi.
    rewrite !as_StringValue_bytes
      by (unfold fits_StringValue; cbn [sv_ptr sv_len];
          change (2 ^ 64) with 18446744073709551616; lia).
    reflexivity.
Qed.

End DictionaryRows.

Lemma insert_many_dict_data_descriptors_witness :
  ((forall i, (i < 3)%nat ->
              code_in_tables [2; 0; 1] [5; 0; 9] [4; 5; 3] (0 + i))
   /\ length (@nil byte) = (0 * sizeof T_StringValue)%nat
   /\ exists data',
       insert_many_dict_data T_StringValue [2; 0; 1] 0 [5; 0; 9] [4; 5; 3]
         4096 3 [] = Done data'
       /\ size T_StringValue data' = (size T_StringValue [] + 3)%nat)
  /\ (0 <= 4096 /\ 4096 + 9 < 2 ^ 64
      /\ exists data',
          insert_many_dict_data T_StringValue [2; 0; 1] 0 [5; 0; 9] [4; 5; 3]
            4096 3 [] = Done data'
          /\ filter_by_selector (codec := SampleCodec.codec)
               Sample.dictionary_memory T_StringValue data' (full_range 3)
               (ColumnString []) =
             Done (OK, ColumnString
                         [read_bytes Sample.dictionary_memory (4096 + 9) 3;
                          read_bytes Sample.dictionary_memory (4096 + 5) 4;
                          read_bytes Sample.dictionary_memory (4096 + 0) 5]))
  /\ [read_bytes Sample.dictionary_memory (4096 + 9) 3;
      read_bytes Sample.dictionary_memory (4096 + 5) 4;
      read_bytes Sample.dictionary_memory (4096 + 0) 5]
     = [list_byte_of_string "fig"; list_byte_of_string "pear";
        list_byte_of_string "apple"].
Proof.
  assert (Hcodes : forall i, (i < 3)%nat ->
                     code_in_tables [2; 0; 1] [5; 0; 9] [4; 5; 3] (0 + i)).
  { intros i Hi. unfold code_in_tables.
    destruct i as [|[|[|i]]]; cbn; try lia. }
  assert (Hlo : 0 <= 4096) by lia.
  assert (Hhi : 4096 + 9 < 2 ^ 64) by reflexivity.
  split; [|split].
  - split; [exact Hcodes|]. split; [reflexivity|].
    destruct (proj1 (insert_many_dict_data_descriptors (codec := SampleCodec.codec))
                [2; 0; 1] 0%nat [5; 0; 9] [4; 5; 3] 4096 3%nat [] 0%nat
                Hcodes eq_refl) as (data' & Hrun & Hsize & _).
    exists data'. split; [exact Hrun | exact Hsize].
  - split; [exact Hlo|]. split; [exact Hhi|].
    exact (proj2 (insert_many_dict_data_descriptors (codec := SampleCodec.codec))
             Sample.dictionary_memory 4096 Hlo Hhi).
  - vm_compute. reflexivity.
Defined.

(** ** The packed decimal *)

Lemma le_encode_add_multiple (n : nat) (z k : Z) :
  le_encode n (z + k * 256 ^ Z.of_nat n) = le_encode n z.
Proof.
  revert z k; induction n as [|n IH]; intros z k; [reflexivity|].
  cbn [le_encode].
  rewrite Nat2Z.inj_succ, Z.pow_succ_r by lia.
  replace (z + k * (256 * 256 ^ Z.of_nat n))
    with (z + (k * 256 ^ Z.of_nat n) * 256) by lia.
  f_equal.
  - unfold byte_of_Z. rewrite Z.mod_add by lia. reflexivity.
  - rewrite Z.div_add by lia. apply IH.
Qed.

Lemma le_encode_to_signed (n : nat) (z : Z) :
  le_encode n (to_signed (8 * Z.of_nat n) z) = le_encode n z.
Proof.
  unfold to_signed, wrap.
  assert (Hpow : 2 ^ (8 * Z.of_nat n) = 256 ^ Z.of_nat n).
  { rewrite Z.pow_mul_r by lia. reflexivity. }
  rewrite Hpow.
  assert (Hmod : le_encode n (z mod 256 ^ Z.of_nat n) = le_encode n z).
  { rewrite Z.mod_eq by (apply Z.pow_nonzero; lia).
    replace (z - 256 ^ Z.of_nat n * (z / 256 ^ Z.of_nat n))
      with (z + (- (z / 256 ^ Z.of_nat n)) * 256 ^ Z.of_nat n) by lia.
    apply le_encode_add_multiple. }
  destruct (z mod 256 ^ Z.of_nat n <? 2 ^ (8 * Z.of_nat n - 1)).
  - exact Hmod.
  - replace (z mod 256 ^ Z.of_nat n - 256 ^ Z.of_nat n)
      with (z mod 256 ^ Z.of_nat n + (-1) * 256 ^ Z.of_nat n) by lia.
    rewrite le_encode_add_multiple. exact Hmod.
Qed.

(** The split into two fields keeps the twelve bytes as they are. *)
Lemma insert_decimal_value_bytes (mem : Memory) (data_ptr length : Z)
    (data : Container) :
  insert_decimal_value mem data_ptr length data =
  data ++ read_bytes mem data_ptr 12.
Proof.
  unfold insert_decimal_value, push_back_without_reserve, decimal12_bytes.
  cbn [integer fraction].
  rewrite (le_encode_to_signed 8), (le_encode_to_signed 4).
  rewrite !le_encode_decode_length by apply length_read_bytes.
  change 12%nat with (8 + 4)%nat.
  rewrite (read_bytes_app mem data_ptr 8 4). reflexivity.
Qed.

Lemma as_decimal12_bytes (d : decimal12_t) :
  int64_range (integer d) -> int32_range (fraction d) ->
  as_decimal12 (decimal12_bytes d) = d.
Proof.
  intros Hi Hf. destruct d as [i f]. cbn [integer fraction] in *.
  unfold as_decimal12, decimal12_bytes. cbn [integer fraction].
  rewrite firstn_app_exact, skipn_app_exact by apply length_le_encode.
  rewrite firstn_all2 by (rewrite length_le_encode; lia).
  rewrite !le_decode_encode.
  change (256 ^ Z.of_nat 8) with (2 ^ 64).
  change (256 ^ Z.of_nat 4) with (2 ^ 32).
  fold (wrap 64 i). fold (wrap 32 f).
  rewrite (to_signed_wrap 64 i) by (unfold int64_range in Hi; cbn in *; lia).
  rewrite (to_signed_wrap 32 f) by (unfold int32_range in Hf; cbn in *; lia).
  reflexivity.
Qed.

Lemma length_decimal12_bytes (d : decimal12_t) :
  length (decimal12_bytes d) = sizeof T_decimal12_t.
Proof.
  unfold decimal12_bytes. rewrite length_app, !length_le_encode. reflexivity.
Qed.

(** A container holding exactly one object has that object as row 0. *)
Lemma single_row (T : PType) (obj : list byte) :
  length obj = sizeof T ->
  size T obj = 1%nat
  /\ in_range T obj (to_uint16 0)
  /\ row T obj (row_index (to_uint16 0)) = obj.
Proof.
  intro H.
  assert (Hsize : size T obj = 1%nat) by (apply size_whole; lia).
  split; [exact Hsize|]. split.
  - unfold in_range. rewrite Hsize. change (row_index (to_uint16 0)) with 0%nat.
    lia.
  - change (row_index (to_uint16 0)) with 0%nat. unfold row.
    cbn [Nat.mul skipn]. apply firstn_all2. lia.
Qed.

Section PackedDecimal.

Context {codec : DateTimeCodec}.

Lemma decimal12_round_trip (mem : Memory) (data_ptr length i f : Z) :
  int64_range i -> int32_range f ->
  read_bytes mem data_ptr 12 = le_encode 8 i ++ le_encode 4 f ->
  filter_by_selector mem T_decimal12_t
    (insert_data mem T_decimal12_t data_ptr length [])
    [to_uint16 0] (ColumnDecimal []) =
  Done (OK, ColumnDecimal [DecimalV2Value i f]).
Proof.
  intros Hi Hf Hmem.
  cbn [insert_data]. rewrite insert_decimal_value_bytes, Hmem. cbn [app].
  change (le_encode 8 i ++ le_encode 4 f)
    with (decimal12_bytes (mk_decimal12 i f)).
  destruct (single_row T_decimal12_t (decimal12_bytes (mk_decimal12 i f))
              (length_decimal12_bytes _)) as (_ & Hin & Hrow).
  unfold filter_by_selector. cbn [cast_ColumnDecimal bind].
  rewrite (insert_decimal_to_res_column_rows T_decimal12_t _ [to_uint16 0] [])
    by (constructor; [exact Hin | constructor]).
  cbn [map app bind]. rewrite Hrow.
  rewrite (as_decimal12_bytes (mk_decimal12 i f) Hi Hf). reflexivity.
Qed.

(** C8: inserting a packed decimal reads an eight-byte integer part at
    [data_ptr] and a four-byte fraction part at [data_ptr + 8] and
    stores the two fields, which keeps the twelve input bytes;
    materialization builds the fixed-point value from the two fields;
    integer part 123 with fraction 450000000 materializes as the
    decimal 123.45. *)
Theorem decimal12_insert_and_materialize :
  (forall (mem : Memory) (data_ptr length : Z) (data : Container),
      insert_data mem T_decimal12_t data_ptr length data =
        data ++
        decimal12_bytes
          (mk_decimal12
             (to_signed 64 (le_decode (read_bytes mem data_ptr 8)))
             (to_signed 32 (le_decode (read_bytes mem (data_ptr + 8) 4))))
      /\ insert_data mem T_decimal12_t data_ptr length data =
         data ++ read_bytes mem data_ptr 12)
  /\ (forall (mem : Memory) (data_ptr length i f : Z),
         int64_range i -> int32_range f ->
         read_bytes mem data_ptr 12 = le_encode 8 i ++ le_encode 4 f ->
         filter_by_selector mem T_decimal12_t
           (insert_data mem T_decimal12_t data_ptr length [])
           [to_uint16 0] (ColumnDecimal []) =
         Done (OK, ColumnDecimal [DecimalV2Value i f]))
  /\ (forall (mem : Memory) (data_ptr length : Z),
         read_bytes mem data_ptr 12 = le_encode 8 123 ++ le_encode 4 450000000 ->
         exists v,
           filter_by_selector mem T_decimal12_t
             (insert_data mem T_decimal12_t data_ptr length [])
             [to_uint16 0] (ColumnDecimal []) =
           Done (OK, ColumnDecimal [v])
           /\ Qeq (decimal_to_Q v) (Qmake 12345 100)).
Proof.
  split; [|split].
  - intros mem data_ptr length data. split.
    + reflexivity.
    + apply insert_decimal_value_bytes.
  - intros mem data_ptr length i f. apply decimal12_round_trip.
  - intros mem data_ptr length Hmem.
    exists (DecimalV2Value 123 450000000). split.
    + apply decimal12_round_trip; [| | exact Hmem];
        unfold int64_range, int32_range; cbn; lia.
    + reflexivity.
Qed.

End PackedDecimal.

Lemma decimal12_insert_and_materialize_witness :
  int64_range 123
  /\ int32_range 450000000
  /\ read_bytes Sample.decimal_memory 0 12 =
     le_encode 8 123 ++ le_encode 4 450000000
  /\ filter_by_selector (codec := SampleCodec.codec) Sample.decimal_memory
       T_decimal12_t (insert_data Sample.decimal_memory T_decimal12_t 0 12 [])
       [to_uint16 0] (ColumnDecimal []) =
     Done (OK, ColumnDecimal [123450000000]).
Proof.
  assert (Hi : int64_range 123) by (unfold int64_range; cbn; lia).
  assert (Hf : int32_range 450000000) by (unfold int32_range; cbn; lia).
  assert (Hmem : read_bytes Sample.decimal_memory 0 12 =
                 le_encode 8 123 ++ le_encode 4 450000000)
    by (vm_compute; reflexivity).
  split; [exact Hi|]. split; [exact Hf|]. split; [exact Hmem|].
  exact (proj1 (proj2 (decimal12_insert_and_materialize
                         (codec := SampleCodec.codec)))
           Sample.decimal_memory 0 12 123 450000000 Hi Hf Hmem).
Defined.

(** ** The packed date *)

Lemma sample_codec_round_trip (d : SampleCodec.DateTime) :
  SampleCodec.calendar_date d ->
  SampleCodec.decode_date (SampleCodec.encode_date d) = d
  /\ 0 <= SampleCodec.encode_date d < 2 ^ 24.
Proof.
  destruct d as [y m dd h mi sec].
  unfold SampleCodec.calendar_date, SampleCodec.decode_date,
    SampleCodec.encode_date.
  cbn [SampleCodec.year SampleCodec.month SampleCodec.day SampleCodec.hour
       SampleCodec.minute SampleCodec.second].
  intros (Hy & Hm & Hd & -> & -> & ->).
  change (2 ^ 24) with 16777216.
  split; [|lia].
  assert (E1 : (y * 512 + m * 32 + dd) / 512 = y)
    by (Z.to_euclidean_division_equations; lia).
  assert (E2 : (y * 512 + m * 32 + dd) / 32 = y * 16 + m)
    by (Z.to_euclidean_division_equations; lia).
  assert (E3 : (y * 512 + m * 32 + dd) mod 32 = dd)
    by (Z.to_euclidean_division_equations; lia).
  assert (E4 : (y * 16 + m) mod 16 = m)
    by (Z.to_euclidean_division_equations; lia).
  rewrite E1, E2, E3, E4. reflexivity.
Qed.

Section PackedDate.

Context {codec : DateTimeCodec}.

Lemma packed_date_rows (mem : Memory) (data : Container)
    (sel : list uint16_t) (res : list Z) :
  Forall (in_range T_uint24_t data) sel ->
  filter_by_selector mem T_uint24_t data sel (ColumnVector T_Int64 res) =
  Done (OK, ColumnVector T_Int64
              (res ++ map (fun idx =>
                             to_int64 (from_olap_date
                               (le_decode (row T_uint24_t data (row_index idx)))))
                          sel)).
Proof.
  intro Hsel. unfold filter_by_selector. cbn [cast_ColumnVector PType_eqb bind].
  rewrite (insert_date_to_res_column_rows data sel res Hsel). cbn [bind].
  do 3 f_equal. apply (f_equal2 (@app Z)); [reflexivity|].
  apply map_ext_in. intros idx Hin.
  rewrite Forall_forall in Hsel.
  rewrite (firstn_all2 (n := 3))
    by (rewrite (length_row _ _ _ (Hsel idx Hin)); reflexivity).
  reflexivity.
Qed.

Lemma packed_date_round_trip (mem : Memory) (data_ptr length : Z)
    (d : VecDateTimeValue) :
  0 <= to_olap_date d < 2 ^ 24 ->
  from_olap_date (to_olap_date d) = d ->
  read_bytes mem data_ptr 3 = le_encode 3 (to_olap_date d) ->
  filter_by_selector mem T_uint24_t
    (insert_data mem T_uint24_t data_ptr length [])
    [to_uint16 0] (ColumnVector T_Int64 []) =
  Done (OK, ColumnVector T_Int64 [to_int64 d]).
Proof.
  intros Hrange Hcodec Hmem.
  cbn [insert_data]. unfold insert_default_type, push_back_without_reserve.
  cbn [sizeof app]. rewrite Hmem.
  destruct (single_row T_uint24_t (le_encode 3 (to_olap_date d))
              (length_le_encode 3 _)) as (_ & Hin & Hrow).
  rewrite packed_date_rows by (constructor; [exact Hin | constructor]).
  cbn [map app]. rewrite Hrow.
  rewrite le_decode_encode_small
    by (change (256 ^ Z.of_nat 3) with (2 ^ 24); exact Hrange).
  rewrite Hcodec. reflexivity.
Qed.

(** C7: [get_date_at] reads the three bytes of the selected value with
    byte 0 least and byte 2 most significant; materialization hands
    that integer to the date codec and appends the resulting date-time
    value to the [Int64] column; and a date encoded by the codec,
    stored as three little-endian bytes and materialized, is the
    original date whenever the codec itself inverts its encoding. *)
Theorem packed_date_materialization :
  (forall b0 b1 b2 : byte,
      get_date_at T_uint24_t [b0; b1; b2] (to_uint16 0) =
      Done (byte_to_Z b0 + 2 ^ 8 * byte_to_Z b1 + 2 ^ 16 * byte_to_Z b2))
  /\ (forall (mem : Memory) (data : Container) (sel : list uint16_t)
             (res : list Z),
         Forall (in_range T_uint24_t data) sel ->
         filter_by_selector mem T_uint24_t data sel (ColumnVector T_Int64 res) =
         Done (OK, ColumnVector T_Int64
                     (res ++ map (fun idx =>
                                    to_int64 (from_olap_date
                                      (le_decode
                                         (row T_uint24_t data (row_index idx)))))
                                 sel)))
  /\ (forall (mem : Memory) (data_ptr length : Z) (d : VecDateTimeValue),
         0 <= to_olap_date d < 2 ^ 24 ->
         from_olap_date (to_olap_date d) = d ->
         read_bytes mem data_ptr 3 = le_encode 3 (to_olap_date d) ->
         filter_by_selector mem T_uint24_t
           (insert_data mem T_uint24_t data_ptr length [])
           [to_uint16 0] (ColumnVector T_Int64 []) =
         Done (OK, ColumnVector T_Int64 [to_int64 d])).
Proof.
  split; [|split].
  - intros b0 b1 b2.
    destruct (single_row T_uint24_t [b0; b1; b2] eq_refl) as (_ & Hin & Hrow).
    rewrite (get_date_at_unpacks _ _ Hin), Hrow.
    cbn [firstn le_decode]. f_equal.
    change (2 ^ 8) with 256. change (2 ^ 16) with 65536. lia.
  - apply packed_date_rows.
  - apply packed_date_round_trip.
Qed.

End PackedDate.

(** Under the sample codec every calendar date survives the way
    through the three stored bytes. *)
Lemma sample_codec_date_pipeline (mem : Memory) (data_ptr length : Z)
    (d : SampleCodec.DateTime) :
  SampleCodec.calendar_date d ->
  read_bytes mem data_ptr 3 = le_encode 3 (SampleCodec.encode_date d) ->
  filter_by_selector (codec := SampleCodec.codec) mem T_uint24_t
    (insert_data mem T_uint24_t data_ptr length [])
    [to_uint16 0] (ColumnVector T_Int64 []) =
  Done (OK, ColumnVector T_Int64 [SampleCodec.pack d]).
Proof.
  intros Hd Hmem.
  destruct (sample_codec_round_trip d Hd) as [Hcodec Hrange].
  exact (packed_date_round_trip (codec := SampleCodec.codec) mem data_ptr
           length d Hrange Hcodec Hmem).
Qed.

Lemma packed_date_materialization_witness :
  0 <= SampleCodec.encode_date Sample.a_date < 2 ^ 24
  /\ SampleCodec.decode_date (SampleCodec.encode_date Sample.a_date)
     = Sample.a_date
  /\ read_bytes Sample.date_memory 0 3 =
     le_encode 3 (SampleCodec.encode_date Sample.a_date)
  /\ filter_by_selector (codec := SampleCodec.codec) Sample.date_memory
       T_uint24_t (insert_data Sample.date_memory T_uint24_t 0 3 [])
       [to_uint16 0] (ColumnVector T_Int64 []) =
     Done (OK, ColumnVector T_Int64 [SampleCodec.pack Sample.a_date]).
Proof.
  assert (Hrange : 0 <= SampleCodec.encode_date Sample.a_date < 2 ^ 24)
    by (split; [apply Z.leb_le | apply Z.ltb_lt]; vm_compute; reflexivity).
  assert (Hcodec : SampleCodec.decode_date
                     (SampleCodec.encode_date Sample.a_date) = Sample.a_date)
    by (vm_compute; reflexivity).
  assert (Hmem : read_bytes Sample.date_memory 0 3 =
                 le_encode 3 (SampleCodec.encode_date Sample.a_date))
    by (vm_compute; reflexivity).
  split; [exact Hrange|]. split; [exact Hcodec|]. split; [exact Hmem|].
  exact (proj2 (proj2 (packed_date_materialization (codec := SampleCodec.codec)))
           Sample.date_memory 0 3 Sample.a_date Hrange Hcodec Hmem).
Defined.

(** ** The guarded generic operations *)

(** C4: every guarded operation ends in [LOG(FATAL)] for every element
    type, container and argument: the call is an abort, it has no
    successful return path and reads nothing out of bounds on its way.
    The logged message names the violated operation, the member
    function called or, for the six getters of a row's field, the field
    get; and the message identifies it: two calls that violate
    different operations never abort with the same message. *)
Theorem guarded_operations_abort (T : PType) (data : Container)
    (c : Guard.GuardedCall) :
  (exists msg,
      Guard.call_guarded T data c = Fatal msg
      /\ Guard.contains (Guard.reported_operation c) msg = true)
  /\ (forall r, Guard.call_guarded T data c <> Done r)
  /\ Guard.call_guarded T data c <> Undefined
  /\ (forall (T' : PType) (data' : Container) (c' : Guard.GuardedCall),
         Guard.reported_operation c <> Guard.reported_operation c' ->
         Guard.call_guarded T data c <> Guard.call_guarded T' data' c').
Proof.
  split; [|split; [|split]].
  - destruct c; eexists; split; reflexivity.
  - intros r. destruct c; discriminate.
  - destruct c; discriminate.
  - intros T' data' c' Hne Heq.
    destruct c, c'; cbn in Hne, Heq;
      first [ discriminate Heq | apply Hne; reflexivity ].
Qed.

Lemma guarded_operations_abort_witness :
  Guard.reported_operation (Guard.get_int 0)
  <> Guard.reported_operation (Guard.pop_back 1)
  /\ Guard.call_guarded T_Int32 Sample.int32_rows (Guard.get_int 0)
     <> Guard.call_guarded T_bool [] (Guard.pop_back 1).
Proof.
  assert (Hne : Guard.reported_operation (Guard.get_int 0)
                <> Guard.reported_operation (Guard.pop_back 1))
    by discriminate.
  split; [exact Hne|].
  exact (proj2 (proj2 (proj2 (guarded_operations_abort T_Int32
                                Sample.int32_rows (Guard.get_int 0))))
           T_bool [] (Guard.pop_back 1) Hne).
Defined.

(** ** Runs on the sample data *)

Example run_int32_selection :
  filter_by_selector (codec := SampleCodec.codec) Sample.zero_memory T_Int32
    Sample.int32_rows Sample.sel_2_0_1 (ColumnVector T_Int32 [])
  = Done (OK, ColumnVector T_Int32 [-1; 1; 2]).
Proof. vm_compute. reflexivity. Qed.

Example run_empty_selection :
  filter_by_selector (codec := SampleCodec.codec) Sample.zero_memory T_Int32
    Sample.int32_rows [] (ColumnVector T_Int32 [])
  = Done (OK, ColumnVector T_Int32 []).
Proof. vm_compute. reflexivity. Qed.

Example run_unsupported_type :
  filter_by_selector (codec := SampleCodec.codec) Sample.zero_memory T_UInt32
    Sample.int32_rows Sample.sel_2_0_1 (ColumnVector T_UInt32 [])
  = Done (NotSupported "not supported output type in predicate_column",
          ColumnVector T_UInt32 []).
Proof. reflexivity. Qed.

Example run_batch_append :
  insert_many_default_type (mem_of_buffer 100 Sample.int32_rows) T_Int32 100 3 []
  = Sample.int32_rows
  /\ insert_many_in_copy_way (mem_of_buffer 100 Sample.int32_rows) T_Int32 100 3 []
     = Sample.int32_rows.
Proof. split; vm_compute; reflexivity. Qed.

Example run_dictionary :
  exists data,
    insert_many_dict_data T_StringValue [2; 0; 1] 0 [5; 0; 9] [4; 5; 3] 4096 3 []
    = Done data
    /\ filter_by_selector (codec := SampleCodec.codec) Sample.dictionary_memory
         T_StringValue data (full_range 3) (ColumnString [])
       = Done (OK, ColumnString [list_byte_of_string "fig";
                                 list_byte_of_string "pear";
                                 list_byte_of_string "apple"]).
Proof. eexists. split; vm_compute; reflexivity. Qed.

Example run_dictionary_code_outside_tables :
  insert_many_dict_data T_StringValue [2; 0; 7] 0 [5; 0; 9] [4; 5; 3] 4096 3 []
  = Undefined.
Proof. vm_compute. reflexivity. Qed.

Example run_dictionary_other_type :
  insert_many_dict_data T_Int32 [2; 0; 1] 0 [5; 0; 9] [4; 5; 3] 4096 3
    Sample.int32_rows
  = Done Sample.int32_rows.
Proof. reflexivity. Qed.

Example run_packed_date :
  SampleCodec.encode_date Sample.a_date = 1034991
  /\ insert_data Sample.date_memory T_uint24_t 0 3 []
     = [Byte.xef; Byte.xca; Byte.x0f]
  /\ get_date_at T_uint24_t [Byte.xef; Byte.xca; Byte.x0f] (to_uint16 0)
     = Done 1034991.
Proof. repeat split; vm_compute; reflexivity. Qed.

Example run_packed_decimal :
  filter_by_selector (codec := SampleCodec.codec) Sample.decimal_memory
    T_decimal12_t (insert_data Sample.decimal_memory T_decimal12_t 0 12 [])
    [to_uint16 0] (ColumnDecimal [])
  = Done (OK, ColumnDecimal [123450000000])
  /\ Qeq (decimal_to_Q 123450000000) (Qmake 12345 100).
Proof. split; vm_compute; reflexivity. Qed.

Example run_negative_decimal :
  as_decimal12 (decimal12_bytes (mk_decimal12 (-7) (-250000000)))
  = mk_decimal12 (-7) (-250000000)
  /\ DecimalV2Value (-7) (-250000000) = -7250000000.
Proof. split; vm_compute; reflexivity. Qed.

Example run_nonempty_numeric_destination :
  filter_by_selector (codec := SampleCodec.codec) Sample.zero_memory T_Int32
    Sample.int32_rows Sample.sel_2_0_1 (ColumnVector T_Int32 [5])
  = Fatal "Check failed: res_data.empty()".
Proof. vm_compute. reflexivity. Qed.

Example run_guarded_get_data_at :
  Guard.call_guarded T_Int32 Sample.int32_rows (Guard.get_data_at 0)
  = Fatal "get_data_at not supported in PredicateColumnType".
Proof. reflexivity. Qed.

Example run_guarded_get64 :
  Guard.call_guarded T_Int32 Sample.int32_rows (Guard.get64 0)
  = Fatal "get field not supported in PredicateColumnTyped".
Proof. reflexivity. Qed.

(** * Further properties of the insertion path *)

(** ** Whole rows *)

Lemma whole_rows_app (T : PType) (data more : Container) (n : nat) :
  whole_rows T data ->
  length more = (n * sizeof T)%nat ->
  whole_rows T (data ++ more)
  /\ size T (data ++ more) = (size T data + n)%nat.
Proof.
  unfold whole_rows. intros Hdata Hmore.
  assert (Hsize : size T (data ++ more) = (size T data + n)%nat)
    by (apply size_app_whole; exact Hmore).
  split; [|exact Hsize].
  rewrite Hsize, length_app, Hdata, Hmore. lia.
Qed.

Lemma whole_rows_nil (T : PType) : whole_rows T [].
Proof.
  unfold whole_rows, size. cbn [length].
  rewrite Nat.Div0.div_0_l. reflexivity.
Qed.

Lemma insert_data_closed (mem : Memory) (T : PType) (data_ptr length : Z)
    (data : Container) :
  T <> T_StringValue ->
  insert_data mem T data_ptr length data =
  data ++ read_bytes mem data_ptr (sizeof T).
Proof.
  intro HT. destruct T; try congruence; try reflexivity.
  cbn [insert_data]. apply insert_decimal_value_bytes.
Qed.

(** X1: Batch insertion, looked up row by row: the size grows by [num],
    the rows stored before stay as they were, and new row [k] holds
    the [sizeof T] bytes of input value [k]. *)
Theorem insert_many_fix_len_data_lookup (mem : Memory) (T : PType)
    (data_ptr : Z) (num : nat) (data : Container) :
  T <> T_StringValue ->
  whole_rows T data ->
  whole_rows T (insert_many_fix_len_data mem T data_ptr num data)
  /\ size T (insert_many_fix_len_data mem T data_ptr num data) =
     (size T data + num)%nat
  /\ byte_size T (insert_many_fix_len_data mem T data_ptr num data) =
     (byte_size T data + num * sizeof T)%nat
  /\ (forall k, (k < size T data)%nat ->
        row T (insert_many_fix_len_data mem T data_ptr num data) k =
        row T data k)
  /\ (forall k, (k < num)%nat ->
        row T (insert_many_fix_len_data mem T data_ptr num data)
          (size T data + k) =
        read_bytes mem (data_ptr + Z.of_nat (k * sizeof T)) (sizeof T)).
Proof.
  intros HT Hwhole.
  rewrite (insert_many_fix_len_data_closed mem T data_ptr num data HT).
  destruct (whole_rows_app T data (read_bytes mem data_ptr (num * sizeof T))
              num Hwhole (length_read_bytes _ _ _)) as [Hw Hs].
  split; [exact Hw|]. split; [exact Hs|]. split; [|split].
  - unfold byte_size. rewrite Hs. lia.
  - intros k Hk. apply row_app_l. exact Hk.
  - intros k Hk. rewrite (row_app_r T data _ (size T data) k Hwhole).
    apply row_read_bytes. exact Hk.
Qed.

Lemma insert_many_fix_len_data_lookup_witness :
  T_Int32 <> T_StringValue
  /\ whole_rows T_Int32 Sample.int32_rows
  /\ size T_Int32
       (insert_many_fix_len_data (mem_of_buffer 100 Sample.int32_rows)
          T_Int32 100 3 Sample.int32_rows) = (3 + 3)%nat
  /\ row T_Int32
       (insert_many_fix_len_data (mem_of_buffer 100 Sample.int32_rows)
          T_Int32 100 3 Sample.int32_rows) (3 + 2) =
     read_bytes (mem_of_buffer 100 Sample.int32_rows)
       (100 + Z.of_nat (2 * sizeof T_Int32)) (sizeof T_Int32).
Proof.
  assert (HT : T_Int32 <> T_StringValue) by discriminate.
  assert (Hw : whole_rows T_Int32 Sample.int32_rows) by reflexivity.
  destruct (insert_many_fix_len_data_lookup
              (mem_of_buffer 100 Sample.int32_rows) T_Int32 100 3
              Sample.int32_rows HT Hw) as (_ & Hs & _ & _ & Hnew).
  split; [exact HT|]. split; [exact Hw|]. split; [exact Hs|].
  apply (Hnew 2%nat). lia.
Defined.

(** ** Batches and single insertions *)

(** X2: A batch of [a + b] values is the batch of the first [a] followed by
    the batch of the remaining [b]; and a batch of one value is the
    single insertion [insert_data], also for the packed decimal, whose
    single insertion goes through its two fields while the batch copies
    bytes. *)
Theorem insert_many_fix_len_data_splits (mem : Memory) (T : PType)
    (data_ptr : Z) (a b : nat) (data : Container) :
  insert_many_fix_len_data mem T data_ptr (a + b) data =
    insert_many_fix_len_data mem T (data_ptr + Z.of_nat (a * sizeof T)) b
      (insert_many_fix_len_data mem T data_ptr a data)
  /\ (T <> T_StringValue ->
      forall length : Z,
        insert_many_fix_len_data mem T data_ptr 1 data =
        insert_data mem T data_ptr length data).
Proof.
  split.
  - destruct (PType_eqb T T_StringValue) eqn:E.
    + destruct T; try discriminate E. reflexivity.
    + assert (HT : T <> T_StringValue)
        by (intros ->; discriminate E).
      rewrite !(insert_many_fix_len_data_closed mem T) by exact HT.
      rewrite <- app_assoc. f_equal.
      rewrite Nat.mul_add_distr_r. apply read_bytes_app.
  - intros HT length.
    rewrite (insert_many_fix_len_data_closed mem T data_ptr 1 data HT).
    rewrite (insert_data_closed mem T data_ptr length data HT).
    rewrite Nat.mul_1_l. reflexivity.
Qed.

Lemma insert_many_fix_len_data_splits_witness :
  T_decimal12_t <> T_StringValue
  /\ insert_many_fix_len_data Sample.decimal_memory T_decimal12_t 0 1 [] =
     insert_data Sample.decimal_memory T_decimal12_t 0 12 [].
Proof.
  assert (HT : T_decimal12_t <> T_StringValue) by discriminate.
  split; [exact HT|].
  exact (proj2 (insert_many_fix_len_data_splits Sample.decimal_memory
                  T_decimal12_t 0 0 0 []) HT 12).
Defined.

(** ** One value in, the same value out *)

(** The row appended to a container of whole rows is the one the index
    [size] selects, as long as that index fits sixteen bits. *)
Lemma appended_row (T : PType) (data obj : Container) :
  whole_rows T data ->
  length obj = sizeof T ->
  (size T data < Z.to_nat 65536)%nat ->
  in_range T (data ++ obj) (to_uint16 (Z.of_nat (size T data)))
  /\ row T (data ++ obj) (row_index (to_uint16 (Z.of_nat (size T data))))
     = obj.
Proof.
  intros Hwhole Hobj Hsmall.
  rewrite (row_index_to_uint16 _ Hsmall).
  assert (Hsize : size T (data ++ obj) = (size T data + 1)%nat)
    by (apply size_app_whole; lia).
  split.
  - unfold in_range. rewrite (row_index_to_uint16 _ Hsmall), Hsize. lia.
  - rewrite <- (Nat.add_0_r (size T data)) at 1.
    rewrite (row_app_r T data obj (size T data) 0 Hwhole).
    unfold row. cbn [Nat.mul skipn]. apply firstn_all2. lia.
Qed.

Lemma fast_numeric_rows {codec : DateTimeCodec} (mem : Memory) (T : PType)
    (data : Container) (sel : list uint16_t) :
  fast_numeric T = true ->
  Forall (in_range T data) sel ->
  filter_by_selector mem T data sel (ColumnVector T []) =
  Done (OK, ColumnVector T
              (map (fun idx => load T (row T data (row_index idx))) sel)).
Proof.
  intros Hfast Hsel.
  destruct T; try discriminate Hfast;
    unfold filter_by_selector; cbn [cast_ColumnVector PType_eqb bind];
    rewrite (insert_default_value_res_column_rows _ data sel Hsel);
    reflexivity.
Qed.

Lemma load_signed (T : PType) (v : Z) :
  signed_integer T = true -> signed_range T v ->
  load T (le_encode (sizeof T) v) = v.
Proof.
  intros HT Hv. unfold signed_range in Hv.
  destruct T; try discriminate HT; cbn [sizeof load] in *;
    rewrite le_decode_encode;
    match goal with
    | |- to_signed ?bits (v mod ?m) = v =>
        change (v mod m) with (wrap bits v);
        apply to_signed_wrap; [lia | exact Hv]
    end.
Qed.

Section SingleValues.

Context {codec : DateTimeCodec}.
Variable mem : Memory.

(** X3: A signed integer of the width of [T] that is inserted with
    [insert_data] and then selected comes out as the same integer,
    negative values included. *)
Theorem signed_integer_round_trip (T : PType) (data_ptr length v : Z)
    (data : Container) :
  signed_integer T = true ->
  signed_range T v ->
  read_bytes mem data_ptr (sizeof T) = le_encode (sizeof T) v ->
  whole_rows T data ->
  (size T data < Z.to_nat 65536)%nat ->
  filter_by_selector mem T (insert_data mem T data_ptr length data)
    [to_uint16 (Z.of_nat (size T data))] (ColumnVector T [])
  = Done (OK, ColumnVector T [v]).
Proof.
  intros HT Hv Hmem Hwhole Hsmall.
  assert (Hstr : T <> T_StringValue) by (intros ->; discriminate HT).
  assert (Hfast : fast_numeric T = true)
    by (destruct T; try discriminate HT; reflexivity).
  rewrite (insert_data_closed mem T data_ptr length data Hstr), Hmem.
  destruct (appended_row T data (le_encode (sizeof T) v) Hwhole
              (length_le_encode _ _) Hsmall) as [Hin Hrow].
  rewrite (fast_numeric_rows mem T _ _ Hfast)
    by (constructor; [exact Hin | constructor]).
  cbn [map]. rewrite Hrow, (load_signed T v HT Hv). reflexivity.
Qed.

(** X4: A string inserted with [insert_data] is kept as a descriptor only;
    selecting it copies the [length] bytes that lie at [data_ptr] at
    the time of the selection. *)
Theorem string_round_trip (mem_at_insert : Memory) (data_ptr length : Z)
    (data : Container) (rows : list (list byte)) :
  0 <= data_ptr < 2 ^ 64 ->
  0 <= length < 2 ^ 64 ->
  whole_rows T_StringValue data ->
  (size T_StringValue data < Z.to_nat 65536)%nat ->
  filter_by_selector mem T_StringValue
    (insert_data mem_at_insert T_StringValue data_ptr length data)
    [to_uint16 (Z.of_nat (size T_StringValue data))] (ColumnString rows)
  = Done (OK, ColumnString
                (rows ++ [read_bytes mem data_ptr (Z.to_nat length)])).
Proof.
  intros Hptr Hlen Hwhole Hsmall.
  cbn [insert_data]. unfold insert_string_value, push_back_without_reserve.
  set (sv := mk_StringValue data_ptr length).
  destruct (appended_row T_StringValue data (StringValue_bytes sv) Hwhole
              (length_StringValue_bytes sv) Hsmall) as [Hin Hrow].
  unfold filter_by_selector. cbn [cast_ColumnString bind].
  rewrite (insert_string_to_res_column_rows mem T_StringValue _ _ rows)
    by (constructor; [exact Hin | constructor]).
  cbn [map bind]. rewrite Hrow.
  rewrite (as_StringValue_bytes sv) by (split; assumption).
  reflexivity.
Qed.

(** X5: A packed datetime integer inserted with [insert_data] and then
    selected reaches the datetime codec unchanged. *)
Theorem datetime_round_trip (data_ptr length v : Z) (data : Container)
    (res : list Z) :
  0 <= v < 2 ^ 64 ->
  read_bytes mem data_ptr 8 = le_encode 8 v ->
  whole_rows T_uint64_t data ->
  (size T_uint64_t data < Z.to_nat 65536)%nat ->
  filter_by_selector mem T_uint64_t
    (insert_data mem T_uint64_t data_ptr length data)
    [to_uint16 (Z.of_nat (size T_uint64_t data))] (ColumnVector T_Int64 res)
  = Done (OK, ColumnVector T_Int64
                (res ++ [to_int64 (from_datetime_value v)])).
Proof.
  intros Hv Hmem Hwhole Hsmall.
  rewrite (insert_data_closed mem T_uint64_t data_ptr length data)
    by discriminate.
  cbn [sizeof]. rewrite Hmem.
  destruct (appended_row T_uint64_t data (le_encode 8 v) Hwhole
              (length_le_encode _ _) Hsmall) as [Hin Hrow].
  unfold filter_by_selector. cbn [cast_ColumnVector PType_eqb bind].
  rewrite (insert_datetime_to_res_column_rows T_uint64_t _ _ res)
    by (constructor; [exact Hin | constructor]).
  cbn [map bind]. rewrite Hrow.
  rewrite le_decode_encode_small
    by (change (256 ^ Z.of_nat 8) with (2 ^ 64); exact Hv).
  unfold wrap. rewrite Z.mod_small by exact Hv. reflexivity.
Qed.

(** X6: A boolean is copied as the byte it is stored in: whatever byte was
    inserted comes out as that byte's value, between 0 and 255, with no
    reduction to 0 or 1. *)
Theorem bool_round_trip (data_ptr length : Z) (b : byte) (data : Container)
    (res : list Z) :
  mem data_ptr = b ->
  whole_rows T_bool data ->
  (size T_bool data < Z.to_nat 65536)%nat ->
  filter_by_selector mem T_bool (insert_data mem T_bool data_ptr length data)
    [to_uint16 (Z.of_nat (size T_bool data))] (ColumnVector T_UInt8 res)
  = Done (OK, ColumnVector T_UInt8 (res ++ [byte_to_Z b]))
  /\ 0 <= byte_to_Z b <= 255.
Proof.
  intros Hmem Hwhole Hsmall. split.
  - rewrite (insert_data_closed mem T_bool data_ptr length data)
      by discriminate.
    assert (Hread : read_bytes mem data_ptr (sizeof T_bool) = [b]).
    { unfold read_bytes. cbn [sizeof seq map Z.of_nat].
      rewrite Z.add_0_r, Hmem. reflexivity. }
    rewrite Hread.
    destruct (appended_row T_bool data [b] Hwhole eq_refl Hsmall)
      as [Hin Hrow].
    unfold filter_by_selector.
    rewrite (insert_byte_to_res_column_rows _ _ res)
      by (constructor; [exact Hin | constructor]).
    cbn [map bind]. rewrite Hrow. cbn [firstn le_decode].
    rewrite Z.mul_0_r, Z.add_0_r. reflexivity.
  - pose proof (byte_to_Z_range b). lia.
Qed.

End SingleValues.

Ltac closed_range :=
  split; [apply Z.leb_le | apply Z.ltb_lt]; vm_compute; reflexivity.

Lemma signed_integer_round_trip_witness :
  signed_integer T_Int32 = true
  /\ signed_range T_Int32 (-1)
  /\ read_bytes (mem_of_buffer 100 Sample.int32_rows) 108 (sizeof T_Int32)
     = le_encode (sizeof T_Int32) (-1)
  /\ whole_rows T_Int32 Sample.int32_rows
  /\ (size T_Int32 Sample.int32_rows < Z.to_nat 65536)%nat
  /\ filter_by_selector (codec := SampleCodec.codec)
       (mem_of_buffer 100 Sample.int32_rows) T_Int32
       (insert_data (mem_of_buffer 100 Sample.int32_rows) T_Int32 108 4
          Sample.int32_rows)
       [to_uint16 (Z.of_nat (size T_Int32 Sample.int32_rows))]
       (ColumnVector T_Int32 [])
     = Done (OK, ColumnVector T_Int32 [-1]).
Proof.
  assert (Hv : signed_range T_Int32 (-1)) by (unfold signed_range; closed_range).
  assert (Hmem : read_bytes (mem_of_buffer 100 Sample.int32_rows) 108
                   (sizeof T_Int32) = le_encode (sizeof T_Int32) (-1))
    by (vm_compute; reflexivity).
  assert (Hw : whole_rows T_Int32 Sample.int32_rows) by reflexivity.
  assert (Hs : (size T_Int32 Sample.int32_rows < Z.to_nat 65536)%nat)
    by (change (size T_Int32 Sample.int32_rows) with 3%nat; lia).
  split; [reflexivity|]. split; [exact Hv|]. split; [exact Hmem|].
  split; [exact Hw|]. split; [exact Hs|].
  exact (signed_integer_round_trip (codec := SampleCodec.codec)
           (mem_of_buffer 100 Sample.int32_rows) T_Int32 108 4 (-1)
           Sample.int32_rows eq_refl Hv Hmem Hw Hs).
Defined.

Lemma string_round_trip_witness :
  0 <= 4101 < 2 ^ 64
  /\ 0 <= 4 < 2 ^ 64
  /\ whole_rows T_StringValue []
  /\ (size T_StringValue [] < Z.to_nat 65536)%nat
  /\ filter_by_selector (codec := SampleCodec.codec) Sample.dictionary_memory
       T_StringValue (insert_data Sample.zero_memory T_StringValue 4101 4 [])
       [to_uint16 (Z.of_nat (size T_StringValue []))] (ColumnString [])
     = Done (OK, ColumnString
                   ([] ++ [read_bytes Sample.dictionary_memory 4101
                             (Z.to_nat 4)]))
  /\ read_bytes Sample.dictionary_memory 4101 (Z.to_nat 4)
     = list_byte_of_string "pear".
Proof.
  assert (Hp : 0 <= 4101 < 2 ^ 64) by closed_range.
  assert (Hl : 0 <= 4 < 2 ^ 64) by closed_range.
  assert (Hw : whole_rows T_StringValue []) by reflexivity.
  assert (Hs : (size T_StringValue [] < Z.to_nat 65536)%nat)
    by (change (size T_StringValue []) with 0%nat; lia).
  split; [exact Hp|]. split; [exact Hl|]. split; [exact Hw|].
  split; [exact Hs|]. split.
  - exact (string_round_trip (codec := SampleCodec.codec)
             Sample.dictionary_memory Sample.zero_memory 4101 4 [] []
             Hp Hl Hw Hs).
  - vm_compute. reflexivity.
Defined.

Lemma datetime_round_trip_witness :
  0 <= 20210715123000 < 2 ^ 64
  /\ read_bytes Sample.datetime_memory 0 8 = le_encode 8 20210715123000
  /\ whole_rows T_uint64_t []
  /\ (size T_uint64_t [] < Z.to_nat 65536)%nat
  /\ filter_by_selector (codec := SampleCodec.codec) Sample.datetime_memory
       T_uint64_t (insert_data Sample.datetime_memory T_uint64_t 0 8 [])
       [to_uint16 (Z.of_nat (size T_uint64_t []))] (ColumnVector T_Int64 [])
     = Done (OK, ColumnVector T_Int64
                   ([] ++ [SampleCodec.pack
                             (SampleCodec.decode_datetime 20210715123000)])).
Proof.
  assert (Hv : 0 <= 20210715123000 < 2 ^ 64) by closed_range.
  assert (Hmem : read_bytes Sample.datetime_memory 0 8
                 = le_encode 8 20210715123000) by (vm_compute; reflexivity).
  assert (Hw : whole_rows T_uint64_t []) by reflexivity.
  assert (Hs : (size T_uint64_t [] < Z.to_nat 65536)%nat)
    by (change (size T_uint64_t []) with 0%nat; lia).
  split; [exact Hv|]. split; [exact Hmem|]. split; [exact Hw|].
  split; [exact Hs|].
  exact (datetime_round_trip (codec := SampleCodec.codec)
           Sample.datetime_memory 0 8 20210715123000 [] [] Hv Hmem Hw Hs).
Defined.

Lemma bool_round_trip_witness :
  Sample.odd_bool_memory 0 = Byte.x02
  /\ whole_rows T_bool []
  /\ (size T_bool [] < Z.to_nat 65536)%nat
  /\ filter_by_selector (codec := SampleCodec.codec) Sample.odd_bool_memory
       T_bool (insert_data Sample.odd_bool_memory T_bool 0 1 [])
       [to_uint16 (Z.of_nat (size T_bool []))] (ColumnVector T_UInt8 [])
     = Done (OK, ColumnVector T_UInt8 ([] ++ [byte_to_Z Byte.x02])).
Proof.
  assert (Hmem : Sample.odd_bool_memory 0 = Byte.x02) by reflexivity.
  assert (Hw : whole_rows T_bool []) by reflexivity.
  assert (Hs : (size T_bool [] < Z.to_nat 65536)%nat)
    by (change (size T_bool []) with 0%nat; lia).
  split; [exact Hmem|]. split; [exact Hw|]. split; [exact Hs|].
  exact (proj1 (bool_round_trip (codec := SampleCodec.codec)
                  Sample.odd_bool_memory 0 1 Byte.x02 [] [] Hmem Hw Hs)).
Defined.

(** ** Binary blocks *)

Lemma array_at_outside (a : list Z) (i : Z) :
  i < 0 \/ (length a <= Z.to_nat i)%nat -> array_at a i = Undefined.
Proof.
  intro H. unfold array_at.
  destruct (Z.ltb_spec i 0) as [_|Hpos]; [reflexivity|].
  destruct H as [H|H]; [lia|].
  apply nth_error_None in H. rewrite H. reflexivity.
Qed.

Lemma insert_many_binary_loop_closed (data_array : Z)
    (len_array start_offset_array : list Z) (i num : nat) (data : Container) :
  (i + num <= length len_array)%nat ->
  (i + num <= length start_offset_array)%nat ->
  insert_many_binary_loop data_array len_array start_offset_array i num data =
  Done (data ++
        concat (map (fun k =>
                       StringValue_bytes
                         (binary_entry data_array len_array start_offset_array
                            (i + k)))
                    (seq 0 num))).
Proof.
  revert i data.
  induction num as [|num IH]; intros i data Hlen Hoff.
  - cbn. rewrite app_nil_r. reflexivity.
  - cbn [insert_many_binary_loop].
    rewrite (array_at_nth len_array (Z.of_nat i))
      by (rewrite ?Nat2Z.id; lia).
    cbn [bind].
    rewrite (array_at_nth start_offset_array (Z.of_nat i))
      by (rewrite ?Nat2Z.id; lia).
    cbn [bind]. rewrite Nat2Z.id.
    rewrite IH by lia.
    unfold insert_string_value, push_back_without_reserve.
    rewrite <- app_assoc.
    cbn [seq map concat]. rewrite Nat.add_0_r.
    rewrite <- seq_shift, map_map.
    apply (f_equal (@Done Container)).
    do 2 (apply (f_equal2 (@app byte)); [reflexivity|]).
    apply (f_equal (@concat byte)).
    apply map_ext. intro k.
    replace (S i + k)%nat with (i + S k)%nat by lia. reflexivity.
Qed.

Lemma insert_many_binary_loop_outside (data_array : Z)
    (len_array start_offset_array : list Z) (i num : nat) (data : Container) :
  (exists k, (k < num)%nat
             /\ ((length len_array <= i + k)%nat
                 \/ (length start_offset_array <= i + k)%nat)) ->
  insert_many_binary_loop data_array len_array start_offset_array i num data
  = Undefined.
Proof.
  revert i data.
  induction num as [|num IH]; intros i data (k & Hk & Hout); [lia|].
  cbn [insert_many_binary_loop].
  destruct (le_lt_dec (length len_array) i) as [Hl|Hl].
  { rewrite (array_at_outside len_array (Z.of_nat i))
      by (right; rewrite Nat2Z.id; exact Hl).
    reflexivity. }
  rewrite (array_at_nth len_array (Z.of_nat i)) by (rewrite ?Nat2Z.id; lia).
  cbn [bind].
  destruct (le_lt_dec (length start_offset_array) i) as [Ho|Ho].
  { rewrite (array_at_outside start_offset_array (Z.of_nat i))
      by (right; rewrite Nat2Z.id; exact Ho).
    reflexivity. }
  rewrite (array_at_nth start_offset_array (Z.of_nat i))
    by (rewrite ?Nat2Z.id; lia).
  cbn [bind]. apply IH.
  destruct k as [|k]; [rewrite Nat.add_0_r in Hout; lia|].
  exists k. split; [lia|].
  replace (S i + k)%nat with (i + S k)%nat by lia. exact Hout.
Qed.

(** X7: For the string descriptor type, [insert_many_binary_data] with
    length and offset arrays of at least [num] entries appends [num]
    descriptors to a container of whole rows: the rows stored before
    stay, and new row [i] is [StringValue(data_array + offsets[i],
    lengths[i])], which reads back as that pointer and length. For
    every other element type the call leaves the container as it is. *)
Theorem insert_many_binary_data_descriptors :
  (forall (data_array : Z) (len_array start_offset_array : list Z)
          (num : nat) (data : Container),
      (num <= length len_array)%nat ->
      (num <= length start_offset_array)%nat ->
      whole_rows T_StringValue data ->
      exists data',
        insert_many_binary_data T_StringValue data_array len_array
          start_offset_array num data = Done data'
        /\ whole_rows T_StringValue data'
        /\ size T_StringValue data' = (size T_StringValue data + num)%nat
        /\ (forall k, (k < size T_StringValue data)%nat ->
              row T_StringValue data' k = row T_StringValue data k)
        /\ forall i, (i < num)%nat ->
             let entry := binary_entry data_array len_array
                            start_offset_array i in
             row T_StringValue data' (size T_StringValue data + i) =
               StringValue_bytes entry
             /\ (fits_StringValue entry ->
                 as_StringValue
                   (row T_StringValue data' (size T_StringValue data + i))
                 = entry))
  /\ (forall (T : PType) (data_array : Z)
             (len_array start_offset_array : list Z) (num : nat)
             (data : Container),
         T <> T_StringValue ->
         insert_many_binary_data T data_array len_array start_offset_array
           num data = Done data).
Proof.
  split.
  - intros data_array len_array start_offset_array num data Hlen Hoff Hwhole.
    unfold insert_many_binary_data.
    rewrite insert_many_binary_loop_closed by lia.
    set (objs := map (fun k => StringValue_bytes
                        (binary_entry data_array len_array start_offset_array
                           (0 + k))) (seq 0 num)).
    assert (Hobjs : Forall (fun o => length o = sizeof T_StringValue) objs).
    { apply Forall_forall. intros o Ho. unfold objs in Ho.
      apply in_map_iff in Ho. destruct Ho as (k & <- & _).
      apply length_StringValue_bytes. }
    assert (Hn : length objs = num)
      by (unfold objs; rewrite length_map, length_seq; reflexivity).
    assert (Hbytes : length (concat objs) = (num * sizeof T_StringValue)%nat)
      by (rewrite (length_concat_objects _ _ Hobjs), Hn; reflexivity).
    destruct (whole_rows_app T_StringValue data (concat objs) num Hwhole Hbytes)
      as [Hw Hs].
    eexists. split; [reflexivity|]. split; [exact Hw|]. split; [exact Hs|].
    split.
    + intros k Hk. apply row_app_l. exact Hk.
    + intros i Hi.
      set (entry := binary_entry data_array len_array start_offset_array i).
      assert (Hrow : row T_StringValue (data ++ concat objs)
                       (size T_StringValue data + i)
                     = StringValue_bytes entry).
      { rewrite (row_app_r _ data _ (size T_StringValue data) i Hwhole).
        apply (row_concat _ _ _ _ Hobjs).
        unfold objs. rewrite nth_error_map, nth_error_seq.
        apply Nat.ltb_lt in Hi. rewrite Hi. reflexivity. }
      split; [exact Hrow|].
      intro Hfits. rewrite Hrow. apply as_StringValue_bytes. exact Hfits.
  - intros T data_array len_array start_offset_array num data HT.
    destruct T; try congruence; reflexivity.
Qed.

Lemma insert_many_binary_data_descriptors_witness :
  (2 <= length [4; 5])%nat
  /\ (2 <= length [5; 0])%nat
  /\ whole_rows T_StringValue []
  /\ (exists data',
        insert_many_binary_data T_StringValue 4096 [4; 5] [5; 0] 2 []
        = Done data'
        /\ size T_StringValue data' = (size T_StringValue [] + 2)%nat)
  /\ T_Int32 <> T_StringValue
  /\ insert_many_binary_data T_Int32 4096 [4; 5] [5; 0] 2 Sample.int32_rows
     = Done Sample.int32_rows.
Proof.
  assert (H1 : (2 <= length [4; 5])%nat) by (cbn; lia).
  assert (H2 : (2 <= length [5; 0])%nat) by (cbn; lia).
  assert (Hw : whole_rows T_StringValue []) by reflexivity.
  assert (HT : T_Int32 <> T_StringValue) by discriminate.
  split; [exact H1|]. split; [exact H2|]. split; [exact Hw|]. split.
  - destruct (proj1 insert_many_binary_data_descriptors 4096 [4; 5] [5; 0]
                2%nat [] H1 H2 Hw) as (data' & Hrun & _ & Hs & _).
    exists data'. split; [exact Hrun | exact Hs].
  - split; [exact HT|].
    exact (proj2 insert_many_binary_data_descriptors T_Int32 4096 [4; 5]
             [5; 0] 2%nat Sample.int32_rows HT).
Defined.

(** ** Arrays that are too short, codes outside the tables *)

Lemma code_in_tables_dec (data_array start_offset_array len_array : list Z)
    (r : nat) :
  {code_in_tables data_array start_offset_array len_array r}
  + {~ code_in_tables data_array start_offset_array len_array r}.
Proof.
  unfold code_in_tables.
  destruct (lt_dec r (length data_array)); [|right; tauto].
  destruct (Z_le_dec 0 (nth r data_array 0)); [|right; tauto].
  destruct (lt_dec (Z.to_nat (nth r data_array 0)) (length start_offset_array));
    [|right; tauto].
  destruct (lt_dec (Z.to_nat (nth r data_array 0)) (length len_array));
    [left; tauto | right; tauto].
Qed.

Lemma insert_many_dict_loop_outside (data_array : list Z) (start_index : nat)
    (start_offset_array len_array : list Z) (dict_data : Z) (num : nat)
    (data : Container) :
  (exists i, (i < num)%nat
             /\ ~ code_in_tables data_array start_offset_array len_array
                    (start_index + i)) ->
  insert_many_dict_loop data_array start_index start_offset_array len_array
    dict_data num data = Undefined.
Proof.
  revert start_index data.
  induction num as [|num IH]; intros start_index data (i & Hi & Hbad); [lia|].
  cbn [insert_many_dict_loop].
  destruct (code_in_tables_dec data_array start_offset_array len_array
              start_index) as [Hok|Hnot].
  - destruct Hok as (Hrow & Hcode & Hoff & Hlen).
    rewrite (array_at_nth data_array (Z.of_nat start_index))
      by (rewrite ?Nat2Z.id; lia).
    rewrite Nat2Z.id. cbn [bind].
    rewrite (array_at_nth start_offset_array _ Hcode Hoff). cbn [bind].
    rewrite (array_at_nth len_array _ Hcode Hlen). cbn [bind].
    apply IH.
    destruct i as [|i].
    + exfalso. apply Hbad. rewrite Nat.add_0_r.
      repeat split; assumption.
    + exists i. split; [lia|].
      replace (S start_index + i)%nat with (start_index + S i)%nat by lia.
      exact Hbad.
  - unfold code_in_tables in Hnot.
    destruct (lt_dec start_index (length data_array)) as [Hrow|Hrow].
    2:{ rewrite (array_at_outside data_array (Z.of_nat start_index))
          by (right; rewrite Nat2Z.id; lia).
        reflexivity. }
    rewrite (array_at_nth data_array (Z.of_nat start_index))
      by (rewrite ?Nat2Z.id; lia).
    rewrite Nat2Z.id. cbn [bind].
    destruct (Z_le_dec 0 (nth start_index data_array 0)) as [Hcode|Hcode].
    2:{ rewrite (array_at_outside start_offset_array) by (left; lia).
        reflexivity. }
    destruct (lt_dec (Z.to_nat (nth start_index data_array 0))
                (length start_offset_array)) as [Hoff|Hoff].
    2:{ rewrite (array_at_outside start_offset_array) by (right; lia).
        reflexivity. }
    rewrite (array_at_nth start_offset_array _ Hcode Hoff). cbn [bind].
    rewrite (array_at_outside len_array) by (right; tauto || lia).
    reflexivity.
Qed.

(** X8: Neither string batch validates what it indexes. A dictionary batch
    with a row beyond the code array, a negative code or a code beyond
    either table, and a binary batch with a length or offset array of
    fewer than [num] entries, read outside an array: the outcome is
    undefined, and no descriptor count is reported. *)
Theorem string_batches_do_not_check_arrays :
  (forall (data_array : list Z) (start_index : nat)
          (start_offset_array len_array : list Z) (dict_data : Z) (num : nat)
          (data : Container),
      (exists i, (i < num)%nat
                 /\ ~ code_in_tables data_array start_offset_array len_array
                        (start_index + i)) ->
      insert_many_dict_data T_StringValue data_array start_index
        start_offset_array len_array dict_data num data = Undefined)
  /\ (forall (data_array : Z) (len_array start_offset_array : list Z)
             (num : nat) (data : Container),
         (length len_array < num)%nat
         \/ (length start_offset_array < num)%nat ->
         insert_many_binary_data T_StringValue data_array len_array
           start_offset_array num data = Undefined).
Proof.
  split.
  - intros. apply insert_many_dict_loop_outside. assumption.
  - intros data_array len_array start_offset_array num data Hshort.
    apply insert_many_binary_loop_outside.
    destruct Hshort as [H|H].
    + exists (length len_array). split; [lia|]. left. lia.
    + exists (length start_offset_array). split; [lia|]. right. lia.
Qed.

Lemma string_batches_do_not_check_arrays_witness :
  (exists i, (i < 3)%nat
             /\ ~ code_in_tables [2; 0; -1] [5; 0; 9] [4; 5; 3] (0 + i))
  /\ insert_many_dict_data T_StringValue [2; 0; -1] 0 [5; 0; 9] [4; 5; 3]
       4096 3 [] = Undefined
  /\ ((length [4; 5] < 3)%nat \/ (length [5; 0; 9] < 3)%nat)
  /\ insert_many_binary_data T_StringValue 4096 [4; 5] [5; 0; 9] 3 []
     = Undefined.
Proof.
  assert (Hbad : exists i, (i < 3)%nat
                   /\ ~ code_in_tables [2; 0; -1] [5; 0; 9] [4; 5; 3] (0 + i)).
  { exists 2%nat. split; [lia|]. unfold code_in_tables. cbn. lia. }
  assert (Hshort : (length [4; 5] < 3)%nat \/ (length [5; 0; 9] < 3)%nat)
    by (left; cbn; lia).
  split; [exact Hbad|]. split.
  - exact (proj1 string_batches_do_not_check_arrays [2; 0; -1] 0%nat
             [5; 0; 9] [4; 5; 3] 4096 3%nat [] Hbad).
  - split; [exact Hshort|].
    exact (proj2 string_batches_do_not_check_arrays 4096 [4; 5] [5; 0; 9]
             3%nat [] Hshort).
Defined.

(** ** Dictionary batches in pieces *)

Lemma insert_many_dict_loop_app (data_array : list Z) (start_index : nat)
    (start_offset_array len_array : list Z) (dict_data : Z) (a b : nat)
    (data : Container) :
  insert_many_dict_loop data_array start_index start_offset_array len_array
    dict_data (a + b) data =
  (d <- insert_many_dict_loop data_array start_index start_offset_array
          len_array dict_data a data ;;
   insert_many_dict_loop data_array (start_index + a) start_offset_array
     len_array dict_data b d).
Proof.
  revert start_index data.
  induction a as [|a IH]; intros start_index data.
  - cbn [Nat.add insert_many_dict_loop bind]. rewrite Nat.add_0_r. reflexivity.
  - cbn [Nat.add insert_many_dict_loop].
    destruct (array_at data_array (Z.of_nat start_index)) as [c| |];
      cbn [bind]; try reflexivity.
    destruct (array_at start_offset_array c) as [o| |];
      cbn [bind]; try reflexivity.
    destruct (array_at len_array c) as [l| |]; cbn [bind]; try reflexivity.
    rewrite IH.
    replace (S start_index + a)%nat with (start_index + S a)%nat by lia.
    reflexivity.
Qed.

(** X9: A dictionary batch of [a + b] rows is the batch of the first [a]
    rows followed by the batch of the next [b] rows; a failure in the
    first piece is the failure of the whole. This holds for every
    element type and every input. *)
Theorem insert_many_dict_data_splits (T : PType) (data_array : list Z)
    (start_index : nat) (start_offset_array len_array : list Z)
    (dict_data : Z) (a b : nat) (data : Container) :
  insert_many_dict_data T data_array start_index start_offset_array len_array
    dict_data (a + b) data =
  (d <- insert_many_dict_data T data_array start_index start_offset_array
          len_array dict_data a data ;;
   insert_many_dict_data T data_array (start_index + a) start_offset_array
     len_array dict_data b d).
Proof.
  destruct T; try reflexivity.
  apply insert_many_dict_loop_app.
Qed.

(** ** Dictionary rows as a binary block *)

(** X10: A dictionary batch whose codes lie in the tables stores what a
    binary batch over the dictionary buffer stores when it is given,
    row by row, the length and the offset that the row's code picks. *)
Theorem insert_many_dict_data_as_binary (T : PType) (data_array : list Z)
    (start_index : nat) (start_offset_array len_array : list Z)
    (dict_data : Z) (num : nat) (data : Container) :
  (forall i, (i < num)%nat ->
             code_in_tables data_array start_offset_array len_array
               (start_index + i)) ->
  insert_many_dict_data T data_array start_index start_offset_array len_array
    dict_data num data =
  insert_many_binary_data T dict_data
    (map (fun i => nth (Z.to_nat (nth (start_index + i) data_array 0))
                       len_array 0) (seq 0 num))
    (map (fun i => nth (Z.to_nat (nth (start_index + i) data_array 0))
                       start_offset_array 0) (seq 0 num))
    num data.
Proof.
  intro Hcodes.
  destruct T; try reflexivity.
  unfold insert_many_dict_data, insert_many_binary_data.
  rewrite (insert_many_dict_loop_closed _ _ _ _ dict_data num data Hcodes).
  rewrite insert_many_binary_loop_closed
    by (rewrite length_map, length_seq; lia).
  apply (f_equal (@Done Container)).
  apply (f_equal2 (@app byte)); [reflexivity|].
  apply (f_equal (@concat byte)).
  apply map_ext_in. intros i Hi. apply in_seq in Hi.
  unfold dict_entry, binary_entry. cbn [Nat.add].
  assert (Hnth : forall (f : nat -> Z),
             nth i (map f (seq 0 num)) 0 = f i).
  { intro f.
    rewrite (nth_indep _ 0 (f 0%nat))
      by (rewrite length_map, length_seq; lia).
    rewrite map_nth, seq_nth by lia. reflexivity. }
  rewrite !Hnth. reflexivity.
Qed.

Lemma insert_many_dict_data_as_binary_witness :
  (forall i, (i < 3)%nat ->
             code_in_tables [2; 0; 1] [5; 0; 9] [4; 5; 3] (0 + i))
  /\ insert_many_dict_data T_StringValue [2; 0; 1] 0 [5; 0; 9] [4; 5; 3]
       4096 3 [] =
     insert_many_binary_data T_StringValue 4096 [3; 4; 5] [9; 5; 0] 3 [].
Proof.
  assert (Hcodes : forall i, (i < 3)%nat ->
                     code_in_tables [2; 0; 1] [5; 0; 9] [4; 5; 3] (0 + i)).
  { intros i Hi. unfold code_in_tables.
    destruct i as [|[|[|i]]]; cbn; try lia. }
  split; [exact Hcodes|].
  exact (insert_many_dict_data_as_binary T_StringValue [2; 0; 1] 0
           [5; 0; 9] [4; 5; 3] 4096 3 [] Hcodes).
Defined.

(** * Further properties of the materialization *)

(** ** A selection in two pieces *)

Section SelectionInPieces.

Context {codec : DateTimeCodec}.
Variable mem : Memory.
Variable T : PType.
Variable data : Container.

Ltac piece_round IH :=
  match goal with
  | |- context [elem_at T data ?i] => destruct (elem_at T data i)
  end; cbn [bind]; try reflexivity; try apply IH.

Lemma insert_string_to_res_column_app (sel1 sel2 : list uint16_t)
    (res : list (list byte)) :
  insert_string_to_res_column mem T data (sel1 ++ sel2) res =
  (r <- insert_string_to_res_column mem T data sel1 res ;;
   insert_string_to_res_column mem T data sel2 r).
Proof.
  revert res; induction sel1 as [|idx sel1 IH]; intro res;
    cbn [app insert_string_to_res_column bind]; [reflexivity|].
  piece_round IH.
Qed.

Lemma insert_decimal_to_res_column_app (sel1 sel2 : list uint16_t)
    (res : list Z) :
  insert_decimal_to_res_column T data (sel1 ++ sel2) res =
  (r <- insert_decimal_to_res_column T data sel1 res ;;
   insert_decimal_to_res_column T data sel2 r).
Proof.
  revert res; induction sel1 as [|idx sel1 IH]; intro res;
    cbn [app insert_decimal_to_res_column bind]; [reflexivity|].
  piece_round IH.
Qed.

Lemma insert_datetime_to_res_column_app (sel1 sel2 : list uint16_t)
    (res : list Z) :
  insert_datetime_to_res_column T data (sel1 ++ sel2) res =
  (r <- insert_datetime_to_res_column T data sel1 res ;;
   insert_datetime_to_res_column T data sel2 r).
Proof.
  revert res; induction sel1 as [|idx sel1 IH]; intro res;
    cbn [app insert_datetime_to_res_column bind]; [reflexivity|].
  piece_round IH.
Qed.

Lemma insert_date_to_res_column_app (sel1 sel2 : list uint16_t)
    (res : list Z) :
  insert_date_to_res_column T data (sel1 ++ sel2) res =
  (r <- insert_date_to_res_column T data sel1 res ;;
   insert_date_to_res_column T data sel2 r).
Proof.
  revert res; induction sel1 as [|idx sel1 IH]; intro res;
    cbn [app insert_date_to_res_column bind]; [reflexivity|].
  destruct (get_date_at T data idx); cbn [bind]; try reflexivity. apply IH.
Qed.

Lemma insert_byte_to_res_column_app (sel1 sel2 : list uint16_t)
    (res : IColumn) :
  insert_byte_to_res_column T data (sel1 ++ sel2) res =
  (r <- insert_byte_to_res_column T data sel1 res ;;
   insert_byte_to_res_column T data sel2 r).
Proof.
  revert res; induction sel1 as [|idx sel1 IH]; intro res;
    cbn [app insert_byte_to_res_column bind]; [reflexivity|].
  piece_round IH.
  match goal with
  | |- context [object_byte ?o ?k] => destruct (object_byte o k)
  end; cbn [bind]; try reflexivity.
  destruct res as [Y rd| |]; try reflexivity.
  destruct Y; try reflexivity. apply IH.
Qed.

End SelectionInPieces.

(** X11: For every element type outside the pre-reserved numeric copy,
    materializing [sel1 ++ sel2] is materializing [sel1] and then
    [sel2] into the destination the first call leaves; a failure of
    the first call is the failure of the whole. *)
Theorem filter_by_selector_in_pieces {codec : DateTimeCodec} (mem : Memory)
    (T : PType) (data : Container) (sel1 sel2 : list uint16_t)
    (col : IColumn) :
  fast_numeric T = false ->
  filter_by_selector mem T data (sel1 ++ sel2) col =
  (r <- filter_by_selector mem T data sel1 col ;;
   filter_by_selector mem T data sel2 (snd r)).
Proof.
  intro Hfast.
  destruct T; try discriminate Hfast; try reflexivity;
    unfold filter_by_selector.
  - destruct (cast_ColumnString col) as [res| |]; cbn [bind]; try reflexivity.
    rewrite insert_string_to_res_column_app.
    destruct (insert_string_to_res_column mem T_StringValue data sel1 res);
      reflexivity.
  - destruct (cast_ColumnDecimal col) as [res| |]; cbn [bind]; try reflexivity.
    rewrite insert_decimal_to_res_column_app.
    destruct (insert_decimal_to_res_column T_decimal12_t data sel1 res);
      reflexivity.
  - destruct (cast_ColumnVector T_Int64 col) as [res| |]; cbn [bind];
      try reflexivity.
    rewrite insert_datetime_to_res_column_app.
    destruct (insert_datetime_to_res_column T_uint64_t data sel1 res);
      reflexivity.
  - destruct (cast_ColumnVector T_Int64 col) as [res| |]; cbn [bind];
      try reflexivity.
    rewrite insert_date_to_res_column_app.
    destruct (insert_date_to_res_column T_uint24_t data sel1 res);
      reflexivity.
  - rewrite insert_byte_to_res_column_app.
    destruct (insert_byte_to_res_column T_bool data sel1 col); reflexivity.
Qed.

Lemma filter_by_selector_in_pieces_witness :
  fast_numeric T_uint24_t = false
  /\ filter_by_selector (codec := SampleCodec.codec) Sample.zero_memory
       T_uint24_t Sample.two_dates
       ([to_uint16 0] ++ [to_uint16 0; to_uint16 1]) (ColumnVector T_Int64 []) =
     (r <- filter_by_selector (codec := SampleCodec.codec) Sample.zero_memory
             T_uint24_t Sample.two_dates [to_uint16 0]
             (ColumnVector T_Int64 []) ;;
      filter_by_selector (codec := SampleCodec.codec) Sample.zero_memory
        T_uint24_t Sample.two_dates [to_uint16 0; to_uint16 1]
        (snd r)).
Proof.
  split; [reflexivity|].
  exact (filter_by_selector_in_pieces (codec := SampleCodec.codec)
           Sample.zero_memory T_uint24_t Sample.two_dates
           [to_uint16 0] [to_uint16 0; to_uint16 1] (ColumnVector T_Int64 [])
           eq_refl).
Defined.

Example run_two_dates_in_pieces :
  filter_by_selector (codec := SampleCodec.codec) Sample.zero_memory
    T_uint24_t Sample.two_dates ([to_uint16 0] ++ [to_uint16 0; to_uint16 1])
    (ColumnVector T_Int64 [])
  = Done (OK, ColumnVector T_Int64
                [SampleCodec.pack (SampleCodec.mk_DateTime 2021 7 15 0 0 0);
                 SampleCodec.pack (SampleCodec.mk_DateTime 2021 7 15 0 0 0);
                 SampleCodec.pack (SampleCodec.mk_DateTime 2021 7 16 0 0 0)]).
Proof. vm_compute. reflexivity. Qed.

(** ** What a selection reads *)

Section SelectedRowsOnly.

Context {codec : DateTimeCodec}.
Variable mem : Memory.
Variable T : PType.
Variables data data' : Container.

Ltac selected_round IH Hsame :=
  rewrite (Hsame _ (in_eq _ _));
  match goal with
  | |- context [elem_at T data' ?i] => destruct (elem_at T data' i)
  end; cbn [bind]; try reflexivity;
  try (apply IH; intros j Hj; apply Hsame; apply in_cons; exact Hj).

Lemma insert_string_to_res_column_selected (sel : list uint16_t)
    (res : list (list byte)) :
  (forall idx, In idx sel -> elem_at T data idx = elem_at T data' idx) ->
  insert_string_to_res_column mem T data sel res =
  insert_string_to_res_column mem T data' sel res.
Proof.
  revert res; induction sel as [|idx sel IH]; intros res Hsame;
    cbn [insert_string_to_res_column]; [reflexivity|].
  selected_round IH Hsame.
Qed.

Lemma insert_decimal_to_res_column_selected (sel : list uint16_t)
    (res : list Z) :
  (forall idx, In idx sel -> elem_at T data idx = elem_at T data' idx) ->
  insert_decimal_to_res_column T data sel res =
  insert_decimal_to_res_column T data' sel res.
Proof.
  revert res; induction sel as [|idx sel IH]; intros res Hsame;
    cbn [insert_decimal_to_res_column]; [reflexivity|].
  selected_round IH Hsame.
Qed.

Lemma insert_datetime_to_res_column_selected (sel : list uint16_t)
    (res : list Z) :
  (forall idx, In idx sel -> elem_at T data idx = elem_at T data' idx) ->
  insert_datetime_to_res_column T data sel res =
  insert_datetime_to_res_column T data' sel res.
Proof.
  revert res; induction sel as [|idx sel IH]; intros res Hsame;
    cbn [insert_datetime_to_res_column]; [reflexivity|].
  selected_round IH Hsame.
Qed.

Lemma insert_date_to_res_column_selected (sel : list uint16_t)
    (res : list Z) :
  (forall idx, In idx sel -> elem_at T data idx = elem_at T data' idx) ->
  insert_date_to_res_column T data sel res =
  insert_date_to_res_column T data' sel res.
Proof.
  revert res; induction sel as [|idx sel IH]; intros res Hsame;
    cbn [insert_date_to_res_column]; [reflexivity|].
  unfold get_date_at. rewrite (Hsame _ (in_eq _ _)).
  destruct (get_date_at T data' idx) eqn:E; unfold get_date_at in E;
    rewrite E; cbn [bind]; try reflexivity.
  apply IH. intros j Hj. apply Hsame. apply in_cons. exact Hj.
Qed.

Lemma default_value_loop_selected (sel : list uint16_t) (y : list Z) :
  (forall idx, In idx sel -> elem_at T data idx = elem_at T data' idx) ->
  default_value_loop T data sel y = default_value_loop T data' sel y.
Proof.
  revert y; induction sel as [|idx sel IH]; intros y Hsame;
    cbn [default_value_loop]; [reflexivity|].
  selected_round IH Hsame.
Qed.

Lemma insert_byte_to_res_column_selected (sel : list uint16_t)
    (res : IColumn) :
  (forall idx, In idx sel -> elem_at T data idx = elem_at T data' idx) ->
  insert_byte_to_res_column T data sel res =
  insert_byte_to_res_column T data' sel res.
Proof.
  revert res; induction sel as [|idx sel IH]; intros res Hsame;
    cbn [insert_byte_to_res_column]; [reflexivity|].
  rewrite (Hsame _ (in_eq _ _)).
  destruct (elem_at T data' idx) as [obj| |]; cbn [bind]; try reflexivity.
  destruct (object_byte obj 0); cbn [bind]; try reflexivity.
  destruct res as [Y rd| |]; try reflexivity.
  destruct Y; try reflexivity.
  apply IH. intros j Hj. apply Hsame. apply in_cons. exact Hj.
Qed.

End SelectedRowsOnly.

(** X12: The materialization reads the container's size and the selected
    rows, nothing else: two containers of the same size that agree on
    every selected row give the same outcome, whatever their other
    rows hold. *)
Theorem filter_by_selector_reads_selected_rows_only {codec : DateTimeCodec}
    (mem : Memory) (T : PType) (data data' : Container)
    (sel : list uint16_t) (col : IColumn) :
  size T data = size T data' ->
  (forall idx, In idx sel ->
               row T data (row_index idx) = row T data' (row_index idx)) ->
  filter_by_selector mem T data sel col =
  filter_by_selector mem T data' sel col.
Proof.
  intros Hsize Hrows.
  assert (Hsame : forall idx, In idx sel ->
                    elem_at T data idx = elem_at T data' idx).
  { intros idx Hin. unfold elem_at. rewrite Hsize.
    fold (row_index idx). rewrite (Hrows idx Hin). reflexivity. }
  unfold filter_by_selector, insert_default_value_res_column.
  destruct T; try reflexivity;
    rewrite ?(insert_byte_to_res_column_selected _ data data' sel col Hsame);
    try reflexivity;
    try (match goal with
         | |- context [bind ?m _] => destruct m; cbn [bind]
         end; try reflexivity);
    rewrite ?(insert_string_to_res_column_selected mem _ data data' sel _ Hsame),
            ?(insert_decimal_to_res_column_selected _ data data' sel _ Hsame),
            ?(insert_datetime_to_res_column_selected _ data data' sel _ Hsame),
            ?(insert_date_to_res_column_selected _ data data' sel _ Hsame),
            ?(default_value_loop_selected _ data data' sel _ Hsame);
    reflexivity.
Qed.

Lemma filter_by_selector_reads_selected_rows_only_witness :
  size T_Int32 Sample.int32_rows =
    size T_Int32 (map byte_of_Z [1; 0; 0; 0;  9; 9; 9; 9;  255; 255; 255; 255])
  /\ (forall idx, In idx [to_uint16 2; to_uint16 0] ->
        row T_Int32 Sample.int32_rows (row_index idx) =
        row T_Int32 (map byte_of_Z [1; 0; 0; 0;  9; 9; 9; 9;
                                    255; 255; 255; 255]) (row_index idx))
  /\ filter_by_selector (codec := SampleCodec.codec) Sample.zero_memory T_Int32
       Sample.int32_rows [to_uint16 2; to_uint16 0] (ColumnVector T_Int32 []) =
     filter_by_selector (codec := SampleCodec.codec) Sample.zero_memory T_Int32
       (map byte_of_Z [1; 0; 0; 0;  9; 9; 9; 9;  255; 255; 255; 255])
       [to_uint16 2; to_uint16 0] (ColumnVector T_Int32 []).
Proof.
  assert (Hsize : size T_Int32 Sample.int32_rows =
                  size T_Int32 (map byte_of_Z [1; 0; 0; 0;  9; 9; 9; 9;
                                               255; 255; 255; 255]))
    by reflexivity.
  assert (Hrows : forall idx, In idx [to_uint16 2; to_uint16 0] ->
            row T_Int32 Sample.int32_rows (row_index idx) =
            row T_Int32 (map byte_of_Z [1; 0; 0; 0;  9; 9; 9; 9;
                                        255; 255; 255; 255]) (row_index idx)).
  { intros idx [<-|[<-|[]]]; vm_compute; reflexivity. }
  split; [exact Hsize|]. split; [exact Hrows|].
  exact (filter_by_selector_reads_selected_rows_only
           (codec := SampleCodec.codec) Sample.zero_memory T_Int32
           Sample.int32_rows _ [to_uint16 2; to_uint16 0]
           (ColumnVector T_Int32 []) Hsize Hrows).
Defined.

(** ** What a selection reads of the memory *)

Lemma insert_string_to_res_column_memory {codec : DateTimeCodec}
    (mem mem' : Memory) (T : PType) (data : Container) (sel : list uint16_t)
    (res : list (list byte)) :
  (forall idx, In idx sel -> in_range T data idx ->
     let sv := as_StringValue (row T data (row_index idx)) in
     read_bytes mem (sv_ptr sv) (Z.to_nat (sv_len sv)) =
     read_bytes mem' (sv_ptr sv) (Z.to_nat (sv_len sv))) ->
  insert_string_to_res_column mem T data sel res =
  insert_string_to_res_column mem' T data sel res.
Proof.
  revert res; induction sel as [|idx sel IH]; intros res Hsame;
    cbn [insert_string_to_res_column]; [reflexivity|].
  destruct (in_range_dec T data idx) as [Hin|Hout].
  - rewrite (elem_at_in_range T data idx Hin). cbn [bind].
    rewrite (Hsame idx (in_eq _ _) Hin).
    apply IH. intros j Hj. apply Hsame. apply in_cons. exact Hj.
  - rewrite (elem_at_out_of_range T data idx Hout). reflexivity.
Qed.

(** X13: Only the string path reads the memory behind the descriptors, and
    there only the bytes the selected descriptors refer to: for every
    other element type the outcome is the same under any two memories,
    and for strings under any two memories that agree on the bytes of
    each selected descriptor. *)
Theorem filter_by_selector_memory_footprint {codec : DateTimeCodec}
    (mem mem' : Memory) (T : PType) (data : Container)
    (sel : list uint16_t) (col : IColumn) :
  (T <> T_StringValue ->
   filter_by_selector mem T data sel col =
   filter_by_selector mem' T data sel col)
  /\ ((forall idx, In idx sel -> in_range T_StringValue data idx ->
         let sv := as_StringValue (row T_StringValue data (row_index idx)) in
         read_bytes mem (sv_ptr sv) (Z.to_nat (sv_len sv)) =
         read_bytes mem' (sv_ptr sv) (Z.to_nat (sv_len sv))) ->
      filter_by_selector mem T_StringValue data sel col =
      filter_by_selector mem' T_StringValue data sel col).
Proof.
  split.
  - intro HT. destruct T; try congruence; reflexivity.
  - intro Hsame. unfold filter_by_selector.
    destruct (cast_ColumnString col) as [res| |]; cbn [bind]; try reflexivity.
    rewrite (insert_string_to_res_column_memory mem mem' _ data sel res Hsame).
    reflexivity.
Qed.

Lemma filter_by_selector_memory_footprint_witness :
  T_Int32 <> T_StringValue
  /\ filter_by_selector (codec := SampleCodec.codec) Sample.zero_memory T_Int32
       Sample.int32_rows Sample.sel_2_0_1 (ColumnVector T_Int32 []) =
     filter_by_selector (codec := SampleCodec.codec) Sample.marked_memory
       T_Int32 Sample.int32_rows Sample.sel_2_0_1 (ColumnVector T_Int32 [])
  /\ (forall idx, In idx (full_range 3) ->
        in_range T_StringValue Sample.descriptors idx ->
        let sv := as_StringValue
                    (row T_StringValue Sample.descriptors (row_index idx)) in
        read_bytes Sample.dictionary_memory (sv_ptr sv) (Z.to_nat (sv_len sv)) =
        read_bytes Sample.dictionary_memory_changed_behind (sv_ptr sv)
          (Z.to_nat (sv_len sv)))
  /\ filter_by_selector (codec := SampleCodec.codec) Sample.dictionary_memory
       T_StringValue Sample.descriptors (full_range 3) (ColumnString []) =
     filter_by_selector (codec := SampleCodec.codec)
       Sample.dictionary_memory_changed_behind T_StringValue
       Sample.descriptors (full_range 3) (ColumnString [])
  /\ Sample.dictionary_memory 4108 <>
     Sample.dictionary_memory_changed_behind 4108.
Proof.
  assert (HT : T_Int32 <> T_StringValue) by discriminate.
  assert (Hsame : forall idx, In idx (full_range 3) ->
            in_range T_StringValue Sample.descriptors idx ->
            let sv := as_StringValue
                        (row T_StringValue Sample.descriptors (row_index idx)) in
            read_bytes Sample.dictionary_memory (sv_ptr sv)
              (Z.to_nat (sv_len sv)) =
            read_bytes Sample.dictionary_memory_changed_behind (sv_ptr sv)
              (Z.to_nat (sv_len sv))).
  { intros idx [<-|[<-|[<-|[]]]] _; vm_compute; reflexivity. }
  split; [exact HT|]. split.
  { exact (proj1 (filter_by_selector_memory_footprint
                    (codec := SampleCodec.codec) Sample.zero_memory
                    Sample.marked_memory T_Int32 Sample.int32_rows
                    Sample.sel_2_0_1 (ColumnVector T_Int32 [])) HT). }
  split; [exact Hsame|]. split.
  { exact (proj2 (filter_by_selector_memory_footprint
                    (codec := SampleCodec.codec) Sample.dictionary_memory
                    Sample.dictionary_memory_changed_behind T_StringValue
                    Sample.descriptors (full_range 3) (ColumnString []))
             Hsame). }
  vm_compute. discriminate.
Defined.

(** ** The width [get_date_at] needs *)

(** X14: [get_date_at] reads the first three bytes of the selected object:
    on an element type of at least three bytes and a valid index it
    yields their little-endian value, below 2^24; on a narrower element
    type it reads past the object, and on an index at or beyond the
    size past the container, both undefined. *)
Theorem get_date_at_width (T : PType) (data : Container) (idx : uint16_t) :
  (in_range T data idx -> (3 <= sizeof T)%nat ->
   get_date_at T data idx =
     Done (le_decode (firstn 3 (row T data (row_index idx))))
   /\ 0 <= le_decode (firstn 3 (row T data (row_index idx))) < 2 ^ 24)
  /\ (in_range T data idx -> (sizeof T < 3)%nat ->
      get_date_at T data idx = Undefined)
  /\ (~ in_range T data idx -> get_date_at T data idx = Undefined).
Proof.
  split; [|split].
  - intros Hin Hwide. unfold get_date_at.
    rewrite (elem_at_in_range T data idx Hin). cbn [bind].
    pose proof (length_row T data (row_index idx) Hin) as Hlen.
    destruct (row T data (row_index idx)) as [|b0 [|b1 [|b2 r]]];
      cbn [length] in Hlen; try lia.
    cbn [object_byte nth_error bind firstn].
    rewrite unpack_three_bytes. split; [reflexivity|].
    exact (le_decode_range [b0; b1; b2]).
  - intros Hin Hnarrow. unfold get_date_at.
    rewrite (elem_at_in_range T data idx Hin). cbn [bind].
    pose proof (length_row T data (row_index idx) Hin) as Hlen.
    destruct (row T data (row_index idx)) as [|b0 [|b1 [|b2 r]]];
      cbn [length] in Hlen; try lia; reflexivity.
  - intro Hout. unfold get_date_at.
    rewrite (elem_at_out_of_range T data idx Hout). reflexivity.
Qed.

Lemma get_date_at_width_witness :
  in_range T_uint24_t Sample.two_dates (to_uint16 1)
  /\ (3 <= sizeof T_uint24_t)%nat
  /\ get_date_at T_uint24_t Sample.two_dates (to_uint16 1) =
     Done (le_decode
             (firstn 3 (row T_uint24_t Sample.two_dates
                          (row_index (to_uint16 1)))))
  /\ in_range T_Int8 Sample.two_dates (to_uint16 1)
  /\ (sizeof T_Int8 < 3)%nat
  /\ get_date_at T_Int8 Sample.two_dates (to_uint16 1) = Undefined
  /\ ~ in_range T_uint24_t Sample.two_dates (to_uint16 2)
  /\ get_date_at T_uint24_t Sample.two_dates (to_uint16 2) = Undefined.
Proof.
  assert (H1 : in_range T_uint24_t Sample.two_dates (to_uint16 1))
    by (unfold in_range; vm_compute; lia).
  assert (H2 : (3 <= sizeof T_uint24_t)%nat) by (cbn; lia).
  assert (H3 : in_range T_Int8 Sample.two_dates (to_uint16 1))
    by (unfold in_range; vm_compute; lia).
  assert (H4 : (sizeof T_Int8 < 3)%nat) by (cbn; lia).
  assert (H5 : ~ in_range T_uint24_t Sample.two_dates (to_uint16 2))
    by (unfold in_range; vm_compute; lia).
  split; [exact H1|]. split; [exact H2|]. split.
  { exact (proj1 (proj1 (get_date_at_width T_uint24_t Sample.two_dates
                           (to_uint16 1)) H1 H2)). }
  split; [exact H3|]. split; [exact H4|]. split.
  { exact (proj1 (proj2 (get_date_at_width T_Int8 Sample.two_dates
                           (to_uint16 1))) H3 H4). }
  split; [exact H5|].
  exact (proj2 (proj2 (get_date_at_width T_uint24_t Sample.two_dates
                         (to_uint16 2))) H5).
Defined.

(** * Further properties of the container and the guards *)

(** ** Whole rows, kept by every insertion *)

Lemma insert_many_dict_loop_length (data_array : list Z) (start_index : nat)
    (start_offset_array len_array : list Z) (dict_data : Z) (num : nat)
    (data data' : Container) :
  insert_many_dict_loop data_array start_index start_offset_array len_array
    dict_data num data = Done data' ->
  length data' = (length data + num * sizeof T_StringValue)%nat
  /\ firstn (length data) data' = data.
Proof.
  revert start_index data.
  induction num as [|num IH]; intros start_index data Hrun.
  - cbn in Hrun. injection Hrun as <-. split; [lia | apply firstn_all].
  - cbn [insert_many_dict_loop] in Hrun.
    destruct (array_at data_array (Z.of_nat start_index)) as [c| |];
      cbn [bind] in Hrun; try discriminate Hrun.
    destruct (array_at start_offset_array c) as [o| |];
      cbn [bind] in Hrun; try discriminate Hrun.
    destruct (array_at len_array c) as [l| |];
      cbn [bind] in Hrun; try discriminate Hrun.
    apply IH in Hrun. destruct Hrun as [Hlen Hpre].
    unfold insert_string_value, push_back_without_reserve in *.
    rewrite length_app, length_StringValue_bytes in *.
    split; [lia|].
    replace (firstn (length data) data')
      with (firstn (length data)
              (firstn (length data + sizeof T_StringValue) data'))
      by (rewrite firstn_firstn; f_equal; lia).
    rewrite Hpre. apply firstn_app_exact. reflexivity.
Qed.

Lemma insert_many_binary_loop_length (data_array : Z)
    (len_array start_offset_array : list Z) (i num : nat)
    (data data' : Container) :
  insert_many_binary_loop data_array len_array start_offset_array i num data
  = Done data' ->
  length data' = (length data + num * sizeof T_StringValue)%nat
  /\ firstn (length data) data' = data.
Proof.
  revert i data.
  induction num as [|num IH]; intros i data Hrun.
  - cbn in Hrun. injection Hrun as <-. split; [lia | apply firstn_all].
  - cbn [insert_many_binary_loop] in Hrun.
    destruct (array_at len_array (Z.of_nat i)) as [l| |];
      cbn [bind] in Hrun; try discriminate Hrun.
    destruct (array_at start_offset_array (Z.of_nat i)) as [o| |];
      cbn [bind] in Hrun; try discriminate Hrun.
    apply IH in Hrun. destruct Hrun as [Hlen Hpre].
    unfold insert_string_value, push_back_without_reserve in *.
    rewrite length_app, length_StringValue_bytes in *.
    split; [lia|].
    replace (firstn (length data) data')
      with (firstn (length data)
              (firstn (length data + sizeof T_StringValue) data'))
      by (rewrite firstn_firstn; f_equal; lia).
    rewrite Hpre. apply firstn_app_exact. reflexivity.
Qed.

Lemma whole_rows_grown (T : PType) (data data' : Container) (n : nat) :
  whole_rows T data ->
  length data' = (length data + n * sizeof T)%nat ->
  whole_rows T data' /\ size T data' = (size T data + n)%nat.
Proof.
  unfold whole_rows. intros Hw Hlen.
  assert (Hs : size T data' = (size T data + n)%nat).
  { unfold size at 1. rewrite Hlen, Hw.
    replace (size T data * sizeof T + n * sizeof T)%nat
      with ((size T data + n) * sizeof T)%nat by lia.
    apply Nat.div_mul. pose proof (sizeof_pos T). lia. }
  split; [|exact Hs]. rewrite Hs, Hlen, Hw. lia.
Qed.

(** X16: Every insertion entry point keeps the container a sequence of whole
    rows and only appends: a single insertion adds one row for every
    element type; a dictionary or binary batch that returns has added
    [num] rows for the string type and none for any other; the bytes
    stored before are a prefix of the result in each case; and [clear]
    leaves no row. *)
Theorem insertion_keeps_whole_rows (mem : Memory) (T : PType)
    (data : Container) :
  whole_rows T data ->
  (forall data_ptr length,
      whole_rows T (insert_data mem T data_ptr length data)
      /\ size T (insert_data mem T data_ptr length data) = S (size T data)
      /\ firstn (List.length data) (insert_data mem T data_ptr length data)
         = data)
  /\ (forall data_array start_index start_offset_array len_array dict_data
             num data',
         insert_many_dict_data T data_array start_index start_offset_array
           len_array dict_data num data = Done data' ->
         whole_rows T data'
         /\ size T data' =
            (size T data + if PType_eqb T T_StringValue then num else 0)%nat
         /\ firstn (List.length data) data' = data)
  /\ (forall data_array len_array start_offset_array num data',
         insert_many_binary_data T data_array len_array start_offset_array
           num data = Done data' ->
         whole_rows T data'
         /\ size T data' =
            (size T data + if PType_eqb T T_StringValue then num else 0)%nat
         /\ firstn (List.length data) data' = data)
  /\ (whole_rows T (clear data) /\ size T (clear data) = 0%nat).
Proof.
  intro Hw. split; [|split; [|split]].
  - intros data_ptr len.
    assert (Hlen : length (insert_data mem T data_ptr len data)
                   = (length data + 1 * sizeof T)%nat
                   /\ firstn (length data) (insert_data mem T data_ptr len data)
                      = data).
    { destruct (PType_eqb T T_StringValue) eqn:E.
      - destruct T; try discriminate E. cbn [insert_data].
        unfold insert_string_value, push_back_without_reserve.
        rewrite length_app, length_StringValue_bytes.
        split; [lia | apply firstn_app_exact; reflexivity].
      - rewrite insert_data_closed by (intros ->; discriminate E).
        rewrite length_app, length_read_bytes.
        split; [lia | apply firstn_app_exact; reflexivity]. }
    destruct Hlen as [Hlen Hpre].
    destruct (whole_rows_grown T data _ 1 Hw Hlen) as [Hw' Hs].
    split; [exact Hw'|]. split; [rewrite Hs; lia | exact Hpre].
  - intros data_array start_index start_offset_array len_array dict_data num
           data' Hrun.
    destruct (PType_eqb T T_StringValue) eqn:E.
    + destruct T; try discriminate E. cbn [insert_many_dict_data] in Hrun.
      apply insert_many_dict_loop_length in Hrun. destruct Hrun as [Hlen Hpre].
      destruct (whole_rows_grown T_StringValue data data' num Hw Hlen)
        as [Hw' Hs].
      split; [exact Hw'|]. split; [exact Hs | exact Hpre].
    + assert (Hsame : data' = data)
        by (destruct T; try discriminate E; cbn in Hrun;
            injection Hrun as <-; reflexivity).
      subst data'. split; [exact Hw|]. split; [lia | apply firstn_all].
  - intros data_array len_array start_offset_array num data' Hrun.
    destruct (PType_eqb T T_StringValue) eqn:E.
    + destruct T; try discriminate E. cbn [insert_many_binary_data] in Hrun.
      apply insert_many_binary_loop_length in Hrun.
      destruct Hrun as [Hlen Hpre].
      destruct (whole_rows_grown T_StringValue data data' num Hw Hlen)
        as [Hw' Hs].
      split; [exact Hw'|]. split; [exact Hs | exact Hpre].
    + assert (Hsame : data' = data)
        by (destruct T; try discriminate E; cbn in Hrun;
            injection Hrun as <-; reflexivity).
      subst data'. split; [exact Hw|]. split; [lia | apply firstn_all].
  - split; [apply whole_rows_nil|]. unfold clear, size. cbn [length].
    apply Nat.Div0.div_0_l.
Qed.

Lemma insertion_keeps_whole_rows_witness :
  whole_rows T_decimal12_t []
  /\ whole_rows T_decimal12_t
       (insert_data Sample.decimal_memory T_decimal12_t 0 12 [])
  /\ size T_decimal12_t
       (insert_data Sample.decimal_memory T_decimal12_t 0 12 [])
     = S (size T_decimal12_t []).
Proof.
  assert (Hw : whole_rows T_decimal12_t []) by reflexivity.
  destruct (proj1 (insertion_keeps_whole_rows Sample.decimal_memory
                     T_decimal12_t [] Hw) 0 12) as (Hw' & Hs & _).
  split; [exact Hw|]. split; [exact Hw' | exact Hs].
Defined.

(** ** Telling the guarded operations apart *)

(** X17: The logged message tells which guarded operation was called, up to
    one group: two calls abort with the same message only if they go to
    the same member function, or both go to one of [get],
    [get_float64], [get_uint], [get_bool] and [get_int]. *)
Theorem guarded_failures_tell_operations_apart (T T' : PType)
    (data data' : Container) (c1 c2 : Guard.GuardedCall) :
  Guard.call_guarded T data c1 = Guard.call_guarded T' data' c2 ->
  Guard.operation_name c1 = Guard.operation_name c2
  \/ (logs_get_field c1 = true /\ logs_get_field c2 = true).
Proof.
  intro H.
  destruct c1, c2; cbn in H |- *;
    first [ left; reflexivity
          | right; split; reflexivity
          | discriminate H ].
Qed.

Lemma guarded_failures_tell_operations_apart_witness :
  Guard.call_guarded T_Int32 Sample.int32_rows (Guard.pop_back 1)
  = Guard.call_guarded T_bool [] (Guard.pop_back 7)
  /\ (Guard.operation_name (Guard.pop_back 1)
      = Guard.operation_name (Guard.pop_back 7)
      \/ (logs_get_field (Guard.pop_back 1) = true
          /\ logs_get_field (Guard.pop_back 7) = true)).
Proof.
  assert (H : Guard.call_guarded T_Int32 Sample.int32_rows (Guard.pop_back 1)
              = Guard.call_guarded T_bool [] (Guard.pop_back 7))
    by reflexivity.
  split; [exact H|].
  exact (guarded_failures_tell_operations_apart T_Int32 T_bool
           Sample.int32_rows [] (Guard.pop_back 1) (Guard.pop_back 7) H).
Defined.

(** ** A batch, then any selection of it *)

(** X18: After a batch of [n] values has been inserted into an empty
    container, any selection of indices below [n], in any order and
    with repetitions, materializes the decoded input values it names:
    entry [idx] yields the decoded value of the [sizeof T] bytes that
    lay at [data_ptr + idx * sizeof T]. *)
Theorem batch_then_selection {codec : DateTimeCodec} (mem : Memory)
    (T : PType) (data_ptr : Z) (n : nat) (sel : list uint16_t)
    (col : IColumn) :
  supported T = true ->
  T <> T_StringValue ->
  destination_ready T col = true ->
  Forall (fun idx => (row_index idx < n)%nat) sel ->
  exists col',
    filter_by_selector mem T (insert_many_fix_len_data mem T data_ptr n [])
      sel col = Done (OK, col')
    /\ rows_of col' =
       rows_of col ++
       map (fun idx =>
              spec_decode mem T
                (read_bytes mem
                   (data_ptr + Z.of_nat (row_index idx * sizeof T))
                   (sizeof T)))
           sel.
Proof.
  intros Hsup Hstr Hready Hsel.
  rewrite (insert_many_fix_len_data_closed mem T data_ptr n [] Hstr).
  cbn [app].
  set (data := read_bytes mem data_ptr (n * sizeof T)).
  assert (Hsize : size T data = n)
    by (apply size_whole; apply length_read_bytes).
  assert (Hin : Forall (in_range T data) sel).
  { revert Hsel. apply Forall_impl. intros idx Hidx.
    unfold in_range. rewrite Hsize. exact Hidx. }
  destruct (filter_by_selector_rows mem T data sel col Hsup Hready Hin)
    as (col' & Hrun & Hrows).
  exists col'. split; [exact Hrun|].
  rewrite Hrows. apply (f_equal2 (@app Value)); [reflexivity|].
  apply map_ext_in. intros idx Hidx.
  rewrite Forall_forall in Hsel.
  unfold data. rewrite (row_read_bytes mem T data_ptr n _ (Hsel idx Hidx)).
  reflexivity.
Qed.

Lemma batch_then_selection_witness :
  supported T_Int32 = true
  /\ T_Int32 <> T_StringValue
  /\ destination_ready T_Int32 (ColumnVector T_Int32 []) = true
  /\ Forall (fun idx => (row_index idx < 3)%nat) Sample.sel_2_0_1
  /\ exists col',
      filter_by_selector (codec := SampleCodec.codec)
        (mem_of_buffer 100 Sample.int32_rows) T_Int32
        (insert_many_fix_len_data (mem_of_buffer 100 Sample.int32_rows)
           T_Int32 100 3 [])
        Sample.sel_2_0_1 (ColumnVector T_Int32 []) = Done (OK, col')
      /\ rows_of col' =
         rows_of (ColumnVector T_Int32 []) ++
         map (fun idx =>
                spec_decode (codec := SampleCodec.codec)
                  (mem_of_buffer 100 Sample.int32_rows) T_Int32
                  (read_bytes (mem_of_buffer 100 Sample.int32_rows)
                     (100 + Z.of_nat (row_index idx * sizeof T_Int32))
                     (sizeof T_Int32)))
             Sample.sel_2_0_1.
Proof.
  assert (HT : T_Int32 <> T_StringValue) by discriminate.
  assert (Hsel : Forall (fun idx => (row_index idx < 3)%nat) Sample.sel_2_0_1)
    by (repeat constructor; vm_compute; lia).
  split; [reflexivity|]. split; [exact HT|]. split; [reflexivity|].
  split; [exact Hsel|].
  exact (batch_then_selection (codec := SampleCodec.codec)
           (mem_of_buffer 100 Sample.int32_rows) T_Int32 100 3
           Sample.sel_2_0_1 (ColumnVector T_Int32 []) eq_refl HT eq_refl Hsel).
Defined.
